(** * SplitwiseAI member-side app: a shallow embedding of the front end

    The repository is a Next.js/React front end.  Each component is a
    set of [useState] cells plus event handlers; asynchronous handlers
    ([async] functions awaiting [fetch]) run up to their first [await],
    and resume when the reply arrives.  The embedding keeps this shape:

    - a component's [useState] cells form a record;
    - a handler is a function on that record;
    - a request in flight is a [Task] kept next to the component state,
      and the arrival of its reply is an event of its own, so that
      clicks may interleave with pending requests as they do in the
      browser;
    - what is rendered decides which clicks exist: every click event is
      guarded by the JSX condition under which its button is rendered
      and enabled.

    A finite JavaScript number (a double) is represented by the
    rational it denotes ([Q]).  Arithmetic on numbers rounds as
    binary64 does: the result of a division is a [JSNumber], the double
    nearest to the exact quotient or one of the non-finite values, and
    [toFixed] prints the decimal digits nearest to the double. *)

From Stdlib Require Import QArith Qabs Qround Qpower Lqa DecimalString.
From stdpp Require Import gmap strings list.

Open Scope string_scope.

(** ** Binary floating point

    Rounding of a rational to a floating-point number with a binary
    significand, to nearest with ties to even. *)

Module Binary.

(** [2^k] for any integer [k]. *)
Definition pow2 (k : Z) : Q := (2 ^ k)%Q.

(** The integer nearest to [y]; of two nearest integers, the even
    one. *)
Definition nearestEven (y : Q) : Z :=
  let f := Qfloor y in
  match (y - inject_Z f ?= 1 # 2)%Q with
  | Lt => f
  | Gt => (f + 1)%Z
  | Eq => if Z.even f then f else (f + 1)%Z
  end.

(** The binary exponent of a number other than zero: the [e] with
    [2^e <= |q| < 2^(e+1)].  The difference of the bit lengths of
    numerator and denominator is [e] or [e + 1]. *)
Definition exponent (q : Q) : Z :=
  let e0 := (Z.log2 (Z.abs (Qnum q)) - Z.log2 (Zpos (Qden q)))%Z in
  if Qle_bool (pow2 e0) (Qabs q) then e0 else (e0 - 1)%Z.

(** [q] rounded to the nearest multiple of [2^e]. *)
Definition roundAt (e : Z) (q : Q) : Q :=
  Qred (inject_Z (nearestEven (q / pow2 e)) * pow2 e).

(** [q] rounded to 53 significant bits, the precision of binary64,
    whatever its exponent. *)
Definition round53 (q : Q) : Q := roundAt (exponent q - 52) q.

End Binary.

(** ** JavaScript values used by the components *)

Module JS.

(** The line feed written [\n] in the template literals. *)
Definition nl : string := String (Ascii.ascii_of_nat 10) "".

(** Truthiness of a [string | null] cell: [null] and the empty string
    are falsy. *)
Definition truthy (s : option string) : bool :=
  match s with
  | Some e => negb (String.eqb e "")
  | None => false
  end.

(** A number: a finite double, given by the rational it denotes, or
    one of the three non-finite values.  The two zeros are one value
    here: the components only divide a number by an array length and
    print it with [toFixed], which treat [-0] as [0]. *)
Inductive JSNumber : Type :=
| Finite (q : Q)
| PosInfinity
| NegInfinity
| NaN.

Definition isFinite (x : JSNumber) : bool :=
  match x with
  | Finite _ => true
  | _ => false
  end.

(** [Number.MAX_VALUE], the largest double: [(2^53 - 1) * 2^971]. *)
Definition MAX_VALUE : Q := inject_Z (2 ^ 53 - 1) * Binary.pow2 971.

(** The double nearest to a rational, ties to even: 53 significant
    bits, no bit below [2^-1074], and an infinity once the rounded
    magnitude reaches [2^1024]. *)
Definition toDouble (q : Q) : JSNumber :=
  let r := Binary.roundAt (Z.max (Binary.exponent q - 52) (-1074)) q in
  if Qle_bool (Binary.pow2 1024) r then PosInfinity
  else if Qle_bool r (- Binary.pow2 1024) then NegInfinity
  else Finite r.

(** [x / n] for a finite [x] and an array length [n]: the double
    nearest to the quotient; a length is never negative zero, so
    [x / 0] is [+Infinity], [-Infinity] or [NaN] by the sign of [x]. *)
Definition div (x : Q) (n : nat) : JSNumber :=
  match n with
  | O =>
      match (x ?= 0)%Q with
      | Gt => PosInfinity
      | Lt => NegInfinity
      | Eq => NaN
      end
  | S _ => toDouble (x / inject_Z (Z.of_nat n))
  end.

(** The decimal digits of a natural number, ["0"] for zero. *)
Definition decimal (n : Z) : string :=
  NilZero.string_of_uint (N.to_uint (Z.to_N n)).

Fixpoint zeros (k : nat) : string :=
  match k with
  | O => ""
  | S k => "0" ++ zeros k
  end.

(** Step 11.a of [Number.prototype.toFixed]: the integer [n] for which
    [n / 10^f - x] is closest to zero, the larger one of two. *)
Definition fixedDigits (x : Q) (f : nat) : Z :=
  Qfloor (x * inject_Z (10 ^ Z.of_nat f) + (1 # 2)).

(** Steps 11.b and 11.c: the digits of [n] with a point before the
    last [f] of them, padded with zeros so that a digit precedes the
    point. *)
Definition fixedText (n : Z) (f : nat) : string :=
  let m := decimal n in
  if (f =? 0)%nat then m
  else
    let k := String.length m in
    let m := if (k <=? f)%nat then zeros (f + 1 - k) ++ m else m in
    let k := if (k <=? f)%nat then (f + 1)%nat else k in
    String.substring 0 (k - f) m ++ "." ++ String.substring (k - f) f m.

(** [x.toFixed(f)] for [0 <= f <= 100].  From [10^21] on [toFixed]
    returns [String(x)], in exponent notation, whose last digit
    ECMAScript leaves to the implementation: [exponential] stands for
    that function. *)
Definition toFixed (exponential : Q -> string) (x : JSNumber) (f : nat) : string :=
  match x with
  | NaN => "NaN"
  | PosInfinity => "Infinity"
  | NegInfinity => "-Infinity"
  | Finite q =>
      let s := if Qle_bool 0 q then "" else "-" in
      let x := Qabs q in
      let m :=
        if Qle_bool (inject_Z (10 ^ 21)) x then exponential x
        else fixedText (fixedDigits x f) f in
      s ++ m
  end.

(** [Array.prototype.includes] on an array of strings. *)
Definition includes (l : list string) (x : string) : bool :=
  existsb (String.eqb x) l.

End JS.

(** ** The JSON interfaces declared in the components *)

Module Api.

Record ProposedChange : Type := {
  change_item_name : string;
  change_action : string
}.

(** [interface PendingUpdate] (BatchReviewComponent.tsx). *)
Record PendingUpdate : Type := {
  _id : string;
  updated_by_name : string;
  updated_by_email : string;
  proposed_changes : list ProposedChange;
  created_at : string
}.

(** [interface GroupedRequest]. *)
Record GroupedRequest : Type := {
  expense_id : string;
  expense_description : string;
  expense_total : Q;
  group_name : string;
  request_count : nat;
  requests : list PendingUpdate;
  unique_users : list string
}.

Record MemberDifference : Type := {
  original_amount : Q;
  new_amount : Q;
  member_difference : Q;
  percentage_change : Q
}.

Record ItemChange : Type := {
  item_name : string;
  original_members : list string;
  new_members : list string;
  added_members : list string;
  removed_members : list string;
  price : Q;
  original_split_per_person : Q;
  new_split_per_person : Q;
  member_count_change : Z
}.

(** [PreviewData.validation]. *)
Record Validation : Type := {
  total_matches : bool;
  original_total : Q;
  new_total : Q;
  difference : Q
}.

Record Summary : Type := {
  items_affected : nat;
  members_affected : nat;
  total_requests : nat
}.

(** [interface PreviewData]. *)
Record PreviewData : Type := {
  preview_expense_id : string;
  preview_expense_description : string;
  preview_expense_total : Q;
  original_splits : gmap string Q;
  new_splits : gmap string Q;
  member_differences : gmap string MemberDifference;
  item_changes : list ItemChange;
  validation : Validation;
  summary : Summary
}.

(** The body of [/api/admin/expense-group-status/<id>]; the component
    reads only [workflow_status]. *)
Record ExpenseStatus : Type := {
  workflow_status : string
}.

(** The body of [/api/admin/preview-splitwise-changes]. *)
Record PreviewResult : Type := {
  result_status : string;
  result_preview : option PreviewData;
  result_comment_preview : option string;
  result_message : string
}.

(** The body sent by [commitDecisions]. *)
Record CommitBody : Type := {
  body_expense_id : string;
  approved_request_ids : list string;
  rejected_request_ids : list string;
  admin_notes : string
}.

(** What an awaited [getToken]/[fetch]/[response.json] sequence yields:
    a reply with [response.ok] and its parsed body; a reply that is not
    ok whose body was parsed as JSON, with its [detail] as the template
    literal prints it; or anything thrown inside the [try] and caught
    by the handler's [catch]: [getToken] or [fetch] rejecting, or
    [response.json] rejecting on a body that is not JSON, whatever the
    status of the response. *)
Inductive FetchResult (A : Type) : Type :=
| HttpOk (body : A)
| HttpError (status : nat) (detail : string)
| Thrown.

Arguments HttpOk {A} body.
Arguments HttpError {A} status detail.
Arguments Thrown {A}.

End Api.

Import Api.

(** ** BatchReviewComponent: state, pending requests, events *)

Module BatchReview.

(** [useState<"decisions" | "preview" | "completed">]. *)
Inductive WorkflowStep : Type :=
| StepDecisions
| StepPreview
| StepCompleted.

(** The second argument of [toggleRequestSelection]:
    ["approve" | "reject"]. *)
Inductive ToggleAction : Type :=
| Approve
| Reject.

(** The [useState] cells of the component, in declaration order. *)
Record State : Type := {
  groupedRequests : list GroupedRequest;
  loading : bool;
  selectedExpense : option string;
  selectedRequests : gset string;
  rejectedRequests : gset string;
  preview : option PreviewData;
  workflowStep : WorkflowStep;
  processing : bool;
  adminNotes : string;
  expenseStatus : option ExpenseStatus;
  commentPreview : option string
}.

(** The state setters returned by [useState]. *)
Definition setGroupedRequests (v : list GroupedRequest) (s : State) : State :=
  {| groupedRequests := v; loading := loading s;
     selectedExpense := selectedExpense s;
     selectedRequests := selectedRequests s;
     rejectedRequests := rejectedRequests s; preview := preview s;
     workflowStep := workflowStep s; processing := processing s;
     adminNotes := adminNotes s; expenseStatus := expenseStatus s;
     commentPreview := commentPreview s |}.

Definition setLoading (v : bool) (s : State) : State :=
  {| groupedRequests := groupedRequests s; loading := v;
     selectedExpense := selectedExpense s;
     selectedRequests := selectedRequests s;
     rejectedRequests := rejectedRequests s; preview := preview s;
     workflowStep := workflowStep s; processing := processing s;
     adminNotes := adminNotes s; expenseStatus := expenseStatus s;
     commentPreview := commentPreview s |}.

Definition setSelectedExpense (v : option string) (s : State) : State :=
  {| groupedRequests := groupedRequests s; loading := loading s;
     selectedExpense := v;
     selectedRequests := selectedRequests s;
     rejectedRequests := rejectedRequests s; preview := preview s;
     workflowStep := workflowStep s; processing := processing s;
     adminNotes := adminNotes s; expenseStatus := expenseStatus s;
     commentPreview := commentPreview s |}.

Definition setSelectedRequests (v : gset string) (s : State) : State :=
  {| groupedRequests := groupedRequests s; loading := loading s;
     selectedExpense := selectedExpense s;
     selectedRequests := v;
     rejectedRequests := rejectedRequests s; preview := preview s;
     workflowStep := workflowStep s; processing := processing s;
     adminNotes := adminNotes s; expenseStatus := expenseStatus s;
     commentPreview := commentPreview s |}.

Definition setRejectedRequests (v : gset string) (s : State) : State :=
  {| groupedRequests := groupedRequests s; loading := loading s;
     selectedExpense := selectedExpense s;
     selectedRequests := selectedRequests s;
     rejectedRequests := v; preview := preview s;
     workflowStep := workflowStep s; processing := processing s;
     adminNotes := adminNotes s; expenseStatus := expenseStatus s;
     commentPreview := commentPreview s |}.

Definition setPreview (v : option PreviewData) (s : State) : State :=
  {| groupedRequests := groupedRequests s; loading := loading s;
     selectedExpense := selectedExpense s;
     selectedRequests := selectedRequests s;
     rejectedRequests := rejectedRequests s; preview := v;
     workflowStep := workflowStep s; processing := processing s;
     adminNotes := adminNotes s; expenseStatus := expenseStatus s;
     commentPreview := commentPreview s |}.

Definition setWorkflowStep (v : WorkflowStep) (s : State) : State :=
  {| groupedRequests := groupedRequests s; loading := loading s;
     selectedExpense := selectedExpense s;
     selectedRequests := selectedRequests s;
     rejectedRequests := rejectedRequests s; preview := preview s;
     workflowStep := v; processing := processing s;
     adminNotes := adminNotes s; expenseStatus := expenseStatus s;
     commentPreview := commentPreview s |}.

Definition setProcessing (v : bool) (s : State) : State :=
  {| groupedRequests := groupedRequests s; loading := loading s;
     selectedExpense := selectedExpense s;
     selectedRequests := selectedRequests s;
     rejectedRequests := rejectedRequests s; preview := preview s;
     workflowStep := workflowStep s; processing := v;
     adminNotes := adminNotes s; expenseStatus := expenseStatus s;
     commentPreview := commentPreview s |}.

Definition setAdminNotes (v : string) (s : State) : State :=
  {| groupedRequests := groupedRequests s; loading := loading s;
     selectedExpense := selectedExpense s;
     selectedRequests := selectedRequests s;
     rejectedRequests := rejectedRequests s; preview := preview s;
     workflowStep := workflowStep s; processing := processing s;
     adminNotes := v; expenseStatus := expenseStatus s;
     commentPreview := commentPreview s |}.

Definition setExpenseStatus (v : option ExpenseStatus) (s : State) : State :=
  {| groupedRequests := groupedRequests s; loading := loading s;
     selectedExpense := selectedExpense s;
     selectedRequests := selectedRequests s;
     rejectedRequests := rejectedRequests s; preview := preview s;
     workflowStep := workflowStep s; processing := processing s;
     adminNotes := adminNotes s; expenseStatus := v;
     commentPreview := commentPreview s |}.

Definition setCommentPreview (v : option string) (s : State) : State :=
  {| groupedRequests := groupedRequests s; loading := loading s;
     selectedExpense := selectedExpense s;
     selectedRequests := selectedRequests s;
     rejectedRequests := rejectedRequests s; preview := preview s;
     workflowStep := workflowStep s; processing := processing s;
     adminNotes := adminNotes s; expenseStatus := expenseStatus s;
     commentPreview := v |}.

(** The initial values passed to [useState]. *)
Definition initialState : State :=
  {| groupedRequests := []; loading := true; selectedExpense := None;
     selectedRequests := ∅; rejectedRequests := ∅; preview := None;
     workflowStep := StepDecisions; processing := false;
     adminNotes := ""; expenseStatus := None; commentPreview := None |}.

(** *** Synchronous handlers *)

(** [handleExpenseSelect]. *)
Definition handleExpenseSelect (expenseId : string) (s : State) : State :=
  setWorkflowStep StepDecisions
    (setPreview None
      (setRejectedRequests ∅
        (setSelectedRequests ∅
          (setSelectedExpense (Some expenseId) s)))).

(** [toggleRequestSelection]: both branches copy the two sets, update
    the copies and store both. *)
Definition toggleRequestSelection
    (requestId : string) (action : ToggleAction) (s : State) : State :=
  match action with
  | Approve =>
      let newSelected := selectedRequests s in
      let newRejected := rejectedRequests s in
      let '(newSelected, newRejected) :=
        if bool_decide (requestId ∈ newSelected)
        then (newSelected ∖ {[requestId]}, newRejected)
        else (newSelected ∪ {[requestId]}, newRejected ∖ {[requestId]}) in
      setRejectedRequests newRejected (setSelectedRequests newSelected s)
  | Reject =>
      let newSelected := selectedRequests s in
      let newRejected := rejectedRequests s in
      let '(newSelected, newRejected) :=
        if bool_decide (requestId ∈ newRejected)
        then (newSelected, newRejected ∖ {[requestId]})
        else (newSelected ∖ {[requestId]}, newRejected ∪ {[requestId]}) in
      setRejectedRequests newRejected (setSelectedRequests newSelected s)
  end.

(** The [onClick] of the "Go Back to Decisions" button. *)
Definition goBackToDecisions (s : State) : State :=
  setWorkflowStep StepDecisions (setCommentPreview None (setPreview None s)).

(** The state part of the [onClick] of "Process Another Group" (it
    also calls [fetchGroupedRequests]). *)
Definition processAnotherGroup (s : State) : State :=
  setWorkflowStep StepDecisions (setSelectedExpense None s).

(** The branch of [checkExpenseStatus] on [status.workflow_status]. *)
Definition stepOfStatus (status : ExpenseStatus) (s : State) : State :=
  if String.eqb (workflow_status status) "needs_decisions"
  then setWorkflowStep StepDecisions s
  else if String.eqb (workflow_status status) "ready_for_preview"
  then setWorkflowStep StepPreview s
  else if String.eqb (workflow_status status) "completed"
  then setWorkflowStep StepCompleted s
  else s.

(** *** What is rendered *)

(** [groupedRequests.find((g) => g.expense_id === selectedExpense)]. *)
Definition selectedExpenseData (s : State) : option GroupedRequest :=
  find (fun g => bool_decide (Some (expense_id g) = selectedExpense s))
       (groupedRequests s).

(** An expense card is rendered, with [handleExpenseSelect] as its
    [onClick], for every group once [loading] is false. *)
Definition expenseCardRendered (expenseId : string) (s : State) : bool :=
  negb (loading s)
  && existsb (fun g => String.eqb (expense_id g) expenseId)
             (groupedRequests s).

(** [selectedExpenseData && workflowStep === "decisions"]. *)
Definition decisionsPanelRendered (s : State) : bool :=
  negb (loading s)
  && match selectedExpenseData s, workflowStep s with
     | Some _, StepDecisions => true
     | _, _ => false
     end.

(** The approve and reject buttons of one request of the selected
    group. *)
Definition toggleRendered (requestId : string) (s : State) : bool :=
  decisionsPanelRendered s
  && match selectedExpenseData s with
     | Some g => existsb (fun r => String.eqb (_id r) requestId) (requests g)
     | None => false
     end.

(** The "Commit Decisions" button is rendered in the decisions panel,
    [disabled] when [processing] or when both sets are empty. *)
Definition commitAvailable (s : State) : bool :=
  decisionsPanelRendered s
  && negb (processing s
           || ((size (selectedRequests s) =? 0)%nat
               && (size (rejectedRequests s) =? 0)%nat)).

(** [selectedExpenseData && workflowStep === "preview"]. *)
Definition previewPanelRendered (s : State) : bool :=
  negb (loading s)
  && match selectedExpenseData s, workflowStep s with
     | Some _, StepPreview => true
     | _, _ => false
     end.

(** The "Preview Changes" button: [disabled={processing}]. *)
Definition previewAvailable (s : State) : bool :=
  previewPanelRendered s && negb (processing s).

(** The "Go Back to Decisions" button sits inside [{preview && (...)}]
    and is never disabled. *)
Definition goBackAvailable (s : State) : bool :=
  previewPanelRendered s
  && match preview s with
     | Some _ => true
     | None => false
     end.

(** The "Update Splitwise & MongoDB" button sits inside
    [{preview && (...)}] too, with
    [disabled={processing || !preview.validation.total_matches}]. *)
Definition applyAvailable (s : State) : bool :=
  previewPanelRendered s
  && match preview s with
     | Some p => negb (processing s || negb (total_matches (validation p)))
     | None => false
     end.

(** [workflowStep === "completed"]: the completion panel and its
    "Process Another Group" button. *)
Definition processAnotherAvailable (s : State) : bool :=
  negb (loading s)
  && match workflowStep s with
     | StepCompleted => true
     | _ => false
     end.

(** *** Requests in flight *)

(** What remains to run in the caller once [checkExpenseStatus]
    returns: nothing (called from the [useEffect] on
    [selectedExpense]), the [finally] of [commitDecisions], or the rest
    of the success branch of [applyToSplitwiseAndMongoDB]. *)
Inductive Continuation : Type :=
| Standalone
| ThenCommitFinally
| ThenApplyRefresh.

(** An [async] handler suspended at its [await fetch(...)].  The
    expense identifier is the [selectedExpense] of the render in which
    the handler was created; [applyFinally] tells a
    [fetchGroupedRequests] that it was awaited by
    [applyToSplitwiseAndMongoDB], whose [finally] runs after it. *)
Inductive Task : Type :=
| FetchGroupedRequests (applyFinally : bool)
| CheckExpenseStatus (expenseId : string) (k : Continuation)
| CommitDecisions (body : CommitBody)
| PreviewSplitwiseChanges (expenseId : string)
| ApplyToSplitwiseAndMongoDB (expenseId : string).

(** The reply to a request, typed by its endpoint. *)
Inductive Reply : Type :=
| GroupedReply (r : FetchResult (list GroupedRequest))
| StatusReply (r : FetchResult ExpenseStatus)
| CommitReply (r : FetchResult string)
| PreviewReply (r : FetchResult PreviewResult)
| ApplyReply (r : FetchResult string).

(** The component together with its environment: the messages shown
    by [alert], oldest first, and the requests in flight. *)
Record World : Type := {
  ui : State;
  alerts : list string;
  inflight : list Task
}.

Definition update (f : State -> State) (w : World) : World :=
  {| ui := f (ui w); alerts := alerts w; inflight := inflight w |}.

Definition alert (msg : string) (w : World) : World :=
  {| ui := ui w; alerts := alerts w ++ [msg]; inflight := inflight w |}.

Definition spawn (t : Task) (w : World) : World :=
  {| ui := ui w; alerts := alerts w; inflight := inflight w ++ [t] |}.

Definition settle (i : nat) (w : World) : World :=
  {| ui := ui w; alerts := alerts w; inflight := delete i (inflight w) |}.

(** After mounting: the first [useEffect] has called
    [fetchGroupedRequests]; the second finds [selectedExpense] null. *)
Definition initialWorld : World :=
  {| ui := initialState; alerts := [];
     inflight := [FetchGroupedRequests false] |}.

(** *** Handlers up to their first [await] *)

(** A click on an expense card: [handleExpenseSelect], then the
    [useEffect] on [selectedExpense], which runs when the value has
    changed and calls [checkExpenseStatus] when it is truthy. *)
Definition clickExpense (expenseId : string) (w : World) : World :=
  let changed := negb (bool_decide (selectedExpense (ui w) = Some expenseId)) in
  let w' := update (handleExpenseSelect expenseId) w in
  if changed && JS.truthy (Some expenseId)
  then spawn (CheckExpenseStatus expenseId Standalone) w'
  else w'.

(** [commitDecisions] up to its [fetch]. *)
Definition commitDecisions (w : World) : World :=
  match selectedExpense (ui w) with
  | Some e =>
      if JS.truthy (Some e)
      then spawn (CommitDecisions
                    {| body_expense_id := e;
                       approved_request_ids := elements (selectedRequests (ui w));
                       rejected_request_ids := elements (rejectedRequests (ui w));
                       admin_notes := adminNotes (ui w) |})
                 (update (setProcessing true) w)
      else w
  | None => w
  end.

(** [previewSplitwiseChanges] up to its [fetch]. *)
Definition previewSplitwiseChanges (w : World) : World :=
  match selectedExpense (ui w) with
  | Some e =>
      if JS.truthy (Some e)
      then spawn (PreviewSplitwiseChanges e) (update (setProcessing true) w)
      else w
  | None => w
  end.

(** [applyToSplitwiseAndMongoDB] up to its [fetch]. *)
Definition applyToSplitwiseAndMongoDB (w : World) : World :=
  match selectedExpense (ui w) with
  | Some e =>
      if JS.truthy (Some e)
      then spawn (ApplyToSplitwiseAndMongoDB e) (update (setProcessing true) w)
      else w
  | None => w
  end.

(** The [onClick] of "Process Another Group". *)
Definition clickProcessAnother (w : World) : World :=
  spawn (FetchGroupedRequests false) (update processAnotherGroup w).

(** *** Handlers from their [await] on *)

(** [fetchGroupedRequests] after its [fetch]; when awaited by
    [applyToSplitwiseAndMongoDB], that handler's [finally] follows. *)
Definition resumeFetchGroupedRequests
    (applyFinally : bool) (r : FetchResult (list GroupedRequest))
    (w : World) : World :=
  let w1 :=
    match r with
    | HttpOk data => update (setGroupedRequests data) w
    | HttpError _ _ => w
    | Thrown => w
    end in
  let w2 := update (setLoading false) w1 in
  if applyFinally then update (setProcessing false) w2 else w2.

(** [checkExpenseStatus] after its [fetch], then its caller. *)
Definition resumeCheckExpenseStatus
    (expenseId : string) (k : Continuation) (r : FetchResult ExpenseStatus)
    (w : World) : World :=
  let w1 :=
    match r with
    | HttpOk status =>
        update (stepOfStatus status) (update (setExpenseStatus (Some status)) w)
    | HttpError _ _ => w
    | Thrown => w
    end in
  match k with
  | Standalone => w1
  | ThenCommitFinally => update (setProcessing false) w1
  | ThenApplyRefresh => spawn (FetchGroupedRequests true) w1
  end.

(** [commitDecisions] after its [fetch]. *)
Definition resumeCommitDecisions
    (body : CommitBody) (r : FetchResult string) (w : World) : World :=
  match r with
  | HttpOk message =>
      spawn (CheckExpenseStatus (body_expense_id body) ThenCommitFinally)
        (update (setWorkflowStep StepPreview)
          (alert ("✅ Decisions committed successfully!" ++ JS.nl ++ message) w))
  | HttpError _ detail =>
      update (setProcessing false) (alert ("❌ Error: " ++ detail) w)
  | Thrown =>
      update (setProcessing false) (alert "❌ Network error occurred" w)
  end.

(** [previewSplitwiseChanges] after its [fetch]. *)
Definition resumePreviewSplitwiseChanges
    (expenseId : string) (r : FetchResult PreviewResult) (w : World) : World :=
  match r with
  | HttpOk result =>
      update (setProcessing false)
        (if String.eqb (result_status result) "preview_ready"
         then update (setCommentPreview (result_comment_preview result))
                (update (setPreview (result_preview result)) w)
         else alert (result_message result) w)
  | HttpError _ detail =>
      update (setProcessing false) (alert ("❌ Error: " ++ detail) w)
  | Thrown =>
      update (setProcessing false) (alert "❌ Network error occurred" w)
  end.

(** [applyToSplitwiseAndMongoDB] after its [fetch]. *)
Definition resumeApplyToSplitwiseAndMongoDB
    (expenseId : string) (r : FetchResult string) (w : World) : World :=
  match r with
  | HttpOk message =>
      spawn (CheckExpenseStatus expenseId ThenApplyRefresh)
        (update (setWorkflowStep StepCompleted)
          (alert ("🎉 SUCCESS!" ++ JS.nl ++ message) w))
  | HttpError _ detail =>
      update (setProcessing false)
        (alert ("❌ CRITICAL ERROR:" ++ JS.nl ++ detail) w)
  | Thrown =>
      update (setProcessing false) (alert "❌ Network error occurred" w)
  end.

(** The reply of a request resumes the handler that awaits it. *)
Definition resume (t : Task) (r : Reply) (w : World) : option World :=
  match t, r with
  | FetchGroupedRequests fin, GroupedReply r =>
      Some (resumeFetchGroupedRequests fin r w)
  | CheckExpenseStatus e k, StatusReply r =>
      Some (resumeCheckExpenseStatus e k r w)
  | CommitDecisions body, CommitReply r =>
      Some (resumeCommitDecisions body r w)
  | PreviewSplitwiseChanges e, PreviewReply r =>
      Some (resumePreviewSplitwiseChanges e r w)
  | ApplyToSplitwiseAndMongoDB e, ApplyReply r =>
      Some (resumeApplyToSplitwiseAndMongoDB e r w)
  | _, _ => None
  end.

(** *** The transition system *)

(** What can happen to the mounted component: a click or an input on
    an element that is rendered and enabled, or the arrival of the
    reply to the [i]-th request in flight. *)
Inductive Event : Type :=
| ClickExpense (expenseId : string)
| ClickToggle (requestId : string) (action : ToggleAction)
| ChangeNotes (text : string)
| ClickCommit
| ClickPreview
| ClickGoBack
| ClickApply
| ClickProcessAnother
| Deliver (i : nat) (r : Reply).

(** One transition; [None] when the event cannot occur in [w]. *)
Definition step (w : World) (ev : Event) : option World :=
  match ev with
  | ClickExpense e =>
      if expenseCardRendered e (ui w) then Some (clickExpense e w) else None
  | ClickToggle requestId action =>
      if toggleRendered requestId (ui w)
      then Some (update (toggleRequestSelection requestId action) w)
      else None
  | ChangeNotes text =>
      if decisionsPanelRendered (ui w)
      then Some (update (setAdminNotes text) w)
      else None
  | ClickCommit =>
      if commitAvailable (ui w) then Some (commitDecisions w) else None
  | ClickPreview =>
      if previewAvailable (ui w) then Some (previewSplitwiseChanges w) else None
  | ClickGoBack =>
      if goBackAvailable (ui w) then Some (update goBackToDecisions w) else None
  | ClickApply =>
      if applyAvailable (ui w) then Some (applyToSplitwiseAndMongoDB w) else None
  | ClickProcessAnother =>
      if processAnotherAvailable (ui w) then Some (clickProcessAnother w) else None
  | Deliver i r =>
      match inflight w !! i with
      | Some t => resume t r (settle i w)
      | None => None
      end
  end.

(** A run: the worlds visited from [w], in order, ending with the last
    one; [None] when some event of the trace cannot occur. *)
Fixpoint run (w : World) (trace : list Event) : option (list World) :=
  match trace with
  | [] => Some [w]
  | ev :: rest =>
      match step w ev with
      | Some w' =>
          match run w' rest with
          | Some ws => Some (w :: ws)
          | None => None
          end
      | None => None
      end
  end.

(** The worlds reachable from the mounted component. *)
Inductive reachable : World -> Prop :=
| reachable_initial : reachable initialWorld
| reachable_step w ev w' :
    reachable w -> step w ev = Some w' -> reachable w'.

(** *** Observations used to state properties *)

(** The steps shown along a run. *)
Definition stepsOf (ws : list World) : list WorkflowStep :=
  map (fun w => workflowStep (ui w)) ws.

(** The apply requests among the requests in flight, and their
    number. *)
Definition isApplyRequest (t : Task) : bool :=
  match t with
  | ApplyToSplitwiseAndMongoDB _ => true
  | _ => false
  end.

Definition applyRequests (w : World) : nat :=
  length (List.filter isApplyRequest (inflight w)).

(** The bodies of the commit requests in flight. *)
Definition commitBody (t : Task) : list CommitBody :=
  match t with
  | CommitDecisions body => [body]
  | _ => []
  end.

Definition commitBodies (w : World) : list CommitBody :=
  flat_map commitBody (inflight w).

(** No request identifier is both approved and rejected: in the two
    sets of the component, and in every commit request sent and not
    yet answered. *)
Definition decisionsDisjoint (w : World) : Prop :=
  selectedRequests (ui w) ## rejectedRequests (ui w)
  ∧ ∀ body requestId,
      body ∈ commitBodies w →
      requestId ∈ approved_request_ids body →
      requestId ∈ rejected_request_ids body →
      False.

(** An alert that announces a critical error: it starts with the
    heading used by the failure branch of
    [applyToSplitwiseAndMongoDB]. *)
Definition isCritical (msg : string) : bool :=
  String.prefix "❌ CRITICAL ERROR:" msg.

End BatchReview.

(** ** AdminPage (pages/admin.tsx) *)

Module AdminPage.

(** [isAdmin : boolean | null] and [loading]. *)
Record State : Type := {
  isAdmin : option bool;
  loading : bool
}.

Definition initialState : State :=
  {| isAdmin := None; loading := true |}.

Definition setIsAdmin (v : option bool) (s : State) : State :=
  {| isAdmin := v; loading := loading s |}.

Definition setLoading (v : bool) (s : State) : State :=
  {| isAdmin := isAdmin s; loading := v |}.

(** The outcome of the probe of [/api/admin/pending-updates]: a
    response with its status code, or a rejection of [getToken] or
    [fetch]. *)
Inductive Probe : Type :=
| Response (status : nat)
| Rejected.

(** [response.ok]: the status is in the range 200-299. *)
Definition ok (status : nat) : bool :=
  (200 <=? status)%nat && (status <=? 299)%nat.

(** [checkAdminStatus], run to completion.  [isLoaded] is the value of
    the render that created the closure; the probe is made only past
    the early [return], and the [finally] block runs on every path,
    the early [return] included. *)
Definition checkAdminStatus (isLoaded : bool) (probe : Probe) (s : State) : State :=
  let tried :=
    if negb isLoaded then s
    else
      match probe with
      | Response status =>
          if (status =? 403)%nat then setIsAdmin (Some false) s
          else if ok status then setIsAdmin (Some true) s
          else setIsAdmin (Some false) s
      | Rejected => setIsAdmin (Some false) s
      end in
  setLoading false tried.

(** What the component returns. *)
Inductive View : Type :=
| Spinner
| AccessDenied
| AdminDashboard.

(** The render branches: [if (loading)], [if (isAdmin === false)],
    and the final [return <AdminDashboard />]. *)
Definition render (s : State) : View :=
  if loading s then Spinner
  else
    match isAdmin s with
    | Some false => AccessDenied
    | _ => AdminDashboard
    end.

(** The [useEffect] on [isLoaded] runs [checkAdminStatus] after the
    first render and after every render in which [isLoaded] differs
    from the previous one; each run is given here with the [isLoaded]
    it sees and the outcome its probe would have. *)
Definition effects (runs : list (bool * Probe)) (s : State) : State :=
  fold_left (fun s run => checkAdminStatus (fst run) (snd run) s) runs s.

End AdminPage.

(** ** The member-facing components *)

(** [interface Split], declared alike in Dashboard.tsx and
    SplitDetail.tsx. *)
Module Member.

(** A [number] field holds a finite double, given by its value. *)
Record Item : Type := {
  name : string;
  price : Q;
  members : list string
}.

Record Split : Type := {
  _id : string;
  splitwise_id : string;
  group_name : string;
  description : string;
  total_amount : Q;
  paid_by : string;
  items : list Item;
  member_splits : gmap string Q;
  created_at : string
}.

End Member.

(** *** SplitDetail (components/SplitDetail.tsx) *)

Module SplitDetail.

(** [const isParticipating = item.members.includes(memberName)]. *)
Definition isParticipating (memberName : string) (item : Member.Item) : bool :=
  JS.includes (Member.members item) memberName.

(** [const splitAmount = item.price / item.members.length]. *)
Definition splitAmount (item : Member.Item) : JS.JSNumber :=
  JS.div (Member.price item) (length (Member.members item)).

(** [formatCurrency]: [`$${amount.toFixed(2)}`]. *)
Definition formatCurrency (exponential : Q -> string) (amount : JS.JSNumber) : string :=
  "$" ++ JS.toFixed exponential amount 2.

(** The button of an item card. *)
Inductive ActionButton : Type :=
| LeaveItem
| JoinItem.

(** What one item card shows; every amount is the number handed to
    [formatCurrency], whose result is the text displayed. *)
Record ItemCard : Type := {
  card_name : string;
  card_total : Q;
  card_split_among : nat;
  card_per_person : JS.JSNumber;
  card_sharing : list string;
  card_button : ActionButton;
  card_you_owe : option JS.JSNumber
}.

(** The body of [split.items.map((item, index) => ...)]. *)
Definition itemCard (memberName : string) (item : Member.Item) : ItemCard :=
  let isParticipating := isParticipating memberName item in
  let splitAmount := splitAmount item in
  {| card_name := Member.name item;
     card_total := Member.price item;
     card_split_among := length (Member.members item);
     card_per_person := splitAmount;
     card_sharing := Member.members item;
     card_button := if isParticipating then LeaveItem else JoinItem;
     card_you_owe := if isParticipating then Some splitAmount else None |}.

Definition itemCards (split : Member.Split) (memberName : string) : list ItemCard :=
  map (itemCard memberName) (Member.items split).

End SplitDetail.

(** *** Dashboard (components/Dashboard.tsx) *)

Module Dashboard.

(** [interface DashboardData]. *)
Record DashboardData : Type := {
  splits : list Member.Split;
  member_name : string;
  groups : list string
}.

(** [item.price / item.members.length], the argument of
    [formatCurrency] in a "Your Items" row. *)
Definition itemShare (item : Member.Item) : JS.JSNumber :=
  JS.div (Member.price item) (length (Member.members item)).

(** [formatCurrency]: [`$${amount.toFixed(2)}`]. *)
Definition formatCurrency (exponential : Q -> string) (amount : JS.JSNumber) : string :=
  "$" ++ JS.toFixed exponential amount 2.

(** One row of "Your Items"; [row_share] and [row_of] are the numbers
    handed to [formatCurrency], whose result is the text displayed. *)
Record ItemRow : Type := {
  row_name : string;
  row_shared_with : nat;
  row_share : JS.JSNumber;
  row_of : Q
}.

Definition itemRow (item : Member.Item) : ItemRow :=
  {| row_name := Member.name item;
     row_shared_with := length (Member.members item);
     row_share := itemShare item;
     row_of := Member.price item |}.

(** [split.items.filter(item => item.members.includes(data.member_name))
    .map((item, index) => ...)]. *)
Definition yourItems (data : DashboardData) (split : Member.Split) : list ItemRow :=
  map itemRow
      (List.filter (fun item => JS.includes (Member.members item) (member_name data))
                   (Member.items split)).

End Dashboard.

(** ** The reconciliation engine behind [preview-splitwise-changes]

    The front end only declares the shape of the preview it receives
    ([PreviewData]); the code that computes it runs on the server and
    is not among the sources.  It is modelled here from sections 3, 4.1
    and 4.2 of the specification; every arithmetic operation rounds
    its result as floating-point arithmetic does. *)

Module Reconciliation.

(** Modelled from the spec: the action of a ChangeRequest (section 3),
    whose server-side declaration is missing from the sources. *)
Inductive Action : Type :=
| Join
| Leave.

(** Modelled from the spec: the lifecycle status of a ChangeRequest
    (section 3), whose server-side declaration is missing. *)
Inductive Status : Type :=
| Pending
| Approved
| Rejected.

(** Modelled from the spec: the ChangeRequest record of section 3; the
    server-side store that holds it is missing from the sources.
    Timestamps are counted in ticks. *)
Record ChangeRequest : Type := {
  request_id : string;
  requester : string;
  target_expense : string;
  target_item : string;
  action : Action;
  status : Status;
  admin_notes : option string;
  created_at : nat;
  processed_at : option nat
}.

(** Modelled from the spec: the Item of section 3 as the ledger
    returns it ([getExpense], section 6); the ledger client is
    missing from the sources. *)
Record Item : Type := {
  name : string;
  price : Q;
  members : gset string
}.

(** Modelled from the spec: the result of [getExpense] (section 6);
    the ledger client is missing from the sources. *)
Record Expense : Type := {
  description : string;
  total : Q;
  items : list Item
}.

(** Modelled from the spec: the ValidationError of section 7 raised by
    the Split Calculator, missing from the sources, when an item would
    end with no members. *)
Inductive ValidationError : Type :=
| ItemLeftWithNoMembers (item : string).

(** Modelled from the spec: what [preview] returns instead of a
    SplitPreview when the split cannot be applied (section 4.4); the
    server-side [preview] is missing from the sources. *)
Inductive FailureReason : Type :=
| NoApprovedChanges
| Invalid (e : ValidationError).

(** Modelled from the spec: the SplitPreview of section 3 (the server
    code building it is missing), with the fields whose computation
    sections 4.1 and 4.2 define; item changes and validation have the
    shape the front end declares. *)
Record SplitPreview : Type := {
  original_totals : gmap string Q;
  new_totals : gmap string Q;
  deltas : gmap string Q;
  changes : list ItemChange;
  validation_result : Validation
}.

(** Modelled from the spec: the test "marked approved" of the missing
    Split Calculator (section 4.1). *)
Definition is_approved (r : ChangeRequest) : bool :=
  match status r with
  | Approved => true
  | _ => false
  end.

(** Modelled from the spec: the test "request.action == join" of the
    missing Split Calculator (section 4.1). *)
Definition is_join (r : ChangeRequest) : bool :=
  match action r with
  | Join => true
  | Leave => false
  end.

(** Modelled from the spec: the input of the missing Split Calculator
    (section 4.1), "the subset of ChangeRequests for that item that
    have been marked approved". *)
Definition approved_for (it : Item) (reqs : list ChangeRequest) : list ChangeRequest :=
  List.filter (fun r => is_approved r && String.eqb (target_item r) (name it)) reqs.

(** Modelled from the spec: the order deciding between two requests
    of one requester on one item in the missing Split Calculator: [r']
    comes after [r] when it was created later, "ties broken by request
    identifier ordering". *)
Definition later (r r' : ChangeRequest) : bool :=
  (created_at r <? created_at r')%nat
  || ((created_at r =? created_at r')%nat
      && String.ltb (request_id r) (request_id r')).

(** Modelled from the spec: in the missing Split Calculator "the
    later-created request for that (requester, item) pair wins": [r]
    wins among [rs] when no request of the same requester comes after
    it. *)
Definition wins (rs : list ChangeRequest) (r : ChangeRequest) : bool :=
  forallb (fun r' => negb (String.eqb (requester r') (requester r) && later r r')) rs.

(** Modelled from the spec: the requesters whose winning approved
    request on the item has the given action (missing Split
    Calculator, section 4.1). *)
Definition requesters (join : bool) (it : Item) (reqs : list ChangeRequest) : gset string :=
  let rs := approved_for it reqs in
  list_to_set
    (map requester
         (List.filter (fun r => wins rs r && Bool.eqb (is_join r) join) rs)).

(** Modelled from the spec: the missing Split Calculator's
    "new_members = current_members ∪ {requester | join, approved}
    − {requester | leave, approved}". *)
Definition new_member_set (it : Item) (reqs : list ChangeRequest) : gset string :=
  (members it ∪ requesters true it reqs) ∖ requesters false it reqs.

(** Modelled from the spec: the member count |new_members| of the
    missing Split Calculator, as a number to divide by. *)
Definition count (n : nat) : Q := inject_Z (Z.of_nat n).

(** Modelled from the spec: the "floating allocation arithmetic" of
    the missing calculator and validator (section 4.2).  The result
    of an operation is its exact result rounded to the nearest number
    with 53 significant bits, ties to even, the precision of binary64;
    the spec sets no range, and none is imposed. *)
Definition fl (q : Q) : Q := Binary.round53 q.

(** Modelled from the spec: the missing Split Calculator of section
    4.1 on one item: "new per-person allocation = price /
    |new_members|, using ... straightforward division", and
    "zero-member result after removal is an error condition".  The
    spec does not say what the original allocation of an item without
    members is; the quotient by zero is taken as zero. *)
Definition calculate (it : Item) (reqs : list ChangeRequest)
  : ValidationError + ItemChange :=
  let new := new_member_set it reqs in
  if (size new =? 0)%nat then inl (ItemLeftWithNoMembers (name it))
  else inr
    {| item_name := name it;
       original_members := elements (members it);
       new_members := elements new;
       added_members := elements (new ∖ members it);
       removed_members := elements (members it ∖ new);
       Api.price := price it;
       original_split_per_person := fl (price it / count (size (members it)));
       new_split_per_person := fl (price it / count (size new));
       member_count_change := (Z.of_nat (size new) - Z.of_nat (size (members it)))%Z |}.

(** Modelled from the spec: the missing Split Calculator run over
    "all item-level outputs ... for one expense" (section 4.2); the
    first item that fails stops it. *)
Fixpoint calculate_all (its : list Item) (reqs : list ChangeRequest)
  : ValidationError + list ItemChange :=
  match its with
  | [] => inr []
  | it :: rest =>
      match calculate it reqs with
      | inl e => inl e
      | inr c =>
          match calculate_all rest reqs with
          | inl e => inl e
          | inr cs => inr (c :: cs)
          end
      end
  end.

(** Modelled from the spec: what one item adds to the aggregate of
    the missing Reconciliation Validator, "new_split_per_person ×
    |new_members|" (section 4.2). *)
Definition item_total (c : ItemChange) : Q :=
  fl (new_split_per_person c * count (length (new_members c))).

(** Modelled from the spec: the missing Reconciliation Validator's
    "aggregate new_total_expense = sum of new_split_per_person ×
    |new_members| over items" (section 4.2), accumulated from the
    first item to the last. *)
Definition new_total_expense (cs : list ItemChange) : Q :=
  fold_left (fun acc c => fl (acc + item_total c)) cs 0%Q.

(** Modelled from the spec: the missing validator's "fixed rounding
    tolerance (one cent ...)" (section 4.2), as a floating-point
    number. *)
Definition tolerance : Q := fl (1 # 100).

(** Modelled from the spec: the validation result of the missing
    Reconciliation Validator (sections 3 and 4.2): the two totals,
    the magnitude of their discrepancy, and whether it is within the
    tolerance. *)
Definition validate (original : Q) (cs : list ItemChange) : Validation :=
  let new := new_total_expense cs in
  let discrepancy := Qabs (fl (new - original)) in
  {| total_matches := Qle_bool discrepancy tolerance;
     original_total := original;
     new_total := new;
     difference := discrepancy |}.

(** Modelled from the spec: a member's total in the missing validator,
    the "sum over items where member ∈ new_members of
    new_split_per_person" (section 4.2), and likewise before the
    changes. *)
Fixpoint member_total
    (members_of : ItemChange -> list string) (share_of : ItemChange -> Q)
    (m : string) (cs : list ItemChange) : Q :=
  match cs with
  | [] => 0
  | c :: rest =>
      let others := member_total members_of share_of m rest in
      if JS.includes (members_of c) m then fl (share_of c + others) else others
  end.

(** Modelled from the spec: the members the missing validator reports
    on, "per member appearing in any item (old or new)". *)
Definition appearing (cs : list ItemChange) : gset string :=
  list_to_set (flat_map (fun c => (original_members c ++ new_members c)%list) cs).

(** Modelled from the spec: the per-member table of the missing
    validator (section 4.2). *)
Definition totals
    (members_of : ItemChange -> list string) (share_of : ItemChange -> Q)
    (cs : list ItemChange) : gmap string Q :=
  list_to_map
    (map (fun m => (m, member_total members_of share_of m cs))
         (elements (appearing cs))).

(** Modelled from the spec: the server-side [preview] of section 4.4
    (missing from the sources), which "re-runs 4.1+4.2 over the current
    committed decisions" and "returns the failure reason ... rather
    than throwing". *)
Definition preview (e : Expense) (reqs : list ChangeRequest)
  : FailureReason + SplitPreview :=
  if negb (existsb is_approved reqs) then inl NoApprovedChanges
  else
    match calculate_all (items e) reqs with
    | inl err => inl (Invalid err)
    | inr cs =>
        let before := totals original_members original_split_per_person cs in
        let after := totals new_members new_split_per_person cs in
        inr {| original_totals := before;
               new_totals := after;
               deltas :=
                 list_to_map
                   (map (fun m =>
                           (m, fl (member_total new_members new_split_per_person m cs
                                   - member_total original_members
                                       original_split_per_person m cs)))
                        (elements (appearing cs)));
               changes := cs;
               validation_result := validate (total e) cs |}
    end.

End Reconciliation.

(** ** Bounds on the rounding of the reconciliation engine *)

Module ReconciliationError.

Import Reconciliation.

(** The unit roundoff of [fl]: half the distance from 1 to the next
    number with 53 significant bits. *)
Definition unit_roundoff : Q := Binary.pow2 (-53).

(** [(1 + unit_roundoff)^n]: the factor by which [n] successive
    roundings may stretch a number. *)
Fixpoint growth (n : nat) : Q :=
  match n with
  | O => 1
  | S n => ((1 + unit_roundoff) * growth n)%Q
  end.

(** The sum of the item prices, exactly. *)
Fixpoint sum_of_prices (its : list Item) : Q :=
  match its with
  | [] => 0
  | it :: rest => (price it + sum_of_prices rest)%Q
  end.

(** The sum of the magnitudes of the item prices. *)
Fixpoint sum_of_magnitudes (its : list Item) : Q :=
  match its with
  | [] => 0
  | it :: rest => (Qabs (price it) + sum_of_magnitudes rest)%Q
  end.

(** How far rounding may take the aggregate of [k] items from the sum
    of their prices: each price goes through a division, a
    multiplication and at most [k] additions. *)
Definition rounding_slack (its : list Item) : Q :=
  ((growth (length its + 2) - 1) * sum_of_magnitudes its)%Q.

End ReconciliationError.

(** ** Sample data

    A group of one expense with two requests, the preview the server
    computes for it, and the component at the stages of its review. *)

Module Samples.

Import BatchReview.

Definition request1 : PendingUpdate :=
  {| _id := "r1"; updated_by_name := "D"; updated_by_email := "d@example.org";
     proposed_changes :=
       [{| change_item_name := "Pizza"; change_action := "join" |}];
     created_at := "2025-01-01T10:00:00Z" |}.

Definition request2 : PendingUpdate :=
  {| _id := "r2"; updated_by_name := "A"; updated_by_email := "a@example.org";
     proposed_changes :=
       [{| change_item_name := "Pizza"; change_action := "leave" |}];
     created_at := "2025-01-01T11:00:00Z" |}.

Definition group1 : GroupedRequest :=
  {| expense_id := "e1"; expense_description := "Dinner";
     expense_total := 60; group_name := "Flat"; request_count := 2;
     requests := [request1; request2]; unique_users := ["D"; "A"] |}.

Definition pizzaChange : ItemChange :=
  {| item_name := "Pizza";
     original_members := ["A"; "B"; "C"]; new_members := ["B"; "C"; "D"];
     added_members := ["D"]; removed_members := ["A"];
     Api.price := 30;
     original_split_per_person := 10; new_split_per_person := 10;
     member_count_change := 0 |}.

Definition preview1 : PreviewData :=
  {| preview_expense_id := "e1"; preview_expense_description := "Dinner";
     preview_expense_total := 60;
     original_splits := ∅; new_splits := ∅; member_differences := ∅;
     item_changes := [pizzaChange];
     validation :=
       {| total_matches := true; original_total := 60; new_total := 60;
          difference := 0 |};
     summary :=
       {| items_affected := 1; members_affected := 2; total_requests := 2 |} |}.

(** The expense is selected and both requests are decided. *)
Definition deciding : World :=
  {| ui :=
       {| groupedRequests := [group1]; loading := false;
          selectedExpense := Some "e1";
          selectedRequests := {[ "r1" ]}; rejectedRequests := {[ "r2" ]};
          preview := None; workflowStep := StepDecisions;
          processing := false; adminNotes := ""; expenseStatus := None;
          commentPreview := None |};
     alerts := []; inflight := [] |}.

(** The decisions are committed and no preview was asked for yet. *)
Definition committed : World :=
  update (setWorkflowStep StepPreview) deciding.

(** The preview has arrived. *)
Definition previewing : World :=
  update (setCommentPreview (Some "Dinner: B, C, D share Pizza"))
    (update (setPreview (Some preview1)) committed).

(** The apply button was clicked and the request is in flight. *)
Definition applying : World :=
  applyToSplitwiseAndMongoDB previewing.

(** The component as it is reached from mounting: the groups have
    loaded, the expense was clicked, and the first request was
    approved and the second rejected. *)
Definition loaded : World :=
  resumeFetchGroupedRequests false (HttpOk [group1]) (settle 0 initialWorld).

Definition selected : World := clickExpense "e1" loaded.

Definition toggled : World :=
  update (toggleRequestSelection "r2" Reject)
    (update (toggleRequestSelection "r1" Approve) selected).

(** A whole review of the expense, from mounting to the success
    reply of the apply request. *)
Definition reviewTrace : list Event :=
  [ Deliver 0 (GroupedReply (HttpOk [group1]));
    ClickExpense "e1";
    Deliver 0 (StatusReply (HttpOk {| workflow_status := "needs_decisions" |}));
    ClickToggle "r1" Approve;
    ClickToggle "r2" Reject;
    ClickCommit;
    Deliver 0 (CommitReply (HttpOk "2 requests processed"));
    Deliver 0 (StatusReply (HttpOk {| workflow_status := "ready_for_preview" |}));
    ClickPreview;
    Deliver 0 (PreviewReply
                 (HttpOk {| result_status := "preview_ready";
                            result_preview := Some preview1;
                            result_comment_preview := Some "Dinner: B, C, D share Pizza";
                            result_message := "" |}));
    ClickApply;
    Deliver 0 (ApplyReply (HttpOk "Splitwise and MongoDB updated")) ].

(** The admin opens an expense that the server reports as completed,
    then asks for another group. *)
Definition revisitTrace : list Event :=
  [ Deliver 0 (GroupedReply (HttpOk [group1]));
    ClickExpense "e1";
    Deliver 0 (StatusReply (HttpOk {| workflow_status := "completed" |}));
    ClickProcessAnother ].

(** The reply to an apply request whose ledger update failed before
    anything was changed. *)
Definition ledgerFailure : FetchResult string :=
  HttpError 502 "Failed to update Splitwise expense; no changes were made".

(** The split of the dinner as a member sees it, with an item nobody
    shares any more. *)
Definition pizza : Member.Item :=
  {| Member.name := "Pizza"; Member.price := 30;
     Member.members := ["A"; "B"; "C"] |}.

Definition soda : Member.Item :=
  {| Member.name := "Soda"; Member.price := 30; Member.members := ["A"; "B"] |}.

Definition leftover : Member.Item :=
  {| Member.name := "Dessert"; Member.price := 12; Member.members := [] |}.

Definition dinner : Member.Split :=
  {| Member._id := "s1"; Member.splitwise_id := "e1";
     Member.group_name := "Flat"; Member.description := "Dinner";
     Member.total_amount := 72; Member.paid_by := "A";
     Member.items := [pizza; soda; leftover];
     Member.member_splits := {[ "A" := 25%Q; "B" := 25%Q; "C" := 10%Q ]};
     Member.created_at := "2025-01-01T09:00:00Z" |}.

(** A cake of 10 shared by three. *)
Definition cake : Member.Item :=
  {| Member.name := "Cake"; Member.price := 10;
     Member.members := ["A"; "B"; "C"] |}.

Definition birthday : Member.Split :=
  {| Member._id := "s2"; Member.splitwise_id := "e2";
     Member.group_name := "Flat"; Member.description := "Birthday";
     Member.total_amount := 10; Member.paid_by := "B";
     Member.items := [cake];
     Member.member_splits := ∅;
     Member.created_at := "2025-02-01T09:00:00Z" |}.

Definition dashboardOfC : Dashboard.DashboardData :=
  {| Dashboard.splits := [dinner]; Dashboard.member_name := "C";
     Dashboard.groups := ["Flat"] |}.

(** The scenario of section 8 of the specification: Pizza shared by
    A, B and C, Soda by A and B; D asks to join Pizza and A to leave
    it, and both requests are approved. *)
Definition ledgerDinner : Reconciliation.Expense :=
  {| Reconciliation.description := "Dinner";
     Reconciliation.total := 60;
     Reconciliation.items :=
       [ {| Reconciliation.name := "Pizza"; Reconciliation.price := 30;
            Reconciliation.members := {[ "A"; "B"; "C" ]} |};
         {| Reconciliation.name := "Soda"; Reconciliation.price := 30;
            Reconciliation.members := {[ "A"; "B" ]} |} ] |}.

(** The same dinner with a total of 66 on the ledger, 6 more than its
    items add up to. *)
Definition taxedDinner : Reconciliation.Expense :=
  {| Reconciliation.description := "Dinner";
     Reconciliation.total := 66;
     Reconciliation.items := Reconciliation.items ledgerDinner |}.

(** An expense of one item whose price, of the order of [10^18], is a
    double of which a third, taken three times, is another double. *)
Definition banquet : Reconciliation.Expense :=
  {| Reconciliation.description := "Banquet";
     Reconciliation.total := 1000000000000000384;
     Reconciliation.items :=
       [ {| Reconciliation.name := "Pizza";
            Reconciliation.price := 1000000000000000384;
            Reconciliation.members := {[ "A"; "B"; "C" ]} |} ] |}.

Definition approvedRequests : list Reconciliation.ChangeRequest :=
  [ {| Reconciliation.request_id := "r1"; Reconciliation.requester := "D";
       Reconciliation.target_expense := "e1";
       Reconciliation.target_item := "Pizza";
       Reconciliation.action := Reconciliation.Join;
       Reconciliation.status := Reconciliation.Approved;
       Reconciliation.admin_notes := None;
       Reconciliation.created_at := 1; Reconciliation.processed_at := Some 3 |};
    {| Reconciliation.request_id := "r2"; Reconciliation.requester := "A";
       Reconciliation.target_expense := "e1";
       Reconciliation.target_item := "Pizza";
       Reconciliation.action := Reconciliation.Leave;
       Reconciliation.status := Reconciliation.Approved;
       Reconciliation.admin_notes := None;
       Reconciliation.created_at := 2; Reconciliation.processed_at := Some 3 |} ].

End Samples.

(** ** Further observations on BatchReviewComponent *)

Module BatchReviewFlow.

Import BatchReview.

(** The requests of a handler that holds [processing]: the three
    handlers set it before their [fetch] and clear it in their
    [finally], which for [commitDecisions] comes after the status
    check it awaits and for [applyToSplitwiseAndMongoDB] after the
    status check and the refresh of the groups. *)
Definition holdsProcessing (t : Task) : bool :=
  match t with
  | CommitDecisions _ => true
  | PreviewSplitwiseChanges _ => true
  | ApplyToSplitwiseAndMongoDB _ => true
  | CheckExpenseStatus _ ThenCommitFinally => true
  | CheckExpenseStatus _ ThenApplyRefresh => true
  | CheckExpenseStatus _ Standalone => false
  | FetchGroupedRequests applyFinally => applyFinally
  end.

Definition processingRequests (w : World) : nat :=
  length (List.filter holdsProcessing (inflight w)).

(** The balance kept by every transition: [processing] is set exactly
    while one request of a commit, preview or apply handler is in
    flight. *)
Definition balanced (w : World) : Prop :=
  processingRequests w = if processing (ui w) then 1%nat else 0%nat.

(** The events that are clicks or inputs of the admin, as opposed to
    replies of the server. *)
Definition isReply (ev : Event) : bool :=
  match ev with
  | Deliver _ _ => true
  | _ => false
  end.

(** A preview reply that installs a preview: it is ok and its status
    is ["preview_ready"]. *)
Definition previewReady (r : FetchResult PreviewResult) : bool :=
  match r with
  | HttpOk result => String.eqb (result_status result) "preview_ready"
  | _ => false
  end.

(** The alert of the failure branches shared by [commitDecisions] and
    [previewSplitwiseChanges]. *)
Definition failureAlert {A : Type} (r : FetchResult A) : option string :=
  match r with
  | HttpOk _ => None
  | HttpError _ detail => Some ("❌ Error: " ++ detail)
  | Thrown => Some "❌ Network error occurred"
  end.

(** A commit request is sent for a non-empty expense identifier and
    decides at least one request. *)
Definition wellFormed (body : CommitBody) : Prop :=
  body_expense_id body ≠ ""
  ∧ (approved_request_ids body ≠ [] ∨ rejected_request_ids body ≠ []).

(** A reply that is not ok or was never received. *)
Definition failed {A : Type} (r : FetchResult A) : bool :=
  match r with
  | HttpOk _ => false
  | _ => true
  end.

End BatchReviewFlow.

(** ** AdminPage over several runs of its effect *)

Module AdminPageRuns.

Import AdminPage.

(** Whether a probe outcome makes [checkAdminStatus] call
    [setIsAdmin(true)]. *)
Definition granted (probe : Probe) : bool :=
  match probe with
  | Response status => ok status
  | Rejected => false
  end.

(** The probe of the most recent run that got past the early
    [return], if any. *)
Definition lastProbe (runs : list (bool * Probe)) : option Probe :=
  last (map snd (List.filter fst runs)).

End AdminPageRuns.

(** ** AdminNavLink (pages/_app.tsx) *)

Module AdminNavLink.

(** [useState(false)]: the only cell is [isAdmin]. *)
Definition initialState : bool := false.

(** [checkAdminStatus]: [setIsAdmin(true)] when the response is ok;
    every other outcome, a rejection included, is ignored. *)
Definition checkAdminStatus (probe : AdminPage.Probe) (isAdmin : bool) : bool :=
  match probe with
  | AdminPage.Response status => if AdminPage.ok status then true else isAdmin
  | AdminPage.Rejected => isAdmin
  end.

(** [if (!isAdmin) return null;] and otherwise the link, given by its
    [href]. *)
Definition render (isAdmin : bool) : option string :=
  if negb isAdmin then None else Some "/admin".

(** The effect has no dependencies: it runs after mounting (twice
    under [reactStrictMode]); each run probes once. *)
Definition effects (probes : list AdminPage.Probe) (isAdmin : bool) : bool :=
  fold_left (fun isAdmin probe => checkAdminStatus probe isAdmin) probes isAdmin.

End AdminNavLink.

(** ** The Dashboard component as a whole (components/Dashboard.tsx) *)

(** What the [try] block of a fetching handler ends with when every
    failure is turned into an exception: the parsed body of an ok
    response, a response that is not ok (the handler throws its own
    [Error]), or a rejection of [getToken], [fetch] or
    [response.json], with the [message] of the [Error] thrown or
    nothing when the value thrown is not an [Error]. *)
Inductive Attempt (A : Type) : Type :=
| Fetched (body : A)
| NotOk
| Threw (message : option string).

Arguments Fetched {A} body.
Arguments NotOk {A}.
Arguments Threw {A} message.

(** [err instanceof Error ? err.message : 'Unknown error'], where
    [fallback] is the message of the [Error] the handler throws itself
    on a response that is not ok. *)
Definition caughtMessage {A : Type} (fallback : string) (r : Attempt A) : option string :=
  match r with
  | Fetched _ => None
  | NotOk => Some fallback
  | Threw (Some message) => Some message
  | Threw None => Some "Unknown error"
  end.

Module DashboardPage.

(** [data], [loading] and [error]. *)
Record State : Type := {
  data : option Dashboard.DashboardData;
  loading : bool;
  error : option string
}.

Definition initialState : State :=
  {| data := None; loading := true; error := None |}.

Definition setData (v : option Dashboard.DashboardData) (s : State) : State :=
  {| data := v; loading := loading s; error := error s |}.

Definition setLoading (v : bool) (s : State) : State :=
  {| data := data s; loading := v; error := error s |}.

Definition setError (v : option string) (s : State) : State :=
  {| data := data s; loading := loading s; error := v |}.

(** [fetchSplits] from its [fetch] on; the body of an ok response may
    be [null]. *)
Definition resumeFetchSplits
    (r : Attempt (option Dashboard.DashboardData)) (s : State) : State :=
  let s1 :=
    match r with
    | Fetched result => setData result s
    | _ => setError (caughtMessage "Failed to fetch splits" r) s
    end in
  setLoading false s1.

(** What the component returns. *)
Inductive View : Type :=
| Spinner
| ErrorWithRetry (message : string)
| NoData
| Splits (d : Dashboard.DashboardData).

(** [if (loading)], [if (error)], [if (!data)], and the list. *)
Definition render (s : State) : View :=
  if loading s then Spinner
  else if JS.truthy (error s)
  then ErrorWithRetry (default "" (error s))
  else match data s with
       | None => NoData
       | Some d => Splits d
       end.

(** The component with the number of [fetchSplits] calls in flight. *)
Record World : Type := {
  ui : State;
  inflight : nat
}.

(** After mounting, the effect has called [fetchSplits]. *)
Definition initialWorld : World :=
  {| ui := initialState; inflight := 1 |}.

(** A click on Retry, and the arrival of a reply. *)
Inductive Event : Type :=
| ClickRetry
| Deliver (r : Attempt (option Dashboard.DashboardData)).

Definition step (w : World) (ev : Event) : option World :=
  match ev with
  | ClickRetry =>
      match render (ui w) with
      | ErrorWithRetry _ => Some {| ui := ui w; inflight := S (inflight w) |}
      | _ => None
      end
  | Deliver r =>
      match inflight w with
      | O => None
      | S n => Some {| ui := resumeFetchSplits r (ui w); inflight := n |}
      end
  end.

Inductive reachable : World -> Prop :=
| reachable_initial : reachable initialWorld
| reachable_step w ev w' :
    reachable w -> step w ev = Some w' -> reachable w'.

End DashboardPage.

(** ** The SplitDetail component as a whole (components/SplitDetail.tsx) *)

Module SplitDetailPage.

(** [split], [memberName], [loading], [error] and [updating]. *)
Record State : Type := {
  split : option Member.Split;
  memberName : string;
  loading : bool;
  error : option string;
  updating : option string
}.

Definition initialState : State :=
  {| split := None; memberName := ""; loading := true; error := None;
     updating := None |}.

Definition setSplit (v : option Member.Split) (s : State) : State :=
  {| split := v; memberName := memberName s; loading := loading s;
     error := error s; updating := updating s |}.

Definition setMemberName (v : string) (s : State) : State :=
  {| split := split s; memberName := v; loading := loading s;
     error := error s; updating := updating s |}.

Definition setLoading (v : bool) (s : State) : State :=
  {| split := split s; memberName := memberName s; loading := v;
     error := error s; updating := updating s |}.

Definition setError (v : option string) (s : State) : State :=
  {| split := split s; memberName := memberName s; loading := loading s;
     error := v; updating := updating s |}.

Definition setUpdating (v : option string) (s : State) : State :=
  {| split := split s; memberName := memberName s; loading := loading s;
     error := error s; updating := v |}.

(** The body of [/api/member/splits/<id>]. *)
Record SplitResult : Type := {
  result_split : option Member.Split;
  result_member_name : string
}.

(** The second argument of [requestUpdate]: ['join' | 'leave']. *)
Inductive Action : Type :=
| Join
| Leave.

(** The body posted by [requestUpdate]. *)
Record UpdateBody : Type := {
  split_id : string;
  body_item_name : string;
  body_action : Action
}.

(** The requests in flight: [fetchSplitDetail], and [requestUpdate]
    with the body it posted. *)
Inductive Task : Type :=
| FetchSplitDetail (splitId : string)
| RequestUpdate (body : UpdateBody).

Inductive Reply : Type :=
| SplitReply (r : Attempt SplitResult)
| UpdateReply (r : Attempt string).

(** The component with its [splitId] prop, the alerts shown and the
    requests in flight. *)
Record World : Type := {
  ui : State;
  splitId : string;
  alerts : list string;
  inflight : list Task
}.

Definition update (f : State -> State) (w : World) : World :=
  {| ui := f (ui w); splitId := splitId w; alerts := alerts w;
     inflight := inflight w |}.

(** Mounted with [splitId]: the effect has called [fetchSplitDetail]. *)
Definition mount (id : string) : World :=
  {| ui := initialState; splitId := id; alerts := [];
     inflight := [FetchSplitDetail id] |}.

(** [fetchSplitDetail] from its [fetch] on. *)
Definition resumeFetchSplitDetail (r : Attempt SplitResult) (s : State) : State :=
  let s1 :=
    match r with
    | Fetched result =>
        setMemberName (result_member_name result)
          (setSplit (result_split result) s)
    | _ => setError (caughtMessage "Failed to fetch split details" r) s
    end in
  setLoading false s1.

(** [requestUpdate] up to its [fetch]. *)
Definition requestUpdate (itemName : string) (action : Action) (w : World) : World :=
  {| ui := setUpdating (Some itemName) (ui w);
     splitId := splitId w;
     alerts := alerts w;
     inflight :=
       (inflight w
        ++ [RequestUpdate {| split_id := splitId w; body_item_name := itemName;
                             body_action := action |}])%list |}.

(** The alert of [requestUpdate]: the success message with the
    [status] of the reply, or "Error:" with the message caught. *)
Definition updateAlert (r : Attempt string) : string :=
  match r with
  | Fetched status => "Update request submitted successfully! Status: " ++ status
  | _ => "Error: " ++ default "" (caughtMessage "Failed to submit update request" r)
  end.

(** [requestUpdate] from its [fetch] on. *)
Definition resumeRequestUpdate (r : Attempt string) (w : World) : World :=
  {| ui := setUpdating None (ui w);
     splitId := splitId w;
     alerts := (alerts w ++ [updateAlert r])%list;
     inflight := inflight w |}.

(** What the component returns: the spinner, the error box with
    [error || 'Split not found'], or the detail of the split. *)
Inductive View : Type :=
| Spinner
| ErrorBox (message : string)
| Detail (shown : Member.Split).

Definition render (s : State) : View :=
  if loading s then Spinner
  else if JS.truthy (error s) then ErrorBox (default "" (error s))
  else match split s with
       | None => ErrorBox "Split not found"
       | Some shown => Detail shown
       end.

(** The button of the [index]-th item card: "Leave Item" for a
    participant and "Join Item" otherwise, [disabled] while
    [updating === item.name]; [None] when there is no such enabled
    button. *)
Definition itemButton (index : nat) (s : State) : option (string * Action) :=
  match render s with
  | Detail shown =>
      match Member.items shown !! index with
      | Some item =>
          if bool_decide (updating s = Some (Member.name item)) then None
          else Some (Member.name item,
                     if SplitDetail.isParticipating (memberName s) item
                     then Leave else Join)
      | None => None
      end
  | _ => None
  end.

(** A click on the button of an item, a new [splitId] prop, or the
    arrival of the reply to the [i]-th request in flight. *)
Inductive Event : Type :=
| ClickItemButton (index : nat)
| ChangeSplitId (id : string)
| Deliver (i : nat) (r : Reply).

Definition step (w : World) (ev : Event) : option World :=
  match ev with
  | ClickItemButton index =>
      match itemButton index (ui w) with
      | Some (itemName, action) => Some (requestUpdate itemName action w)
      | None => None
      end
  | ChangeSplitId id =>
      if bool_decide (id = splitId w) then Some w
      else Some {| ui := ui w; splitId := id; alerts := alerts w;
                   inflight := (inflight w ++ [FetchSplitDetail id])%list |}
  | Deliver i r =>
      match inflight w !! i, r with
      | Some (FetchSplitDetail _), SplitReply r =>
          Some {| ui := resumeFetchSplitDetail r (ui w); splitId := splitId w;
                  alerts := alerts w; inflight := delete i (inflight w) |}
      | Some (RequestUpdate _), UpdateReply r =>
          Some (resumeRequestUpdate r
                  {| ui := ui w; splitId := splitId w; alerts := alerts w;
                     inflight := delete i (inflight w) |})
      | _, _ => None
      end
  end.

(** The worlds reachable from mounting with some [splitId]. *)
Inductive reachable : World -> Prop :=
| reachable_mount id : reachable (mount id)
| reachable_step w ev w' :
    reachable w -> step w ev = Some w' -> reachable w'.

(** The update requests in flight. *)
Definition updateRequests (w : World) : list UpdateBody :=
  flat_map (fun t => match t with
                     | RequestUpdate body => [body]
                     | FetchSplitDetail _ => []
                     end)
           (inflight w).

End SplitDetailPage.

(** ** ExpenseMigration (components/ExpenseMigration.tsx) *)

Module ExpenseMigration.

(** Whether [s.trim()] is the empty string, for a string given by its
    UTF-8 bytes: every character is white space or a line terminator
    of ECMAScript (tab, line feed, vertical tab, form feed, carriage
    return, space, U+00A0, U+1680, U+2000 to U+200A, U+2028, U+2029,
    U+202F, U+205F, U+3000, U+FEFF). *)
Fixpoint isBlank (s : string) : bool :=
  match s with
  | EmptyString => true
  | String a rest =>
      let a := Ascii.nat_of_ascii a in
      if ((9 <=? a) && (a <=? 13) || (a =? 32))%nat then isBlank rest
      else
        match rest with
        | String b rest1 =>
            let b := Ascii.nat_of_ascii b in
            if ((a =? 194) && (b =? 160))%nat then isBlank rest1
            else
              match rest1 with
              | String c rest2 =>
                  let c := Ascii.nat_of_ascii c in
                  if ((a =? 225) && (b =? 154) && (c =? 128)
                      || (a =? 226) && (b =? 128)
                         && ((128 <=? c) && (c <=? 138)
                             || (c =? 168) || (c =? 169) || (c =? 175))
                      || (a =? 226) && (b =? 129) && (c =? 159)
                      || (a =? 227) && (b =? 128) && (c =? 128)
                      || (a =? 239) && (b =? 187) && (c =? 191))%nat
                  then isBlank rest2
                  else false
              | EmptyString => false
              end
        | EmptyString => false
        end
  end.

(** ['success' | 'already_exists' | 'error']. *)
Inductive Status : Type :=
| Success
| AlreadyExists
| Error.

(** The fields of [expense_data] that are displayed. *)
Record ExpenseData : Type := {
  description : string;
  total_amount : Q;
  items : option nat
}.

(** [interface MigrationResult]. *)
Record MigrationResult : Type := {
  status : Status;
  message : string;
  expense_data : option ExpenseData
}.

(** [expenseId], [isLoading], [result] and [recentMigrations]. *)
Record State : Type := {
  expenseId : string;
  isLoading : bool;
  result : option MigrationResult;
  recentMigrations : list string
}.

Definition initialState : State :=
  {| expenseId := ""; isLoading := false; result := None;
     recentMigrations := [] |}.

Definition setExpenseId (v : string) (s : State) : State :=
  {| expenseId := v; isLoading := isLoading s; result := result s;
     recentMigrations := recentMigrations s |}.

Definition setIsLoading (v : bool) (s : State) : State :=
  {| expenseId := expenseId s; isLoading := v; result := result s;
     recentMigrations := recentMigrations s |}.

Definition setResult (v : option MigrationResult) (s : State) : State :=
  {| expenseId := expenseId s; isLoading := isLoading s; result := v;
     recentMigrations := recentMigrations s |}.

Definition setRecentMigrations (v : list string) (s : State) : State :=
  {| expenseId := expenseId s; isLoading := isLoading s; result := result s;
     recentMigrations := v |}.

(** What [handleMigration] gets from its [fetch]: the body is parsed
    before [response.ok] is tested, so a reply is an ok response with
    the [status], [message] and [expense_data] of its body, a response
    that is not ok with the [detail] of its body, or a rejection (of
    [getToken], [fetch] or [response.json]) with the message of the
    [Error], if it is one. *)
Inductive MigrationReply : Type :=
| Imported (status : string) (message : string) (expense_data : option ExpenseData)
| Refused (detail : option string)
| Failed (thrown : option string).

(** The component with the expense identifiers of the requests in
    flight. *)
Record World : Type := {
  ui : State;
  inflight : list string
}.

Definition initialWorld : World := {| ui := initialState; inflight := [] |}.

(** [handleMigration] up to its [fetch]. *)
Definition handleMigration (w : World) : World :=
  if isBlank (expenseId (ui w))
  then {| ui := setResult
                  (Some {| status := Error;
                           message := "Please enter a valid Splitwise expense ID";
                           expense_data := None |})
                  (ui w);
          inflight := inflight w |}
  else {| ui := setResult None (setIsLoading true (ui w));
          inflight := (inflight w ++ [expenseId (ui w)])%list |}.

(** [handleMigration] from its [fetch] on; [submitted] is the
    [expenseId] of the render in which the handler was created. *)
Definition resumeMigration (submitted : string) (r : MigrationReply) (s : State) : State :=
  let s1 :=
    match r with
    | Imported status message expense_data =>
        let s2 :=
          setResult
            (Some {| status := if String.eqb status "already_exists"
                               then AlreadyExists else Success;
                     message := message;
                     expense_data := expense_data |})
            s in
        if String.eqb status "success"
        then setExpenseId ""
               (setRecentMigrations
                  (submitted :: take 4 (recentMigrations s2)) s2)
        else s2
    | Refused detail =>
        setResult
          (Some {| status := Error;
                   message := if JS.truthy detail then default "" detail
                              else "Migration failed";
                   expense_data := None |})
          s
    | Failed thrown =>
        setResult
          (Some {| status := Error;
                   message := "Network error: " ++ default "Unknown error" thrown;
                   expense_data := None |})
          s
    end in
  setIsLoading false s1.

(** The input ([disabled] while loading; Enter calls
    [handleMigration]), the Import button ([disabled] while loading or
    when the input is blank), the two clearing buttons, and the
    arrival of the reply to the [i]-th request. *)
Inductive Event : Type :=
| ChangeInput (text : string)
| PressEnter
| ClickImport
| ClickClearInput
| ClickClearResult
| Deliver (i : nat) (r : MigrationReply).

Definition step (w : World) (ev : Event) : option World :=
  match ev with
  | ChangeInput text =>
      if isLoading (ui w) then None
      else Some {| ui := setExpenseId text (ui w); inflight := inflight w |}
  | PressEnter =>
      if isLoading (ui w) then None else Some (handleMigration w)
  | ClickImport =>
      if isLoading (ui w) || isBlank (expenseId (ui w)) then None
      else Some (handleMigration w)
  | ClickClearInput =>
      Some {| ui := setExpenseId "" (ui w); inflight := inflight w |}
  | ClickClearResult =>
      Some {| ui := setResult None (ui w); inflight := inflight w |}
  | Deliver i r =>
      match inflight w !! i with
      | Some submitted =>
          Some {| ui := resumeMigration submitted r (ui w);
                  inflight := delete i (inflight w) |}
      | None => None
      end
  end.

Inductive reachable : World -> Prop :=
| reachable_initial : reachable initialWorld
| reachable_step w ev w' :
    reachable w -> step w ev = Some w' -> reachable w'.

(** What every transition keeps: at most five recent imports, one
    request in flight exactly while [isLoading], and no request for a
    blank identifier. *)
Definition tidy (w : World) : Prop :=
  (length (recentMigrations (ui w)) ≤ 5)%nat
  ∧ length (inflight w) = (if isLoading (ui w) then 1%nat else 0%nat)
  ∧ ∀ id, id ∈ inflight w → isBlank id = false.

(** The reply that enters the list of recent imports. *)
Definition isSuccess (r : MigrationReply) : bool :=
  match r with
  | Imported status _ _ => String.eqb status "success"
  | _ => false
  end.

End ExpenseMigration.

(** ** AdminDashboard (components/AdminDashboard.tsx) *)

Module AdminDashboard.

(** [interface PendingUpdate] of this component. *)
Record PendingUpdate : Type := {
  _id : string;
  mongo_split_id : string;
  splitwise_expense_id : string;
  updated_by_email : string;
  updated_by_name : string;
  proposed_changes : list ProposedChange;
  status : string;
  admin_notes : option string;
  created_at : string;
  processed_at : option string
}.

(** ['overview' | 'migration' | 'requests' | 'batch']. *)
Inductive Tab : Type :=
| Overview
| Migration
| Requests
| Batch.

(** The second argument of [handleApproval]: ['approve' | 'reject']. *)
Inductive Decision : Type :=
| Approve
| Reject.

Definition decisionName (d : Decision) : string :=
  match d with
  | Approve => "approve"
  | Reject => "reject"
  end.

(** The [useState] cells. *)
Record State : Type := {
  pendingUpdates : list PendingUpdate;
  loading : bool;
  error : option string;
  processingId : option string;
  adminNotes : gmap string string;
  activeTab : Tab
}.

Definition initialState : State :=
  {| pendingUpdates := []; loading := true; error := None;
     processingId := None; adminNotes := ∅; activeTab := Overview |}.

Definition setPendingUpdates (v : list PendingUpdate) (s : State) : State :=
  {| pendingUpdates := v; loading := loading s; error := error s;
     processingId := processingId s; adminNotes := adminNotes s;
     activeTab := activeTab s |}.

Definition setLoading (v : bool) (s : State) : State :=
  {| pendingUpdates := pendingUpdates s; loading := v; error := error s;
     processingId := processingId s; adminNotes := adminNotes s;
     activeTab := activeTab s |}.

Definition setError (v : option string) (s : State) : State :=
  {| pendingUpdates := pendingUpdates s; loading := loading s; error := v;
     processingId := processingId s; adminNotes := adminNotes s;
     activeTab := activeTab s |}.

Definition setProcessingId (v : option string) (s : State) : State :=
  {| pendingUpdates := pendingUpdates s; loading := loading s; error := error s;
     processingId := v; adminNotes := adminNotes s;
     activeTab := activeTab s |}.

Definition setAdminNotes (v : gmap string string) (s : State) : State :=
  {| pendingUpdates := pendingUpdates s; loading := loading s; error := error s;
     processingId := processingId s; adminNotes := v;
     activeTab := activeTab s |}.

Definition setActiveTab (v : Tab) (s : State) : State :=
  {| pendingUpdates := pendingUpdates s; loading := loading s; error := error s;
     processingId := processingId s; adminNotes := adminNotes s;
     activeTab := v |}.

(** The body posted by [handleApproval]. *)
Record ApprovalBody : Type := {
  update_id : string;
  action : Decision;
  body_admin_notes : string
}.

(** The requests in flight: [fetchPendingUpdates], called on its own
    or awaited by the [handleApproval] of the update [awaitedBy], and
    the post of [handleApproval]. *)
Inductive Task : Type :=
| FetchPendingUpdates (awaitedBy : option string)
| ApproveUpdate (body : ApprovalBody).

(** The replies: the [updates] field of the body of
    [/api/admin/pending-updates], which may be missing, and the
    outcome of [/api/admin/approve-update]. *)
Inductive Reply : Type :=
| UpdatesReply (r : Attempt (option (list PendingUpdate)))
| ApprovalReply (r : Attempt unit).

Record World : Type := {
  ui : State;
  alerts : list string;
  inflight : list Task
}.

Definition update (f : State -> State) (w : World) : World :=
  {| ui := f (ui w); alerts := alerts w; inflight := inflight w |}.

Definition alert (msg : string) (w : World) : World :=
  {| ui := ui w; alerts := (alerts w ++ [msg])%list; inflight := inflight w |}.

Definition spawn (t : Task) (w : World) : World :=
  {| ui := ui w; alerts := alerts w; inflight := (inflight w ++ [t])%list |}.

Definition settle (i : nat) (w : World) : World :=
  {| ui := ui w; alerts := alerts w; inflight := delete i (inflight w) |}.

(** After mounting, the effect has called [fetchPendingUpdates]. *)
Definition initialWorld : World :=
  {| ui := initialState; alerts := []; inflight := [FetchPendingUpdates None] |}.

(** [fetchPendingUpdates] from its [fetch] on ([result.updates || []]),
    followed, when [handleApproval] awaited it, by the rest of that
    handler: the note of the update is deleted and [processingId]
    cleared. *)
Definition resumeFetchPendingUpdates
    (awaitedBy : option string) (r : Attempt (option (list PendingUpdate)))
    (s : State) : State :=
  let s1 :=
    match r with
    | Fetched updates => setPendingUpdates (default [] updates) s
    | _ => setError (caughtMessage "Failed to fetch pending updates" r) s
    end in
  let s2 := setLoading false s1 in
  match awaitedBy with
  | Some updateId =>
      setProcessingId None (setAdminNotes (delete updateId (adminNotes s2)) s2)
  | None => s2
  end.

(** [handleApproval] up to its [fetch]; the note sent is
    [adminNotes[updateId] || '']. *)
Definition handleApproval (updateId : string) (d : Decision) (w : World) : World :=
  spawn (ApproveUpdate {| update_id := updateId; action := d;
                          body_admin_notes := default "" (adminNotes (ui w) !! updateId) |})
        (update (setProcessingId (Some updateId)) w).

(** [handleApproval] from its [fetch] on. *)
Definition resumeApproval (body : ApprovalBody) (r : Attempt unit) (w : World) : World :=
  match r with
  | Fetched _ =>
      spawn (FetchPendingUpdates (Some (update_id body)))
        (alert ("Request " ++ decisionName (action body) ++ "ed successfully!") w)
  | _ =>
      update (setProcessingId None)
        (alert ("Error: "
                ++ default ""
                     (caughtMessage
                        ("Failed to " ++ decisionName (action body) ++ " update") r))
               w)
  end.

(** What the component returns: the spinner, the error box with its
    Retry button, or the dashboard with its tabs. *)
Inductive View : Type :=
| Spinner
| ErrorWithRetry (message : string)
| Tabs (active : Tab).

Definition render (s : State) : View :=
  if loading s then Spinner
  else if JS.truthy (error s) then ErrorWithRetry (default "" (error s))
  else Tabs (activeTab s).

(** [pendingUpdates.filter(u => u.status === 'pending')]: the cards
    of the requests tab, whose length is the badge of the tab. *)
Definition pendingShown (s : State) : list PendingUpdate :=
  List.filter (fun u => String.eqb (status u) "pending") (pendingUpdates s).

(** [pendingUpdates.filter(update => update.status !== 'pending')]. *)
Definition processed (s : State) : list PendingUpdate :=
  List.filter (fun u => negb (String.eqb (status u) "pending")) (pendingUpdates s).

(** The "Recent Processed Requests": [.slice(0, 5)] of the above. *)
Definition processedShown (s : State) : list PendingUpdate :=
  take 5 (processed s).

(** The card of a pending update is on screen: the requests tab is
    active and the update is in the pending list. *)
Definition cardShown (updateId : string) (s : State) : bool :=
  match render s with
  | Tabs Requests =>
      existsb (fun u => String.eqb (_id u) updateId) (pendingShown s)
  | _ => false
  end.

(** Clicks and inputs, and the arrival of a reply. *)
Inductive Event : Type :=
| ClickRetry
| ClickTab (tab : Tab)
| ClickRefresh
| ChangeNote (updateId : string) (text : string)
| ClickDecision (updateId : string) (d : Decision)
| Deliver (i : nat) (r : Reply).

Definition step (w : World) (ev : Event) : option World :=
  match ev with
  | ClickRetry =>
      match render (ui w) with
      | ErrorWithRetry _ => Some (spawn (FetchPendingUpdates None) w)
      | _ => None
      end
  | ClickTab tab =>
      match render (ui w) with
      | Tabs _ => Some (update (setActiveTab tab) w)
      | _ => None
      end
  | ClickRefresh =>
      match render (ui w) with
      | Tabs Overview => Some (spawn (FetchPendingUpdates None) w)
      | _ => None
      end
  | ChangeNote updateId text =>
      if cardShown updateId (ui w)
      then Some (update (fun s => setAdminNotes (<[updateId := text]> (adminNotes s)) s) w)
      else None
  | ClickDecision updateId d =>
      if cardShown updateId (ui w)
         && negb (bool_decide (processingId (ui w) = Some updateId))
      then Some (handleApproval updateId d w)
      else None
  | Deliver i r =>
      match inflight w !! i, r with
      | Some (FetchPendingUpdates awaitedBy), UpdatesReply r =>
          Some (update (resumeFetchPendingUpdates awaitedBy r) (settle i w))
      | Some (ApproveUpdate body), ApprovalReply r =>
          Some (resumeApproval body r (settle i w))
      | _, _ => None
      end
  end.

End AdminDashboard.

(** ** BulkExpenseMigration (components/BulkExpenseMigration.tsx) *)

Module BulkExpenseMigration.

(** [interface BulkImportResult]. *)
Record ImportedExpense : Type := {
  imported_id : string;
  imported_description : string;
  imported_amount : Q
}.

Record FailedExpense : Type := {
  failed_id : string;
  failed_error : string
}.

Record BulkImportResult : Type := {
  status : string;
  message : string;
  total_found : nat;
  imported : nat;
  already_existed : nat;
  failed : nat;
  imported_expenses : list ImportedExpense;
  failed_expenses : list FailedExpense
}.

(** [startDate], [endDate], [selectedGroup], [isLoading], [result]. *)
Record State : Type := {
  startDate : string;
  endDate : string;
  selectedGroup : string;
  isLoading : bool;
  result : option BulkImportResult
}.

Definition initialState : State :=
  {| startDate := ""; endDate := ""; selectedGroup := "all";
     isLoading := false; result := None |}.

Definition setStartDate (v : string) (s : State) : State :=
  {| startDate := v; endDate := endDate s; selectedGroup := selectedGroup s;
     isLoading := isLoading s; result := result s |}.

Definition setEndDate (v : string) (s : State) : State :=
  {| startDate := startDate s; endDate := v; selectedGroup := selectedGroup s;
     isLoading := isLoading s; result := result s |}.

Definition setSelectedGroup (v : string) (s : State) : State :=
  {| startDate := startDate s; endDate := endDate s; selectedGroup := v;
     isLoading := isLoading s; result := result s |}.

Definition setIsLoading (v : bool) (s : State) : State :=
  {| startDate := startDate s; endDate := endDate s;
     selectedGroup := selectedGroup s; isLoading := v; result := result s |}.

Definition setResult (v : option BulkImportResult) (s : State) : State :=
  {| startDate := startDate s; endDate := endDate s;
     selectedGroup := selectedGroup s; isLoading := isLoading s; result := v |}.

(** The query of the request: [new URLSearchParams({...})]. *)
Record Params : Type := {
  start_date : string;
  end_date : string;
  group_id : string
}.

(** What [handleBulkImport] gets from its [fetch]; the body is parsed
    before [response.ok] is tested. *)
Inductive BulkReply : Type :=
| Done (data : BulkImportResult)
| Refused (detail : option string)
| Failed (thrown : option string).

(** The result set by the two failure branches. *)
Definition errorResult (message : string) : BulkImportResult :=
  {| status := "error"; message := message; total_found := 0; imported := 0;
     already_existed := 0; failed := 0; imported_expenses := [];
     failed_expenses := [] |}.

Record World : Type := {
  ui : State;
  alerts : list string;
  inflight : list Params
}.

(** The dates the mounting effect and the preset buttons compute from
    the clock ([toISOString().split('T')[0]]) are given with the
    event; the clock is not part of the component. *)
Inductive Event : Type :=
| SetDates (start finish : string)
| ChangeStartDate (text : string)
| ChangeEndDate (text : string)
| ChangeGroup (group : string)
| ClickStart
| Deliver (i : nat) (r : BulkReply).

Section WithDates.

(** [new Date(s).getTime()]: the time value of a date string, or
    nothing for an invalid date. *)
Variable timeOf : string -> option Z.

(** [new Date(a) > new Date(b)]; a comparison with an invalid date is
    false. *)
Definition after (a b : string) : bool :=
  match timeOf a, timeOf b with
  | Some x, Some y => (y <? x)%Z
  | _, _ => false
  end.

(** [handleBulkImport] up to its [fetch]. *)
Definition handleBulkImport (w : World) : World :=
  if String.eqb (startDate (ui w)) "" || String.eqb (endDate (ui w)) ""
  then {| ui := ui w;
          alerts := (alerts w ++ ["Please select both start and end dates"])%list;
          inflight := inflight w |}
  else if after (startDate (ui w)) (endDate (ui w))
  then {| ui := ui w;
          alerts := (alerts w ++ ["Start date must be before end date"])%list;
          inflight := inflight w |}
  else {| ui := setResult None (setIsLoading true (ui w));
          alerts := alerts w;
          inflight :=
            (inflight w
             ++ [{| start_date := startDate (ui w); end_date := endDate (ui w);
                    group_id := selectedGroup (ui w) |}])%list |}.

(** [handleBulkImport] from its [fetch] on. *)
Definition resumeBulkImport (r : BulkReply) (s : State) : State :=
  let s1 :=
    match r with
    | Done data => setResult (Some data) s
    | Refused detail =>
        setResult
          (Some (errorResult (if JS.truthy detail then default "" detail
                              else "Bulk import failed")))
          s
    | Failed thrown =>
        setResult
          (Some (errorResult ("Network error: " ++ default "Unknown error" thrown)))
          s
    end in
  setIsLoading false s1.

(** The inputs and the preset buttons are [disabled] while loading;
    the start button also while a date is empty. *)
Definition step (w : World) (ev : Event) : option World :=
  match ev with
  | SetDates start finish =>
      if isLoading (ui w) then None
      else Some {| ui := setStartDate start (setEndDate finish (ui w));
                   alerts := alerts w; inflight := inflight w |}
  | ChangeStartDate text =>
      if isLoading (ui w) then None
      else Some {| ui := setStartDate text (ui w);
                   alerts := alerts w; inflight := inflight w |}
  | ChangeEndDate text =>
      if isLoading (ui w) then None
      else Some {| ui := setEndDate text (ui w);
                   alerts := alerts w; inflight := inflight w |}
  | ChangeGroup group =>
      if isLoading (ui w) then None
      else Some {| ui := setSelectedGroup group (ui w);
                   alerts := alerts w; inflight := inflight w |}
  | ClickStart =>
      if isLoading (ui w)
         || String.eqb (startDate (ui w)) "" || String.eqb (endDate (ui w)) ""
      then None
      else Some (handleBulkImport w)
  | Deliver i r =>
      match inflight w !! i with
      | Some _ =>
          Some {| ui := resumeBulkImport r (ui w); alerts := alerts w;
                  inflight := delete i (inflight w) |}
      | None => None
      end
  end.

(** The worlds reachable from the component as first rendered; the
    mounting effect is the first [SetDates]. *)
Inductive reachable : World -> Prop :=
| reachable_initial :
    reachable {| ui := initialState; alerts := []; inflight := [] |}
| reachable_step w ev w' :
    reachable w -> step w ev = Some w' -> reachable w'.

(** A request the server can be sent: both dates given and the start
    not after the end. *)
Definition ordered (p : Params) : Prop :=
  start_date p ≠ "" ∧ end_date p ≠ "" ∧ after (start_date p) (end_date p) = false.

(** What every transition keeps. *)
Definition orderly (w : World) : Prop :=
  length (inflight w) = (if isLoading (ui w) then 1%nat else 0%nat)
  ∧ ∀ p, p ∈ inflight w → ordered p.

End WithDates.

End BulkExpenseMigration.

(** ** Further sample data *)

Module MoreSamples.

(** The split-detail page of member C after its split has loaded. *)
Definition viewing : SplitDetailPage.World :=
  {| SplitDetailPage.ui :=
       SplitDetailPage.resumeFetchSplitDetail
         (Fetched {| SplitDetailPage.result_split := Some Samples.dinner;
                     SplitDetailPage.result_member_name := "C" |})
         SplitDetailPage.initialState;
     SplitDetailPage.splitId := "s1";
     SplitDetailPage.alerts := [];
     SplitDetailPage.inflight := [] |}.

(** The import form with an identifier typed in, and five imports
    done before. *)
Definition typed : ExpenseMigration.World :=
  {| ExpenseMigration.ui :=
       {| ExpenseMigration.expenseId := "3867079269";
          ExpenseMigration.isLoading := false;
          ExpenseMigration.result := None;
          ExpenseMigration.recentMigrations := ["5"; "4"; "3"; "2"; "1"] |};
     ExpenseMigration.inflight := [] |}.

(** Two requests of the individual review, one pending with a note
    typed, one processed. *)
Definition pendingOne : AdminDashboard.PendingUpdate :=
  {| AdminDashboard._id := "u1"; AdminDashboard.mongo_split_id := "s1";
     AdminDashboard.splitwise_expense_id := "e1";
     AdminDashboard.updated_by_email := "d@example.org";
     AdminDashboard.updated_by_name := "D";
     AdminDashboard.proposed_changes :=
       [{| change_item_name := "Pizza"; change_action := "join" |}];
     AdminDashboard.status := "pending"; AdminDashboard.admin_notes := None;
     AdminDashboard.created_at := "2025-01-01T10:00:00Z";
     AdminDashboard.processed_at := None |}.

Definition reviewingRequests : AdminDashboard.World :=
  {| AdminDashboard.ui :=
       {| AdminDashboard.pendingUpdates := [pendingOne];
          AdminDashboard.loading := false; AdminDashboard.error := None;
          AdminDashboard.processingId := None;
          AdminDashboard.adminNotes := {[ "u1" := "fine"; "u2" := "later" ]};
          AdminDashboard.activeTab := AdminDashboard.Requests |};
     AdminDashboard.alerts := []; AdminDashboard.inflight := [] |}.

(** Time values of the two dates used below, as [Date] gives them
    (milliseconds since the epoch, at midnight UTC). *)
Definition januaryTimes (s : string) : option Z :=
  if String.eqb s "2025-01-01" then Some 1735689600000%Z
  else if String.eqb s "2025-01-31" then Some 1738281600000%Z
  else None.

(** The bulk import form with the two dates of January exchanged. *)
Definition inverted : BulkExpenseMigration.World :=
  {| BulkExpenseMigration.ui :=
       BulkExpenseMigration.setStartDate "2025-01-31"
         (BulkExpenseMigration.setEndDate "2025-01-01"
            BulkExpenseMigration.initialState);
     BulkExpenseMigration.alerts := [];
     BulkExpenseMigration.inflight := [] |}.

(** The bulk import form with the month of January selected. *)
Definition january : BulkExpenseMigration.World :=
  {| BulkExpenseMigration.ui :=
       BulkExpenseMigration.setStartDate "2025-01-01"
         (BulkExpenseMigration.setEndDate "2025-01-31"
            BulkExpenseMigration.initialState);
     BulkExpenseMigration.alerts := [];
     BulkExpenseMigration.inflight := [] |}.

End MoreSamples.

(** * Properties *)

(** ** BatchReviewComponent *)

Section BatchReviewFacts.

Import BatchReview.

(** Every setter leaves the other cells alone; the handlers below are
    compositions of setters, so their effect on each cell is read off
    by computation. *)
Ltac cells := repeat split; try reflexivity.

(** Claim C4.  For every expense identifier and whatever the
    component state was, [handleExpenseSelect] leaves the approved and
    the rejected request sets empty, the preview null and the workflow
    step at "decisions" (and the expense selected); a click on an
    expense card runs exactly this handler on the component state. *)
Theorem handleExpenseSelect_resets_decisions (expenseId : string) (s : State) :
  selectedRequests (handleExpenseSelect expenseId s) = ∅
  ∧ rejectedRequests (handleExpenseSelect expenseId s) = ∅
  ∧ preview (handleExpenseSelect expenseId s) = None
  ∧ workflowStep (handleExpenseSelect expenseId s) = StepDecisions
  ∧ selectedExpense (handleExpenseSelect expenseId s) = Some expenseId
  ∧ ∀ w : World, ui (clickExpense expenseId w) = handleExpenseSelect expenseId (ui w).
Proof.
  cells.
  intros w. unfold clickExpense.
  destruct (_ && _); reflexivity.
Qed.

(** Claim C5.  The "Go Back to Decisions" button exists only in the
    preview stage with a preview present; clicking it sets [preview]
    and [commentPreview] to null and the step to "decisions", and
    changes nothing else: every other cell of the component, the two
    request sets in particular, the alerts shown and the requests in
    flight are as before. *)
Theorem go_back_discards_preview_only (w w' : World) :
  step w ClickGoBack = Some w' →
  workflowStep (ui w) = StepPreview
  ∧ preview (ui w') = None
  ∧ commentPreview (ui w') = None
  ∧ workflowStep (ui w') = StepDecisions
  ∧ selectedRequests (ui w') = selectedRequests (ui w)
  ∧ rejectedRequests (ui w') = rejectedRequests (ui w)
  ∧ groupedRequests (ui w') = groupedRequests (ui w)
  ∧ loading (ui w') = loading (ui w)
  ∧ selectedExpense (ui w') = selectedExpense (ui w)
  ∧ processing (ui w') = processing (ui w)
  ∧ adminNotes (ui w') = adminNotes (ui w)
  ∧ expenseStatus (ui w') = expenseStatus (ui w)
  ∧ alerts w' = alerts w
  ∧ inflight w' = inflight w.
Proof.
  simpl. destruct (goBackAvailable (ui w)) eqn:Hshown; [|discriminate].
  intros [= <-].
  split; [|cells].
  unfold goBackAvailable, previewPanelRendered in Hshown.
  destruct (workflowStep (ui w)); try reflexivity;
    destruct (selectedExpenseData (ui w)), (loading (ui w)); discriminate.
Qed.

End BatchReviewFacts.

Section BatchReviewWitnesses.

Import BatchReview Samples.

Lemma go_back_discards_preview_only_witness :
  step previewing ClickGoBack = Some (update goBackToDecisions previewing)
  ∧ workflowStep (ui previewing) = StepPreview
  ∧ preview (ui (update goBackToDecisions previewing)) = None
  ∧ selectedRequests (ui (update goBackToDecisions previewing)) = {[ "r1" ]}
  ∧ rejectedRequests (ui (update goBackToDecisions previewing)) = {[ "r2" ]}.
Proof.
  assert (Hstep : step previewing ClickGoBack
                  = Some (update goBackToDecisions previewing))
    by (vm_compute; reflexivity).
  pose proof (go_back_discards_preview_only _ _ Hstep) as H.
  split; [exact Hstep|].
  destruct H as (H1 & H2 & _ & _ & H5 & H6 & _).
  split; [exact H1|]. split; [exact H2|].
  split; [rewrite H5 | rewrite H6]; reflexivity.
Defined.

End BatchReviewWitnesses.

(** ** Requests in flight along a transition *)

Section InFlight.

Import BatchReview.

Lemma applyRequests_spawn (t : Task) (w : World) :
  applyRequests (spawn t w)
  = (applyRequests w + (if isApplyRequest t then 1 else 0))%nat.
Proof.
  unfold applyRequests, spawn; simpl.
  rewrite List.filter_app, length_app; simpl.
  destruct (isApplyRequest t); reflexivity.
Qed.

Lemma filter_delete_length {A : Type} (f : A → bool) (l : list A) (i : nat) :
  (length (List.filter f (delete i l)) ≤ length (List.filter f l))%nat.
Proof.
  revert i; induction l as [|a l IH]; intros [|i]; simpl; try lia.
  - destruct (f a); simpl; lia.
  - specialize (IH i). destruct (f a); simpl; lia.
Qed.

Lemma applyRequests_settle (i : nat) (w : World) :
  (applyRequests (settle i w) ≤ applyRequests w)%nat.
Proof. apply filter_delete_length. Qed.

(** A reply never starts an apply request. *)
Lemma resume_applyRequests (t : Task) (r : Reply) (w w' : World) :
  resume t r w = Some w' → applyRequests w' = applyRequests w.
Proof.
  destruct t as [fin|e k|body|e|e], r as [r|r|r|r|r]; simpl; try discriminate;
    intros [= <-].
  - unfold resumeFetchGroupedRequests.
    destruct r, fin; reflexivity.
  - unfold resumeCheckExpenseStatus.
    destruct r, k; rewrite ?applyRequests_spawn; unfold applyRequests; simpl; lia.
  - unfold resumeCommitDecisions.
    destruct r; rewrite ?applyRequests_spawn; unfold applyRequests; simpl; lia.
  - unfold resumePreviewSplitwiseChanges.
    destruct r as [result| |]; try reflexivity.
    destruct (String.eqb _ _); reflexivity.
  - unfold resumeApplyToSplitwiseAndMongoDB.
    destruct r; rewrite ?applyRequests_spawn; unfold applyRequests; simpl; lia.
Qed.

(** Only a click on the apply button starts an apply request. *)
Lemma step_applyRequests (w : World) (ev : Event) (w' : World) :
  step w ev = Some w' → ev ≠ ClickApply →
  (applyRequests w' ≤ applyRequests w)%nat.
Proof.
  intros Hstep Hother.
  destruct ev as [e|requestId action|text| | | | | |i r]; simpl in Hstep.
  - destruct (expenseCardRendered e (ui w)); [|discriminate].
    injection Hstep as <-. unfold clickExpense.
    destruct (_ && _); rewrite ?applyRequests_spawn; simpl;
      unfold applyRequests; simpl; lia.
  - destruct (toggleRendered requestId (ui w)); [|discriminate].
    injection Hstep as <-. reflexivity.
  - destruct (decisionsPanelRendered (ui w)); [|discriminate].
    injection Hstep as <-. reflexivity.
  - destruct (commitAvailable (ui w)); [|discriminate].
    injection Hstep as <-. unfold commitDecisions.
    destruct (selectedExpense (ui w)) as [e|]; [|reflexivity].
    destruct (JS.truthy (Some e)); [|reflexivity].
    rewrite applyRequests_spawn; simpl. unfold applyRequests; simpl; lia.
  - destruct (previewAvailable (ui w)); [|discriminate].
    injection Hstep as <-. unfold previewSplitwiseChanges.
    destruct (selectedExpense (ui w)) as [e|]; [|reflexivity].
    destruct (JS.truthy (Some e)); [|reflexivity].
    rewrite applyRequests_spawn; simpl. unfold applyRequests; simpl; lia.
  - destruct (goBackAvailable (ui w)); [|discriminate].
    injection Hstep as <-. reflexivity.
  - contradiction Hother; reflexivity.
  - destruct (processAnotherAvailable (ui w)); [|discriminate].
    injection Hstep as <-. unfold clickProcessAnother.
    rewrite applyRequests_spawn; simpl. unfold applyRequests; simpl; lia.
  - destruct (inflight w !! i) as [t|]; [|discriminate].
    apply resume_applyRequests in Hstep. rewrite Hstep.
    apply applyRequests_settle.
Qed.

(** The apply button is rendered enabled only in the preview
    panel, with a preview whose validation matches, and not while a
    request is being processed. *)
Lemma applyAvailable_spec (s : State) :
  applyAvailable s = true →
  workflowStep s = StepPreview
  ∧ processing s = false
  ∧ ∃ p, preview s = Some p ∧ total_matches (validation p) = true.
Proof.
  unfold applyAvailable, previewPanelRendered.
  destruct (loading s), (selectedExpenseData s), (workflowStep s),
    (preview s) as [p|]; simpl; try discriminate.
  destruct (processing s), (total_matches (validation p)) eqn:Hm;
    simpl; try discriminate.
  intros _. repeat split. exists p. split; [reflexivity | exact Hm].
Qed.

End InFlight.

Section ApplyButton.

Import BatchReview.

(** Claim C1.  In every state of BatchReviewComponent, reachable or
    not, in which the preview is null or its validation reports that
    the totals do not match, the apply action is not available: the
    button that calls [applyToSplitwiseAndMongoDB] is absent or
    disabled, the click cannot occur, and no other event starts an
    apply request either. *)
Theorem apply_needs_matching_preview (w : World) :
  (preview (ui w) = None
   ∨ ∃ p, preview (ui w) = Some p ∧ total_matches (validation p) = false) →
  applyAvailable (ui w) = false
  ∧ step w ClickApply = None
  ∧ ∀ ev w', step w ev = Some w' → (applyRequests w' ≤ applyRequests w)%nat.
Proof.
  intros Hpreview.
  assert (Hoff : applyAvailable (ui w) = false).
  { destruct (applyAvailable (ui w)) eqn:Hon; [|reflexivity].
    apply applyAvailable_spec in Hon as (_ & _ & p & Hp & Hm).
    destruct Hpreview as [Hnone | (q & Hq & Hno)]; congruence. }
  split; [exact Hoff|].
  split; [simpl; rewrite Hoff; reflexivity|].
  intros ev w' Hstep.
  destruct ev; try (apply (step_applyRequests _ _ _ Hstep); discriminate).
  simpl in Hstep. rewrite Hoff in Hstep. discriminate.
Qed.

End ApplyButton.

Section ApplyButtonWitness.

Import BatchReview Samples.

Lemma apply_needs_matching_preview_witness :
  preview (ui committed) = None
  ∧ applyAvailable (ui committed) = false
  ∧ step committed ClickApply = None.
Proof.
  split; [reflexivity|].
  destruct (apply_needs_matching_preview committed (or_introl eq_refl))
    as (Hoff & Hclick & _).
  split; [exact Hoff | exact Hclick].
Defined.

End ApplyButtonWitness.

(** ** The two decision sets *)

Section Decisions.

Import BatchReview.

(** [toggleRequestSelection] removes the identifier from the opposite
    set whenever it adds it to one. *)
Lemma toggleRequestSelection_disjoint
    (requestId : string) (action : ToggleAction) (s : State) :
  selectedRequests s ## rejectedRequests s →
  selectedRequests (toggleRequestSelection requestId action s)
  ## rejectedRequests (toggleRequestSelection requestId action s).
Proof.
  intros Hdisj. unfold toggleRequestSelection.
  rewrite elem_of_disjoint in Hdisj.
  destruct action; case_bool_decide; simpl; apply elem_of_disjoint; intros x;
    rewrite ?elem_of_union, ?elem_of_difference, ?elem_of_singleton;
    specialize (Hdisj x); intuition congruence.
Qed.

(** It touches nothing but the two sets; the step in particular. *)
Lemma toggleRequestSelection_workflowStep
    (requestId : string) (action : ToggleAction) (s : State) :
  workflowStep (toggleRequestSelection requestId action s) = workflowStep s.
Proof.
  unfold toggleRequestSelection.
  destruct action; case_bool_decide; reflexivity.
Qed.

Lemma commitBodies_spawn (t : Task) (w : World) :
  commitBodies (spawn t w) = (commitBodies w ++ commitBody t)%list.
Proof.
  unfold commitBodies, spawn; simpl.
  rewrite flat_map_app; simpl. rewrite app_nil_r. reflexivity.
Qed.

Lemma commitBodies_settle (i : nat) (w : World) (body : CommitBody) :
  body ∈ commitBodies (settle i w) → body ∈ commitBodies w.
Proof.
  unfold commitBodies, settle; simpl.
  generalize (inflight w) as l. intros l; revert i.
  induction l as [|t l IH]; intros [|i]; simpl; intros Hin; try assumption.
  - apply elem_of_app. right. exact Hin.
  - apply elem_of_app in Hin as [Hin|Hin]; apply elem_of_app;
      [left; exact Hin | right; exact (IH _ Hin)].
Qed.

(** A reply changes neither set and sends no commit request. *)
Lemma resume_decisions (t : Task) (r : Reply) (w w' : World) :
  resume t r w = Some w' →
  selectedRequests (ui w') = selectedRequests (ui w)
  ∧ rejectedRequests (ui w') = rejectedRequests (ui w)
  ∧ commitBodies w' = commitBodies w.
Proof.
  destruct t as [fin|e k|body|e|e], r as [r|r|r|r|r]; simpl; try discriminate;
    intros [= <-].
  - unfold resumeFetchGroupedRequests. destruct r, fin; repeat split.
  - unfold resumeCheckExpenseStatus, stepOfStatus.
    destruct r as [status| |], k; rewrite ?commitBodies_spawn; simpl;
      rewrite ?app_nil_r;
      repeat (match goal with |- context [if ?b then _ else _] => destruct b end);
      repeat split.
  - unfold resumeCommitDecisions.
    destruct r; rewrite ?commitBodies_spawn; simpl; rewrite ?app_nil_r;
      repeat split.
  - unfold resumePreviewSplitwiseChanges.
    destruct r as [result| |]; [destruct (String.eqb _ _)| |]; repeat split.
  - unfold resumeApplyToSplitwiseAndMongoDB.
    destruct r; rewrite ?commitBodies_spawn; simpl; rewrite ?app_nil_r;
      repeat split.
Qed.

(** Every transition keeps the two sets, and the commit requests in
    flight, free of an identifier that is both approved and
    rejected. *)
Lemma step_decisionsDisjoint (w : World) (ev : Event) (w' : World) :
  decisionsDisjoint w → step w ev = Some w' → decisionsDisjoint w'.
Proof.
  intros [Hsets Hbodies] Hstep.
  destruct ev as [e|requestId action|text| | | | | |i r]; simpl in Hstep.
  - destruct (expenseCardRendered e (ui w)); [|discriminate].
    injection Hstep as <-. unfold clickExpense.
    destruct (_ && _); (split; [simpl; set_solver|]);
      rewrite ?commitBodies_spawn; simpl; rewrite ?app_nil_r; exact Hbodies.
  - destruct (toggleRendered requestId (ui w)); [|discriminate].
    injection Hstep as <-.
    split; [apply toggleRequestSelection_disjoint; exact Hsets | exact Hbodies].
  - destruct (decisionsPanelRendered (ui w)); [|discriminate].
    injection Hstep as <-. split; [exact Hsets | exact Hbodies].
  - destruct (commitAvailable (ui w)); [|discriminate].
    injection Hstep as <-. unfold commitDecisions.
    destruct (selectedExpense (ui w)) as [e|]; [|split; assumption].
    destruct (JS.truthy (Some e)); [|split; assumption].
    split; [exact Hsets|].
    intros body requestId. rewrite commitBodies_spawn; simpl.
    intros Hin Happroved Hrejected.
    apply elem_of_app in Hin as [Hin|Hin]; [exact (Hbodies _ _ Hin Happroved Hrejected)|].
    apply list_elem_of_singleton in Hin as ->; simpl in *.
    apply elem_of_elements in Happroved, Hrejected.
    exact (Hsets _ Happroved Hrejected).
  - destruct (previewAvailable (ui w)); [|discriminate].
    injection Hstep as <-. unfold previewSplitwiseChanges.
    destruct (selectedExpense (ui w)) as [e|]; [|split; assumption].
    destruct (JS.truthy (Some e)); [|split; assumption].
    split; [exact Hsets|].
    rewrite commitBodies_spawn; simpl; rewrite app_nil_r. exact Hbodies.
  - destruct (goBackAvailable (ui w)); [|discriminate].
    injection Hstep as <-. split; [exact Hsets | exact Hbodies].
  - destruct (applyAvailable (ui w)); [|discriminate].
    injection Hstep as <-. unfold applyToSplitwiseAndMongoDB.
    destruct (selectedExpense (ui w)) as [e|]; [|split; assumption].
    destruct (JS.truthy (Some e)); [|split; assumption].
    split; [exact Hsets|].
    rewrite commitBodies_spawn; simpl; rewrite app_nil_r. exact Hbodies.
  - destruct (processAnotherAvailable (ui w)); [|discriminate].
    injection Hstep as <-. unfold clickProcessAnother.
    split; [exact Hsets|].
    rewrite commitBodies_spawn; simpl; rewrite app_nil_r. exact Hbodies.
  - destruct (inflight w !! i) as [t|]; [|discriminate].
    apply resume_decisions in Hstep as (Hs & Hr & Hb).
    split; [rewrite Hs, Hr; exact Hsets|].
    rewrite Hb. intros body requestId Hin.
    apply commitBodies_settle in Hin. exact (Hbodies _ _ Hin).
Qed.

(** Claim C8.  In every state reachable from the mounted component
    the approved and the rejected request sets are disjoint, and so
    are the [approved_request_ids] and [rejected_request_ids] of every
    commit request [commitDecisions] has sent. *)
Theorem decision_sets_disjoint (w : World) :
  reachable w →
  selectedRequests (ui w) ## rejectedRequests (ui w)
  ∧ ∀ body requestId,
      body ∈ commitBodies w →
      requestId ∈ approved_request_ids body →
      requestId ∈ rejected_request_ids body →
      False.
Proof.
  induction 1 as [|w ev w' _ IH Hstep].
  - split; [simpl; set_solver|].
    intros body requestId Hin. vm_compute in Hin. inversion Hin.
  - exact (step_decisionsDisjoint _ _ _ IH Hstep).
Qed.

End Decisions.

Section DecisionsWitness.

Import BatchReview Samples.

Lemma toggled_reachable : reachable toggled.
Proof.
  apply (reachable_step
           (update (toggleRequestSelection "r1" Approve) selected)
           (ClickToggle "r2" Reject)); [|vm_compute; reflexivity].
  apply (reachable_step selected (ClickToggle "r1" Approve));
    [|vm_compute; reflexivity].
  apply (reachable_step loaded (ClickExpense "e1")); [|vm_compute; reflexivity].
  apply (reachable_step initialWorld
           (Deliver 0 (GroupedReply (HttpOk [group1]))));
    [|vm_compute; reflexivity].
  apply reachable_initial.
Defined.

Lemma decision_sets_disjoint_witness :
  reachable toggled
  ∧ selectedRequests (ui toggled) ## rejectedRequests (ui toggled).
Proof.
  split; [exact toggled_reachable|].
  exact (proj1 (decision_sets_disjoint toggled toggled_reachable)).
Defined.

End DecisionsWitness.

(** ** Failure of the apply request *)

Section ApplyFailure.

Import BatchReview.

(** Claim C3, as the code has it.  When the apply request fails, the
    alert depends only on how the failure reaches the browser, not on
    the class of the failure: a reply that is not ok and whose body is
    JSON, whatever its status and cause, is shown under the heading
    "CRITICAL ERROR" followed by the [detail] of that body; anything
    thrown (the request is rejected, or the body of the reply is not
    JSON, whatever its status) is shown as "Network error occurred".
    In both cases the workflow step stays as it was, [processing] is
    cleared and nothing is sent again. *)
Theorem apply_failure_alert
    (w : World) (i : nat) (e : string) (r : FetchResult string) :
  inflight w !! i = Some (ApplyToSplitwiseAndMongoDB e) →
  (∀ message, r ≠ HttpOk message) →
  ∃ w' msg,
    step w (Deliver i (ApplyReply r)) = Some w'
    ∧ alerts w' = (alerts w ++ [msg])%list
    ∧ msg = match r with
            | HttpError _ detail => "❌ CRITICAL ERROR:" ++ JS.nl ++ detail
            | _ => "❌ Network error occurred"
            end
    ∧ isCritical msg = match r with
                       | HttpError _ _ => true
                       | _ => false
                       end
    ∧ workflowStep (ui w') = workflowStep (ui w)
    ∧ processing (ui w') = false
    ∧ inflight w' = delete i (inflight w).
Proof.
  intros Hflight Hfailed. simpl. rewrite Hflight. simpl.
  destruct r as [message|status detail|].
  - contradiction (Hfailed message). reflexivity.
  - eexists _, _. repeat split.
  - eexists _, _. repeat split.
Qed.

End ApplyFailure.

Section ApplyFailureWitness.

Import BatchReview Samples.

(** Claim C3 fails as stated: the reply to an apply request whose
    ledger update failed, with nothing changed, is alerted as a
    critical error. *)
Lemma ordinary_failure_alerted_as_critical :
  ∃ w' msg,
    step applying (Deliver 0 (ApplyReply ledgerFailure)) = Some w'
    ∧ last (alerts w') = Some msg
    ∧ msg = "❌ CRITICAL ERROR:" ++ JS.nl
            ++ "Failed to update Splitwise expense; no changes were made"
    ∧ isCritical msg = true.
Proof.
  eexists _, _. repeat split.
Qed.

Lemma apply_failure_alert_witness :
  inflight applying !! 0%nat = Some (ApplyToSplitwiseAndMongoDB "e1")
  ∧ (∃ w' msg,
       step applying (Deliver 0 (ApplyReply ledgerFailure)) = Some w'
       ∧ alerts w' = [msg]
       ∧ isCritical msg = true
       ∧ workflowStep (ui w') = StepPreview)
  ∧ (∃ w',
       step applying (Deliver 0 (ApplyReply Thrown)) = Some w'
       ∧ alerts w' = ["❌ Network error occurred"]
       ∧ workflowStep (ui w') = StepPreview
       ∧ processing (ui w') = false).
Proof.
  split; [reflexivity|]. split.
  - destruct (apply_failure_alert applying 0 "e1" ledgerFailure eq_refl)
      as (w' & msg & Hstep & Halerts & _ & Hcritical & Hsame & _).
    { intros message; discriminate. }
    exists w', msg. repeat split; assumption.
  - destruct (apply_failure_alert applying 0 "e1" Thrown eq_refl)
      as (w' & msg & Hstep & Halerts & Hmsg & _ & Hsame & Hdone & _).
    { intros message; discriminate. }
    exists w'. rewrite Hmsg in Halerts. repeat split; assumption.
Defined.

End ApplyFailureWitness.

(** ** The workflow step along a run *)

Section WorkflowSteps.

Import BatchReview.

Lemma run_head (w : World) (trace : list Event) (ws : list World) :
  run w trace = Some ws → ws !! 0%nat = Some w.
Proof.
  destruct trace as [|ev rest]; simpl.
  - intros [= <-]. reflexivity.
  - destruct (step w ev) as [w1|]; [|discriminate].
    destruct (run w1 rest); [|discriminate].
    intros [= <-]. reflexivity.
Qed.

(** Consecutive worlds of a run are related by the event at that
    position. *)
Lemma run_lookup (trace : list Event) :
  ∀ (w0 : World) (ws : list World) (n : nat) (w w' : World),
    run w0 trace = Some ws →
    ws !! n = Some w → ws !! S n = Some w' →
    ∃ ev, trace !! n = Some ev ∧ step w ev = Some w'.
Proof.
  induction trace as [|ev rest IH]; intros w0 ws n w w'; simpl.
  - intros [= <-] _ Hnext. destruct n; discriminate.
  - destruct (step w0 ev) as [w1|] eqn:Hstep; [|discriminate].
    destruct (run w1 rest) as [ws1|] eqn:Hrun; [|discriminate].
    intros [= <-]. destruct n as [|n]; simpl.
    + intros [= <-] Hnext. exists ev. split; [reflexivity|].
      apply run_head in Hrun. congruence.
    + intros Hw Hw'. exact (IH _ _ _ _ _ Hrun Hw Hw').
Qed.

(** An apply request is in flight only after the step has been
    "preview": the request is sent by a click on the apply button,
    which exists in the preview panel only. *)
Lemma apply_request_after_preview (trace : list Event) :
  ∀ (w0 : World) (ws : list World) (n : nat) (w : World),
    run w0 trace = Some ws →
    applyRequests w0 = 0%nat →
    ws !! n = Some w → (0 < applyRequests w)%nat →
    StepPreview ∈ take n (stepsOf ws).
Proof.
  induction trace as [|ev rest IH]; intros w0 ws n w; simpl.
  - intros [= <-] Hnone Hw Hsome.
    destruct n; [injection Hw as <-; lia | discriminate].
  - destruct (step w0 ev) as [w1|] eqn:Hstep; [|discriminate].
    destruct (run w1 rest) as [ws1|] eqn:Hrun; [|discriminate].
    intros [= <-] Hnone Hw Hsome.
    destruct n as [|n]; simpl in Hw; [injection Hw as <-; lia|].
    simpl. destruct (applyRequests w1) as [|k] eqn:Hw1.
    + apply elem_of_cons. right. exact (IH _ _ _ _ Hrun Hw1 Hw Hsome).
    + apply elem_of_cons. left.
      assert (Hclick : ev = ClickApply).
      { destruct ev; try reflexivity;
          (assert (applyRequests w1 ≤ applyRequests w0)%nat
            by (apply (step_applyRequests _ _ _ Hstep); discriminate); lia). }
      subst ev. simpl in Hstep.
      destruct (applyAvailable (ui w0)) eqn:Hon; [|discriminate].
      apply applyAvailable_spec in Hon as (Hpreview & _). congruence.
Qed.

(** The only transitions that set the step to "completed" are the
    arrival of the success reply of an apply request and the arrival
    of a status reply reporting "completed". *)
Lemma step_completed (w : World) (ev : Event) (w' : World) :
  step w ev = Some w' →
  workflowStep (ui w) ≠ StepCompleted →
  workflowStep (ui w') = StepCompleted →
  ∃ i,
    (∃ e message,
        inflight w !! i = Some (ApplyToSplitwiseAndMongoDB e)
        ∧ ev = Deliver i (ApplyReply (HttpOk message)))
    ∨ (∃ e k status,
        inflight w !! i = Some (CheckExpenseStatus e k)
        ∧ ev = Deliver i (StatusReply (HttpOk status))
        ∧ workflow_status status = "completed").
Proof.
  intros Hstep Hbefore Hafter.
  destruct ev as [e|requestId action|text| | | | | |i r]; simpl in Hstep.
  - destruct (expenseCardRendered e (ui w)); [|discriminate].
    injection Hstep as <-. unfold clickExpense in Hafter.
    destruct (_ && _); discriminate.
  - destruct (toggleRendered requestId (ui w)); [|discriminate].
    injection Hstep as <-. simpl in Hafter.
    rewrite toggleRequestSelection_workflowStep in Hafter.
    destruct (Hbefore Hafter).
  - destruct (decisionsPanelRendered (ui w)); [|discriminate].
    injection Hstep as <-. destruct (Hbefore Hafter).
  - destruct (commitAvailable (ui w)); [|discriminate].
    injection Hstep as <-. unfold commitDecisions in Hafter.
    destruct (selectedExpense (ui w)) as [e|]; [|destruct (Hbefore Hafter)].
    destruct (JS.truthy (Some e)); destruct (Hbefore Hafter).
  - destruct (previewAvailable (ui w)); [|discriminate].
    injection Hstep as <-. unfold previewSplitwiseChanges in Hafter.
    destruct (selectedExpense (ui w)) as [e|]; [|destruct (Hbefore Hafter)].
    destruct (JS.truthy (Some e)); destruct (Hbefore Hafter).
  - destruct (goBackAvailable (ui w)); [|discriminate].
    injection Hstep as <-. discriminate.
  - destruct (applyAvailable (ui w)); [|discriminate].
    injection Hstep as <-. unfold applyToSplitwiseAndMongoDB in Hafter.
    destruct (selectedExpense (ui w)) as [e|]; [|destruct (Hbefore Hafter)].
    destruct (JS.truthy (Some e)); destruct (Hbefore Hafter).
  - destruct (processAnotherAvailable (ui w)); [|discriminate].
    injection Hstep as <-. discriminate.
  - destruct (inflight w !! i) as [t|] eqn:Hflight; [|discriminate].
    exists i.
    destruct t as [fin|e k|body|e|e], r as [r|r|r|r|r]; simpl in Hstep;
      try discriminate; injection Hstep as <-.
    + unfold resumeFetchGroupedRequests in Hafter.
      destruct r, fin; destruct (Hbefore Hafter).
    + right. unfold resumeCheckExpenseStatus, stepOfStatus in Hafter.
      destruct r as [status| |]; [|destruct k; destruct (Hbefore Hafter)..].
      exists e, k, status. split; [exact Hflight|]. split; [reflexivity|].
      destruct (String.eqb (workflow_status status) "needs_decisions");
        [destruct k; discriminate|].
      destruct (String.eqb (workflow_status status) "ready_for_preview");
        [destruct k; discriminate|].
      destruct (String.eqb (workflow_status status) "completed") eqn:Hdone;
        [|destruct k; destruct (Hbefore Hafter)].
      apply String.eqb_eq in Hdone. exact Hdone.
    + unfold resumeCommitDecisions in Hafter.
      destruct r; [discriminate | destruct (Hbefore Hafter)..].
    + unfold resumePreviewSplitwiseChanges in Hafter.
      destruct r as [result| |]; [destruct (String.eqb _ _)| |]; destruct (Hbefore Hafter).
    + left. unfold resumeApplyToSplitwiseAndMongoDB in Hafter.
      destruct r as [message| |]; [|destruct (Hbefore Hafter)..].
      exists e, message. split; [exact Hflight | reflexivity].
Qed.

(** Claim C6, as the code has it.  Along every run of the mounted
    component, a transition that brings the step to "completed" is
    the arrival of a reply from the server: either the success reply
    of an apply request, and then the step has been "preview" earlier
    in the run, or a status reply reporting "completed", which
    [checkExpenseStatus] mirrors whatever the step is.  No click sets
    the step to "completed".  The "completed" step is not final:
    "Process Another Group" is offered there and returns the step to
    "decisions". *)
Theorem completed_only_by_server_reply :
  (∀ (trace : list Event) (ws : list World) (n : nat) (w w' : World),
      run initialWorld trace = Some ws →
      ws !! n = Some w → ws !! S n = Some w' →
      workflowStep (ui w) ≠ StepCompleted →
      workflowStep (ui w') = StepCompleted →
      ∃ i,
        (∃ e message,
            trace !! n = Some (Deliver i (ApplyReply (HttpOk message)))
            ∧ inflight w !! i = Some (ApplyToSplitwiseAndMongoDB e)
            ∧ StepPreview ∈ take n (stepsOf ws))
        ∨ (∃ e k status,
            trace !! n = Some (Deliver i (StatusReply (HttpOk status)))
            ∧ inflight w !! i = Some (CheckExpenseStatus e k)
            ∧ workflow_status status = "completed"))
  ∧ (∀ w : World,
      loading (ui w) = false →
      workflowStep (ui w) = StepCompleted →
      ∃ w', step w ClickProcessAnother = Some w'
            ∧ workflowStep (ui w') = StepDecisions).
Proof.
  split.
  - intros trace ws n w w' Hrun Hw Hw' Hbefore Hafter.
    destruct (run_lookup _ _ _ _ _ _ Hrun Hw Hw') as (ev & Hev & Hstep).
    destruct (step_completed _ _ _ Hstep Hbefore Hafter)
      as (i & [(e & message & Hflight & ->) | (e & k & status & Hflight & -> & Hdone)]).
    + exists i. left. exists e, message. repeat split; try assumption.
      apply (apply_request_after_preview trace initialWorld ws n w Hrun);
        [reflexivity | exact Hw |].
      unfold applyRequests.
      apply list_elem_of_lookup_2 in Hflight.
      apply list_elem_of_In in Hflight.
      assert (Hin : In (ApplyToSplitwiseAndMongoDB e)
                       (List.filter isApplyRequest (inflight w)))
        by (apply filter_In; split; [exact Hflight | reflexivity]).
      destruct (List.filter isApplyRequest (inflight w)); [destruct Hin | simpl; lia].
    + exists i. right. exists e, k, status. repeat split; assumption.
  - intros w Hloaded Hdone. simpl.
    unfold processAnotherAvailable. rewrite Hloaded, Hdone. simpl.
    eexists. split; reflexivity.
Qed.

End WorkflowSteps.

Section WorkflowStepsWitness.

Import BatchReview Samples.

(** Claim C6 fails as stated: when the admin opens an expense that
    the server reports as completed, the step goes from "decisions"
    to "completed" without ever being "preview"; and "completed" is
    left again by "Process Another Group". *)
Lemma decisions_to_completed_without_preview :
  ∃ ws,
    run initialWorld revisitTrace = Some ws
    ∧ stepsOf ws
      = [StepDecisions; StepDecisions; StepDecisions; StepCompleted;
         StepDecisions].
Proof.
  exists (default [] (run initialWorld revisitTrace)).
  split; vm_compute; reflexivity.
Qed.

Lemma completed_only_by_server_reply_witness :
  run initialWorld reviewTrace
  = Some (default [] (run initialWorld reviewTrace))
  ∧ stepsOf (default [] (run initialWorld reviewTrace)) !! 12%nat
    = Some StepCompleted
  ∧ StepPreview ∈ take 11 (stepsOf (default [] (run initialWorld reviewTrace))).
Proof.
  assert (Hrun : run initialWorld reviewTrace
                 = Some (default [] (run initialWorld reviewTrace)))
    by (vm_compute; reflexivity).
  split; [exact Hrun|]. split; [vm_compute; reflexivity|].
  destruct completed_only_by_server_reply as [Honly _].
  destruct (Honly reviewTrace _ 11%nat
              (default initialWorld
                 (default [] (run initialWorld reviewTrace) !! 11%nat))
              (default initialWorld
                 (default [] (run initialWorld reviewTrace) !! 12%nat))
              Hrun)
    as (i & [(e & message & _ & _ & Hseen) | (e & k & status & Hev & _)]).
  - vm_compute; reflexivity.
  - vm_compute; reflexivity.
  - vm_compute; discriminate.
  - vm_compute; reflexivity.
  - exact Hseen.
  - vm_compute in Hev. discriminate.
Defined.

End WorkflowStepsWitness.

(** ** AdminPage *)

Section AdminAccess.

Import AdminPage.

(** Once a probe has been made, its outcome alone decides: the
    dashboard is rendered exactly when the response is ok, and a 403,
    any other status and a rejected request all give the Access
    Denied view. *)
Lemma probe_decides (probe : Probe) (s : State) :
  render (checkAdminStatus true probe s)
  = match probe with
    | Response status => if ok status then AdminDashboard else AccessDenied
    | Rejected => AccessDenied
    end.
Proof.
  unfold checkAdminStatus, render; simpl.
  destruct probe as [status|]; [|reflexivity].
  destruct (status =? 403)%nat eqn:Hforbidden.
  - apply Nat.eqb_eq in Hforbidden as ->. reflexivity.
  - destruct (ok status); reflexivity.
Qed.

(** Claim C10 against the code.  When [isLoaded] is still false at
    the first run of the effect, [checkAdminStatus] returns before
    probing, its [finally] clears [loading], and the page renders
    AdminDashboard with [isAdmin] still null: the dashboard is shown
    although no probe has answered, even to a user whose probe, made
    once [isLoaded] turns true, is answered 403 and leads to Access
    Denied. *)
Theorem dashboard_rendered_before_probe (probe : Probe) :
  isAdmin (effects [(false, probe)] initialState) = None
  ∧ render (effects [(false, probe)] initialState) = AdminDashboard
  ∧ render (effects [(false, probe); (true, Response 403)] initialState)
    = AccessDenied.
Proof. repeat split. Qed.

End AdminAccess.

(** ** Rounding *)

Section Rounding.
Import Binary.

Lemma pow2_pos (k : Z) : (0 < pow2 k)%Q.
Proof. unfold pow2. apply Qpower_0_lt. reflexivity. Qed.

Lemma pow2_add (a b : Z) : (pow2 (a + b) == pow2 a * pow2 b)%Q.
Proof. unfold pow2. apply Qpower_plus. discriminate. Qed.

Lemma pow2_inject (k : Z) : (0 <= k)%Z → (inject_Z (2 ^ k) == pow2 k)%Q.
Proof. intros Hk. unfold pow2. rewrite Zpower_Qpower; [reflexivity | exact Hk]. Qed.

Lemma nearestEven_spec (y : Q) :
  (Qabs (inject_Z (nearestEven y) - y) <= 1 # 2)%Q.
Proof.
  pose proof (Qfloor_le y) as Hlow. pose proof (Qlt_floor y) as Hhigh.
  rewrite inject_Z_plus in Hhigh. change (inject_Z 1) with 1%Q in Hhigh.
  unfold nearestEven. apply Qabs_Qle_condition.
  destruct (y - inject_Z (Qfloor y) ?= 1 # 2)%Q eqn:Hcmp.
  - apply Qeq_alt in Hcmp.
    destruct (Z.even (Qfloor y));
      [|rewrite inject_Z_plus; change (inject_Z 1) with 1%Q];
      generalize dependent (inject_Z (Qfloor y)); intros f; intros; lra.
  - apply Qlt_alt in Hcmp.
    generalize dependent (inject_Z (Qfloor y)); intros f; intros; lra.
  - apply Qgt_alt in Hcmp. rewrite inject_Z_plus. change (inject_Z 1) with 1%Q.
    generalize dependent (inject_Z (Qfloor y)); intros f; intros; lra.
Qed.

(** Rounding never crosses an integer. *)
Lemma nearestEven_le (y : Q) (k : Z) :
  (y <= inject_Z k)%Q → (nearestEven y <= k)%Z.
Proof.
  intros Hy.
  pose proof (nearestEven_spec y) as Hnear.
  apply Qabs_Qle_condition in Hnear.
  destruct (Z_le_gt_dec (nearestEven y) k) as [Hle|Hgt]; [exact Hle|].
  exfalso.
  assert (Hnext : (inject_Z (k + 1) <= inject_Z (nearestEven y))%Q)
    by (rewrite <- Zle_Qle; lia).
  rewrite inject_Z_plus in Hnext. change (inject_Z 1) with 1%Q in Hnext.
  generalize dependent (inject_Z (nearestEven y)); intros n; intros.
  generalize dependent (inject_Z k); intros c; intros.
  lra.
Qed.

Lemma roundAt_eq (e : Z) (q : Q) :
  (roundAt e q == inject_Z (nearestEven (q / pow2 e)) * pow2 e)%Q.
Proof. unfold roundAt. apply Qred_correct. Qed.

(** Rounding to a multiple of [2^e] moves a number by at most half of
    [2^e]. *)
Lemma roundAt_error (e : Z) (q : Q) :
  (Qabs (roundAt e q - q) <= (1 # 2) * pow2 e)%Q.
Proof.
  rewrite roundAt_eq.
  pose proof (pow2_pos e) as Hpos.
  pose proof (nearestEven_spec (q / pow2 e)) as Hnear.
  assert (Hq : (q == q / pow2 e * pow2 e)%Q) by (field; lra).
  set (y := (q / pow2 e)%Q) in *. clearbody y.
  rewrite Hq.
  assert (Heq : (inject_Z (nearestEven y) * pow2 e - y * pow2 e
                 == (inject_Z (nearestEven y) - y) * pow2 e)%Q) by ring.
  rewrite Heq, Qabs_Qmult, (Qabs_pos (pow2 e)) by lra.
  apply Qmult_le_compat_r; lra.
Qed.

(** [2^(exponent q)] is at most [|q|]. *)
Lemma exponent_le (q : Q) : ¬ (q == 0)%Q → (pow2 (exponent q) <= Qabs q)%Q.
Proof.
  intros Hq. unfold exponent.
  set (a := Z.abs (Qnum q)). set (b := Zpos (Qden q)).
  destruct (Qle_bool (pow2 (Z.log2 a - Z.log2 b)) (Qabs q)) eqn:Htest.
  - apply Qle_bool_iff. exact Htest.
  - clear Htest.
    assert (Ha : (0 < a)%Z).
    { unfold a. destruct q as [n d]. unfold Qeq in Hq. simpl in *. lia. }
    assert (Hb : (0 < b)%Z) by (unfold b; lia).
    destruct (Z.log2_spec a Ha) as [Halow _].
    destruct (Z.log2_spec b Hb) as [_ Hbhigh].
    pose proof (Z.log2_nonneg a) as Hla. pose proof (Z.log2_nonneg b) as Hlb.
    assert (Habs : (Qabs q == inject_Z a / inject_Z b)%Q).
    { destruct q as [n d]. unfold a, b. simpl. apply Qmake_Qdiv. }
    rewrite Habs.
    assert (Hnum : (pow2 (Z.log2 a) <= inject_Z a)%Q)
      by (rewrite <- pow2_inject by lia; rewrite <- Zle_Qle; exact Halow).
    assert (Hden : (inject_Z b <= pow2 (Z.log2 b + 1))%Q).
    { rewrite <- pow2_inject by lia. rewrite <- Zle_Qle.
      replace (Z.log2 b + 1)%Z with (Z.succ (Z.log2 b)) by lia. lia. }
    assert (Hbpos : (0 < inject_Z b)%Q) by (rewrite Zlt_Qlt in Hb; exact Hb).
    replace (Z.log2 a - Z.log2 b - 1)%Z
      with (Z.log2 a + - (Z.log2 b + 1))%Z by lia.
    rewrite pow2_add. unfold pow2 at 2. rewrite Qpower_opp. fold (pow2 (Z.log2 b + 1)).
    pose proof (pow2_pos (Z.log2 a)) as Hpa.
    pose proof (pow2_pos (Z.log2 b + 1)) as Hpb.
    apply Qle_shift_div_l; [exact Hbpos|].
    assert (Hinv : (0 < / pow2 (Z.log2 b + 1))%Q) by (apply Qinv_lt_0_compat; exact Hpb).
    assert (Hstep : (pow2 (Z.log2 a) * / pow2 (Z.log2 b + 1) * inject_Z b
                     <= pow2 (Z.log2 a) * / pow2 (Z.log2 b + 1) * pow2 (Z.log2 b + 1))%Q).
    { apply Qmult_le_l; [|exact Hden].
      apply Qmult_lt_0_compat; assumption. }
    assert (Hone : (pow2 (Z.log2 a) * / pow2 (Z.log2 b + 1) * pow2 (Z.log2 b + 1)
                    == pow2 (Z.log2 a))%Q) by (field; lra).
    rewrite Hone in Hstep. lra.
Qed.

(** [|q|] is below [2^(exponent q + 1)]. *)
Lemma exponent_lt (q : Q) : (Qabs q < pow2 (exponent q + 1))%Q.
Proof.
  unfold exponent.
  set (a := Z.abs (Qnum q)). set (b := Zpos (Qden q)).
  destruct (Qle_bool (pow2 (Z.log2 a - Z.log2 b)) (Qabs q)) eqn:Htest.
  - clear Htest.
    assert (Hb : (0 < b)%Z) by (unfold b; lia).
    assert (Ha : (0 <= a)%Z) by (unfold a; lia).
    destruct (Z.log2_spec b Hb) as [Hblow _].
    pose proof (Z.log2_nonneg a) as Hla. pose proof (Z.log2_nonneg b) as Hlb.
    assert (Hahigh : (a < 2 ^ (Z.log2 a + 1))%Z).
    { destruct (Z.eq_dec a 0%Z) as [->|Hnz]; [reflexivity|].
      replace (Z.log2 a + 1)%Z with (Z.succ (Z.log2 a)) by lia.
      apply Z.log2_spec. lia. }
    assert (Habs : (Qabs q == inject_Z a / inject_Z b)%Q).
    { destruct q as [n d]. unfold a, b. simpl. apply Qmake_Qdiv. }
    rewrite Habs.
    assert (Hnum : (inject_Z a < pow2 (Z.log2 a + 1))%Q)
      by (rewrite <- pow2_inject by lia; rewrite <- Zlt_Qlt; exact Hahigh).
    assert (Hden : (pow2 (Z.log2 b) <= inject_Z b)%Q)
      by (rewrite <- pow2_inject by lia; rewrite <- Zle_Qle; exact Hblow).
    assert (Hbpos : (0 < inject_Z b)%Q) by (rewrite Zlt_Qlt in Hb; exact Hb).
    replace (Z.log2 a - Z.log2 b + 1)%Z
      with (Z.log2 a + 1 + - Z.log2 b)%Z by lia.
    rewrite pow2_add. unfold pow2 at 2. rewrite Qpower_opp. fold (pow2 (Z.log2 b)).
    pose proof (pow2_pos (Z.log2 a + 1)) as Hpa.
    pose proof (pow2_pos (Z.log2 b)) as Hpb.
    apply Qlt_shift_div_r; [exact Hbpos|].
    assert (Hinv : (0 < / pow2 (Z.log2 b))%Q) by (apply Qinv_lt_0_compat; exact Hpb).
    assert (Hstep : (pow2 (Z.log2 a + 1) * / pow2 (Z.log2 b) * pow2 (Z.log2 b)
                     <= pow2 (Z.log2 a + 1) * / pow2 (Z.log2 b) * inject_Z b)%Q).
    { apply Qmult_le_l; [|exact Hden].
      apply Qmult_lt_0_compat; assumption. }
    assert (Hone : (pow2 (Z.log2 a + 1) * / pow2 (Z.log2 b) * pow2 (Z.log2 b)
                    == pow2 (Z.log2 a + 1))%Q) by (field; lra).
    rewrite Hone in Hstep. lra.
  - replace (Z.log2 a - Z.log2 b - 1 + 1)%Z with (Z.log2 a - Z.log2 b)%Z by lia.
    apply Qnot_le_lt. intros Hle. apply Qle_bool_iff in Hle. congruence.
Qed.

Lemma roundAt_zero (e : Z) (q : Q) : (q == 0)%Q → (roundAt e q == 0)%Q.
Proof.
  intros Hzero. rewrite roundAt_eq.
  pose proof (nearestEven_spec (q / pow2 e)) as Hnear.
  assert (Hy : (q / pow2 e == 0)%Q) by (rewrite Hzero; unfold Qdiv; ring).
  set (y := (q / pow2 e)%Q) in *.
  assert (Hn : nearestEven y = 0%Z).
  { apply Qabs_Qle_condition in Hnear. destruct Hnear as [Hlo Hhi].
    assert (H1 : (inject_Z (nearestEven y) < inject_Z 1)%Q)
      by (change (inject_Z 1) with 1%Q; lra).
    assert (H2 : (inject_Z (-1) < inject_Z (nearestEven y))%Q)
      by (change (inject_Z (-1)) with (-1)%Q; lra).
    rewrite <- Zlt_Qlt in H1, H2. lia. }
  rewrite Hn. ring.
Qed.

(** Rounding to 53 significant bits changes a number by at most
    [2^-53] of its magnitude. *)
Lemma round53_error (q : Q) :
  (Qabs (round53 q - q) <= Qabs q * pow2 (-53))%Q.
Proof.
  unfold round53.
  destruct (Qeq_dec q 0) as [Hzero|Hnz].
  - assert (Hsame : (roundAt (exponent q - 52) q - q == 0)%Q)
      by (rewrite (roundAt_zero _ _ Hzero); lra).
    rewrite Hsame. change (Qabs 0) with 0%Q.
    apply Qmult_le_0_compat; [apply Qabs_nonneg | apply Qlt_le_weak, pow2_pos].
  - eapply Qle_trans; [apply roundAt_error|].
    pose proof (exponent_le q Hnz) as Hlow.
    replace (exponent q - 52)%Z with (exponent q + (-52))%Z by lia.
    rewrite pow2_add.
    assert (Hconst : ((1 # 2) * pow2 (-52) == pow2 (-53))%Q) by reflexivity.
    pose proof (pow2_pos (-53)) as Hp.
    assert (Heq : ((1 # 2) * (pow2 (exponent q) * pow2 (-52))
                   == pow2 (exponent q) * pow2 (-53))%Q)
      by (rewrite <- Hconst; ring).
    rewrite Heq. apply Qmult_le_compat_r; lra.
Qed.

End Rounding.


Section Numbers.
Import Binary.

Lemma nearestEven_ge (y : Q) (k : Z) :
  (inject_Z k <= y)%Q → (k <= nearestEven y)%Z.
Proof.
  intros Hy.
  pose proof (nearestEven_spec y) as Hnear.
  apply Qabs_Qle_condition in Hnear.
  destruct (Z_le_gt_dec k (nearestEven y)) as [Hle|Hgt]; [exact Hle|].
  exfalso.
  assert (Hnext : (inject_Z (nearestEven y) <= inject_Z (k + -1))%Q)
    by (rewrite <- Zle_Qle; lia).
  rewrite inject_Z_plus in Hnext.
  change (inject_Z (-1)) with (-1)%Q in Hnext.
  generalize dependent (inject_Z (nearestEven y)); intros n; intros.
  generalize dependent (inject_Z k); intros c; intros.
  lra.
Qed.

(** Rounding to a multiple of [2^e] does not cross a multiple of
    [2^e]. *)
Lemma roundAt_le (e : Z) (q : Q) (k : Z) :
  (q <= inject_Z k * pow2 e)%Q → (roundAt e q <= inject_Z k * pow2 e)%Q.
Proof.
  intros Hq. rewrite roundAt_eq. pose proof (pow2_pos e) as Hpos.
  apply Qmult_le_compat_r; [|lra].
  rewrite <- Zle_Qle. apply nearestEven_le.
  apply Qle_shift_div_r; assumption.
Qed.

Lemma roundAt_ge (e : Z) (q : Q) (k : Z) :
  (inject_Z k * pow2 e <= q)%Q → (inject_Z k * pow2 e <= roundAt e q)%Q.
Proof.
  intros Hq. rewrite roundAt_eq. pose proof (pow2_pos e) as Hpos.
  apply Qmult_le_compat_r; [|lra].
  rewrite <- Zle_Qle. apply nearestEven_ge.
  apply Qle_shift_div_l; assumption.
Qed.

Lemma pow2_max (a b : Z) : (pow2 (Z.max a b) <= pow2 a + pow2 b)%Q.
Proof.
  pose proof (pow2_pos a). pose proof (pow2_pos b).
  destruct (Z.max_spec a b) as [[_ ->]|[_ ->]]; lra.
Qed.

Lemma MAX_VALUE_lt : (JS.MAX_VALUE < pow2 1024)%Q.
Proof. reflexivity. Qed.

(** The exponent of the last bit of a number within the range of
    doubles is at most 971, and [MAX_VALUE] is a multiple of it. *)
Lemma MAX_VALUE_multiple (q : Q) :
  (Qabs q <= JS.MAX_VALUE)%Q →
  ∃ k, (0 <= k)%Z
       ∧ (JS.MAX_VALUE
          == inject_Z k * pow2 (Z.max (exponent q - 52) (-1074)))%Q.
Proof.
  intros Hq.
  set (e := Z.max (exponent q - 52) (-1074)).
  assert (He : (e <= 971)%Z).
  { unfold e. apply Z.max_lub; [|lia].
    destruct (Qeq_dec q 0) as [Hzero|Hnz].
    - unfold exponent.
      assert (Hnum : Qnum q = 0%Z)
        by (destruct q as [n d]; unfold Qeq in Hzero; simpl in *; lia).
      rewrite Hnum. change (Z.log2 (Z.abs 0)) with 0%Z.
      pose proof (Z.log2_nonneg (Zpos (Qden q))).
      destruct (Qle_bool _ _); lia.
    - pose proof (exponent_le q Hnz) as Hlow.
      assert (Hlt : (pow2 (exponent q) < pow2 1024)%Q).
      { eapply Qle_lt_trans; [exact Hlow|].
        eapply Qle_lt_trans; [exact Hq | exact MAX_VALUE_lt]. }
      apply Qpower_lt_compat_l_inv in Hlt; [lia | reflexivity]. }
  exists ((2 ^ 53 - 1) * 2 ^ (971 - e))%Z. split; [lia|].
  unfold JS.MAX_VALUE. rewrite inject_Z_mult, pow2_inject by lia.
  rewrite <- Qmult_assoc, <- pow2_add.
  replace (971 - e + e)%Z with 971%Z by lia. reflexivity.
Qed.

(** A rational within the range of doubles is rounded to a finite
    double, which differs from it by at most [2^-53] of its magnitude,
    or by [2^-1075] near zero. *)
Lemma toDouble_finite (q : Q) :
  (Qabs q <= JS.MAX_VALUE)%Q →
  ∃ r, JS.toDouble q = JS.Finite r
       ∧ (Qabs r <= JS.MAX_VALUE)%Q
       ∧ (Qabs (r - q) <= Qabs q * pow2 (-53) + pow2 (-1075))%Q.
Proof.
  intros Hq. unfold JS.toDouble.
  destruct (MAX_VALUE_multiple q Hq) as (k & Hk & Hmax).
  set (e := Z.max (exponent q - 52) (-1074)) in *.
  apply Qabs_Qle_condition in Hq. destruct Hq as [Hlo Hhi].
  assert (Hupper : (roundAt e q <= JS.MAX_VALUE)%Q)
    by (rewrite Hmax; apply roundAt_le; rewrite <- Hmax; exact Hhi).
  assert (Hlower : (- JS.MAX_VALUE <= roundAt e q)%Q).
  { assert (Hneg : (- JS.MAX_VALUE == inject_Z (- k) * pow2 e)%Q)
      by (rewrite Hmax, inject_Z_opp; ring).
    rewrite Hneg. apply roundAt_ge. rewrite <- Hneg. exact Hlo. }
  pose proof MAX_VALUE_lt as Hrange.
  destruct (Qle_bool (pow2 1024) (roundAt e q)) eqn:Hover.
  { apply Qle_bool_iff in Hover. lra. }
  destruct (Qle_bool (roundAt e q) (- pow2 1024)) eqn:Hunder.
  { apply Qle_bool_iff in Hunder. lra. }
  exists (roundAt e q). split; [reflexivity|].
  split; [apply Qabs_Qle_condition; split; assumption|].
  pose proof (Qabs_nonneg q) as Hmag.
  pose proof (pow2_pos (-53)) as Hu. pose proof (pow2_pos (-1075)) as Htiny.
  destruct (Qeq_dec q 0) as [Hzero|Hnz].
  - assert (Hsame : (roundAt e q - q == 0)%Q)
      by (rewrite (roundAt_zero _ _ Hzero); lra).
    rewrite Hsame. change (Qabs 0) with 0%Q.
    assert (Hprod : (0 <= Qabs q * pow2 (-53))%Q)
      by (apply Qmult_le_0_compat; lra).
    lra.
  - eapply Qle_trans; [apply roundAt_error|].
    pose proof (pow2_max (exponent q - 52) (-1074)) as Hsmall.
    fold e in Hsmall.
    pose proof (exponent_le q Hnz) as Hlow.
    replace (exponent q - 52)%Z with (exponent q + (-52))%Z in Hsmall by lia.
    rewrite pow2_add in Hsmall.
    assert (Hhalf : (pow2 (-52) == 2 * pow2 (-53))%Q) by reflexivity.
    assert (Hleast : (pow2 (-1074) == 2 * pow2 (-1075))%Q) by reflexivity.
    rewrite Hhalf, Hleast in Hsmall.
    assert (Hprod : (pow2 (exponent q) * pow2 (-53) <= Qabs q * pow2 (-53))%Q)
      by (apply Qmult_le_compat_r; lra).
    generalize dependent (pow2 e); intros pe; intros.
    generalize dependent (pow2 (exponent q)); intros px; intros.
    generalize dependent (pow2 (-53)); intros u; intros.
    generalize dependent (pow2 (-1075)); intros t; intros.
    generalize dependent (Qabs q); intros m; intros.
    nra.
Qed.

(** Dividing by a positive count does not increase the magnitude. *)
Lemma Qabs_div_count (x : Q) (n : nat) :
  n ≠ 0%nat → (Qabs (x / inject_Z (Z.of_nat n)) <= Qabs x)%Q.
Proof.
  intros Hn.
  assert (Hone : (1 <= inject_Z (Z.of_nat n))%Q)
    by (change 1%Q with (inject_Z 1); rewrite <- Zle_Qle; lia).
  unfold Qdiv. rewrite Qabs_Qmult.
  assert (Hinv : (0 < / inject_Z (Z.of_nat n))%Q) by (apply Qinv_lt_0_compat; lra).
  rewrite (Qabs_pos (/ inject_Z (Z.of_nat n))) by lra.
  pose proof (Qabs_nonneg x) as Hmag.
  assert (Hle : (/ inject_Z (Z.of_nat n) <= 1)%Q).
  { apply Qle_shift_inv_r; lra. }
  generalize dependent (/ inject_Z (Z.of_nat n))%Q; intros i; intros.
  generalize dependent (Qabs x); intros m; intros.
  nra.
Qed.

(** The quotient of a double by a positive count is a finite double
    close to the exact quotient. *)
Lemma div_nonempty (x : Q) (n : nat) :
  n ≠ 0%nat → (Qabs x <= JS.MAX_VALUE)%Q →
  ∃ r, JS.div x n = JS.Finite r
       ∧ (Qabs r <= JS.MAX_VALUE)%Q
       ∧ (Qabs (r - x / inject_Z (Z.of_nat n))
          <= Qabs (x / inject_Z (Z.of_nat n)) * pow2 (-53) + pow2 (-1075))%Q.
Proof.
  intros Hn Hx. destruct n as [|k]; [congruence|].
  unfold JS.div. apply toDouble_finite.
  eapply Qle_trans; [apply Qabs_div_count; exact Hn | exact Hx].
Qed.

Lemma div_zero (x : Q) : JS.isFinite (JS.div x 0) = false.
Proof. unfold JS.div. destruct (x ?= 0)%Q; reflexivity. Qed.

(** The digits [toFixed] prints denote the multiple of [10^-f]
    nearest to the number. *)
Lemma fixedDigits_near (x : Q) (f : nat) :
  (Qabs (inject_Z (JS.fixedDigits x f) - x * inject_Z (10 ^ Z.of_nat f)) <= 1 # 2)%Q.
Proof.
  unfold JS.fixedDigits.
  set (y := (x * inject_Z (10 ^ Z.of_nat f) + (1 # 2))%Q).
  pose proof (Qfloor_le y) as Hlow. pose proof (Qlt_floor y) as Hhigh.
  rewrite inject_Z_plus in Hhigh. change (inject_Z 1) with 1%Q in Hhigh.
  apply Qabs_Qle_condition.
  unfold y in *. clear y.
  generalize dependent (inject_Z (Qfloor (x * inject_Z (10 ^ Z.of_nat f) + (1 # 2)))).
  intros n. generalize (x * inject_Z (10 ^ Z.of_nat f))%Q. intros z; intros. lra.
Qed.

Lemma fixedDigits_cents (x : Q) :
  (Qabs (inject_Z (JS.fixedDigits x 2) / 100 - x) <= 1 # 200)%Q.
Proof.
  pose proof (fixedDigits_near x 2) as Hnear.
  change (inject_Z (10 ^ Z.of_nat 2)) with 100%Q in Hnear.
  apply Qabs_Qle_condition in Hnear. apply Qabs_Qle_condition.
  unfold Qdiv. change (/ 100)%Q with (1 # 100)%Q.
  generalize dependent (inject_Z (JS.fixedDigits x 2)); intros n; intros.
  lra.
Qed.

End Numbers.

(** ** The member-facing amounts *)

Section PerPersonAmounts.

(** The dashboard lists only items the member takes part in, which
    therefore have members. *)
Lemma yourItems_source
    (data : Dashboard.DashboardData) (split : Member.Split)
    (row : Dashboard.ItemRow) :
  row ∈ Dashboard.yourItems data split →
  ∃ item,
    item ∈ Member.items split
    ∧ Dashboard.member_name data ∈ Member.members item
    ∧ row = Dashboard.itemRow item.
Proof.
  unfold Dashboard.yourItems. intros Hrow.
  apply list_elem_of_In, in_map_iff in Hrow as (item & <- & Hitem).
  apply filter_In in Hitem as [Hitem Hmember].
  exists item. split; [apply list_elem_of_In; exact Hitem|].
  split; [|reflexivity].
  unfold JS.includes in Hmember.
  apply existsb_exists in Hmember as (m & Hm & Heq).
  apply String.eqb_eq in Heq as ->. apply list_elem_of_In. exact Hm.
Qed.

(** SplitDetail renders the cards in the order of the items. *)
Lemma itemCards_lookup
    (split : Member.Split) (memberName : string) (index : nat)
    (item : Member.Item) :
  Member.items split !! index = Some item →
  SplitDetail.itemCards split memberName !! index
  = Some (SplitDetail.itemCard memberName item).
Proof.
  intros Hitem. unfold SplitDetail.itemCards.
  change (map (SplitDetail.itemCard memberName) (Member.items split))
    with (SplitDetail.itemCard memberName <$> Member.items split).
  rewrite list_lookup_fmap, Hitem. reflexivity.
Qed.

(** The dashboard has a row for every item the member shares. *)
Lemma yourItems_row
    (data : Dashboard.DashboardData) (split : Member.Split)
    (item : Member.Item) :
  item ∈ Member.items split →
  JS.includes (Member.members item) (Dashboard.member_name data) = true →
  Dashboard.itemRow item ∈ Dashboard.yourItems data split.
Proof.
  intros Hitem Hmember. unfold Dashboard.yourItems.
  apply list_elem_of_In, in_map, filter_In.
  split; [apply list_elem_of_In; exact Hitem | exact Hmember].
Qed.

(** What [toFixed(2)] prints for a double below [10^21]: a sign, and
    the digits of the number of cents nearest to its magnitude. *)
Lemma toFixed_cents (exponential : Q → string) (amount : Q) :
  (Qabs amount < inject_Z (10 ^ 21))%Q →
  JS.toFixed exponential (JS.Finite amount) 2
  = (if Qle_bool 0 amount then "" else "-")
    ++ JS.fixedText (JS.fixedDigits (Qabs amount) 2) 2.
Proof.
  intros Hsmall. unfold JS.toFixed.
  destruct (Qle_bool (inject_Z (10 ^ 21)) (Qabs amount)) eqn:Hlarge; [|reflexivity].
  apply Qle_bool_iff in Hlarge. apply Qle_not_lt in Hlarge. contradiction.
Qed.

(** Claim C7, as the code has it.  Take an item of a split with a
    non-empty member list (and a price that is a double).  The amount
    SplitDetail hands to [formatCurrency] for the card of that item
    (and for "You owe", when the member takes part), and the amount
    Dashboard hands to it for the row of that item in "Your Items"
    (shown when the member takes part), is one finite double: the
    double nearest to the price divided by the number of members,
    which differs from the exact quotient by at most [2^-53] of it
    (and [2^-1075]).  What is displayed is "$", a sign, and the digits
    of the whole number of cents nearest to that double: it is within
    half a cent of the double, not equal to the quotient. *)
Theorem displayed_share_is_price_over_members
    (exponential : Q → string) (split : Member.Split) (index : nat)
    (item : Member.Item) :
  Member.items split !! index = Some item →
  Member.members item ≠ [] →
  (Qabs (Member.price item) <= JS.MAX_VALUE)%Q →
  ∃ amount : Q,
    SplitDetail.splitAmount item = JS.Finite amount
    ∧ Dashboard.itemShare item = JS.Finite amount
    ∧ (Qabs (amount
             - Member.price item / inject_Z (Z.of_nat (length (Member.members item))))
       <= Qabs (Member.price item
                / inject_Z (Z.of_nat (length (Member.members item))))
          * Binary.pow2 (-53)
          + Binary.pow2 (-1075))%Q
    ∧ (∀ memberName,
         ∃ card,
           SplitDetail.itemCards split memberName !! index = Some card
           ∧ SplitDetail.card_name card = Member.name item
           ∧ SplitDetail.card_per_person card = JS.Finite amount
           ∧ SplitDetail.card_you_owe card
             = if JS.includes (Member.members item) memberName
               then Some (JS.Finite amount) else None)
    ∧ (∀ data,
         JS.includes (Member.members item) (Dashboard.member_name data) = true →
         ∃ row,
           row ∈ Dashboard.yourItems data split
           ∧ Dashboard.row_name row = Member.name item
           ∧ Dashboard.row_share row = JS.Finite amount)
    ∧ ((Qabs amount < inject_Z (10 ^ 21))%Q →
       ∃ cents : Z,
         SplitDetail.formatCurrency exponential (JS.Finite amount)
         = "$" ++ (if Qle_bool 0 amount then "" else "-") ++ JS.fixedText cents 2
         ∧ Dashboard.formatCurrency exponential (JS.Finite amount)
           = "$" ++ (if Qle_bool 0 amount then "" else "-") ++ JS.fixedText cents 2
         ∧ (Qabs (inject_Z cents / 100 - Qabs amount) <= 1 # 200)%Q
         ∧ (Qabs ((if Qle_bool 0 amount then 1 else -1) * (inject_Z cents / 100)
                  - Member.price item
                    / inject_Z (Z.of_nat (length (Member.members item))))
            <= (1 # 200)
               + Qabs (Member.price item
                       / inject_Z (Z.of_nat (length (Member.members item))))
                 * Binary.pow2 (-53)
               + Binary.pow2 (-1075))%Q).
Proof.
  intros Hitem Hmembers Hrange.
  assert (Hcount : length (Member.members item) ≠ 0%nat)
    by (destruct (Member.members item); [congruence | discriminate]).
  destruct (div_nonempty _ _ Hcount Hrange) as (amount & Hdiv & _ & Hnear).
  exists amount.
  split; [exact Hdiv|]. split; [exact Hdiv|]. split; [exact Hnear|].
  split; [|split].
  - intros memberName. exists (SplitDetail.itemCard memberName item).
    split; [apply itemCards_lookup; exact Hitem|].
    split; [reflexivity|]. simpl.
    unfold SplitDetail.isParticipating, SplitDetail.splitAmount.
    rewrite Hdiv. split; reflexivity.
  - intros data Hmember. exists (Dashboard.itemRow item).
    split; [|split; [reflexivity | exact Hdiv]].
    apply yourItems_row; [|exact Hmember].
    apply list_elem_of_lookup_2 with index. exact Hitem.
  - intros Hsmall. exists (JS.fixedDigits (Qabs amount) 2).
    unfold SplitDetail.formatCurrency, Dashboard.formatCurrency.
    rewrite (toFixed_cents _ _ Hsmall).
    split; [reflexivity|]. split; [reflexivity|].
    pose proof (fixedDigits_cents (Qabs amount)) as Hcents.
    split; [exact Hcents|].
    set (exact := (Member.price item
                   / inject_Z (Z.of_nat (length (Member.members item))))%Q) in *.
    set (shown := (inject_Z (JS.fixedDigits (Qabs amount) 2) / 100)%Q) in *.
    assert (Hsigned :
      (Qabs ((if Qle_bool 0 amount then 1 else -1) * shown - amount)
       <= 1 # 200)%Q).
    { destruct (Qle_bool 0 amount) eqn:Hsign.
      - apply Qle_bool_iff in Hsign. rewrite (Qabs_pos amount Hsign) in Hcents.
        assert (Heq : (1 * shown - amount == shown - amount)%Q) by ring.
        rewrite Heq. exact Hcents.
      - assert (Hneg : (amount <= 0)%Q).
        { apply Qlt_le_weak, Qnot_le_lt. intros Hle.
          apply Qle_bool_iff in Hle. congruence. }
        rewrite (Qabs_neg amount Hneg) in Hcents.
        assert (Heq : (-1 * shown - amount == - (shown - - amount))%Q) by ring.
        rewrite Heq, Qabs_opp. exact Hcents. }
    assert (Heq : ((if Qle_bool 0 amount then 1 else -1) * shown - exact
                   == ((if Qle_bool 0 amount then 1 else -1) * shown - amount)
                      + (amount - exact))%Q) by ring.
    rewrite Heq. eapply Qle_trans; [apply Qabs_triangle|].
    generalize dependent (Qabs ((if Qle_bool 0 amount then 1 else -1) * shown - amount)).
    intros d1 Hd1.
    generalize dependent (Qabs (amount - exact)). intros d2 Hd2.
    generalize (Qabs exact * Binary.pow2 (-53) + Binary.pow2 (-1075))%Q.
    intros bound. intros. lra.
Qed.

(** Claim C9, as the code has it.  SplitDetail tests nothing before
    dividing: for an item whose member list is empty the quotient
    [item.price / item.members.length] is a division by zero,
    [Infinity], [-Infinity] or [NaN] by the sign of the price; the
    card of the item is rendered all the same and displays it as
    "$Infinity", "$-Infinity" or "$NaN".  For a price that is a double
    the quotient is finite exactly when the member list is not empty.
    Dashboard evaluates the same expression only on the items that
    pass [item.members.includes(data.member_name)]: an item without
    members has no row there, every row comes from an item with at
    least one member, and the amount of every row is finite. *)
Theorem share_of_empty_item_not_finite
    (exponential : Q → string) (item : Member.Item) :
  (Member.members item = [] →
   SplitDetail.splitAmount item
   = match (Member.price item ?= 0)%Q with
     | Gt => JS.PosInfinity
     | Lt => JS.NegInfinity
     | Eq => JS.NaN
     end
   ∧ JS.isFinite (SplitDetail.splitAmount item) = false
   ∧ SplitDetail.formatCurrency exponential (SplitDetail.splitAmount item)
     = match (Member.price item ?= 0)%Q with
       | Gt => "$Infinity"
       | Lt => "$-Infinity"
       | Eq => "$NaN"
       end
   ∧ (∀ (split : Member.Split) (memberName : string) (index : nat),
        Member.items split !! index = Some item →
        ∃ card,
          SplitDetail.itemCards split memberName !! index = Some card
          ∧ SplitDetail.card_per_person card = SplitDetail.splitAmount item)
   ∧ (∀ (data : Dashboard.DashboardData) (split : Member.Split)
        (row : Dashboard.ItemRow),
        row ∈ Dashboard.yourItems data split → row ≠ Dashboard.itemRow item))
  ∧ ((Qabs (Member.price item) <= JS.MAX_VALUE)%Q →
     (JS.isFinite (SplitDetail.splitAmount item) = true
      ↔ Member.members item ≠ []))
  ∧ (∀ (data : Dashboard.DashboardData) (split : Member.Split)
       (row : Dashboard.ItemRow),
       row ∈ Dashboard.yourItems data split →
       ∃ shared,
         shared ∈ Member.items split
         ∧ row = Dashboard.itemRow shared
         ∧ Dashboard.member_name data ∈ Member.members shared
         ∧ Dashboard.row_shared_with row ≠ 0%nat
         ∧ ((Qabs (Member.price shared) <= JS.MAX_VALUE)%Q →
            JS.isFinite (Dashboard.row_share row) = true)).
Proof.
  assert (Hrows :
    ∀ (data : Dashboard.DashboardData) (split : Member.Split)
      (row : Dashboard.ItemRow),
      row ∈ Dashboard.yourItems data split →
      ∃ shared,
        shared ∈ Member.items split
        ∧ row = Dashboard.itemRow shared
        ∧ Dashboard.member_name data ∈ Member.members shared
        ∧ Dashboard.row_shared_with row ≠ 0%nat
        ∧ ((Qabs (Member.price shared) <= JS.MAX_VALUE)%Q →
           JS.isFinite (Dashboard.row_share row) = true)).
  { intros data split row Hrow.
    apply yourItems_source in Hrow as (shared & Hshared & Hmember & ->).
    exists shared. split; [exact Hshared|]. split; [reflexivity|].
    split; [exact Hmember|].
    assert (Hcount : length (Member.members shared) ≠ 0%nat)
      by (destruct (Member.members shared); [inversion Hmember | discriminate]).
    split; [exact Hcount|]. intros Hrange. simpl. unfold Dashboard.itemShare.
    destruct (div_nonempty _ _ Hcount Hrange) as (amount & -> & _). reflexivity. }
  split; [|split; [|exact Hrows]].
  - intros Hnone.
    assert (Hvalue :
      SplitDetail.splitAmount item
      = match (Member.price item ?= 0)%Q with
        | Gt => JS.PosInfinity
        | Lt => JS.NegInfinity
        | Eq => JS.NaN
        end)
      by (unfold SplitDetail.splitAmount; rewrite Hnone; reflexivity).
    split; [exact Hvalue|].
    split; [rewrite Hvalue; destruct (Member.price item ?= 0)%Q; reflexivity|].
    split; [rewrite Hvalue; destruct (Member.price item ?= 0)%Q; reflexivity|].
    split.
    + intros split memberName index Hitem.
      exists (SplitDetail.itemCard memberName item).
      split; [apply itemCards_lookup; exact Hitem | reflexivity].
    + intros data split row Hrow ->.
      destruct (Hrows data split _ Hrow) as (shared & _ & _ & _ & Hcount & _).
      simpl in Hcount. rewrite Hnone in Hcount. contradiction.
  - intros Hrange. unfold SplitDetail.splitAmount. split.
    + intros Hfinite Hnone. rewrite Hnone in Hfinite. simpl in Hfinite.
      destruct (Member.price item ?= 0)%Q; discriminate.
    + intros Hmembers.
      assert (Hcount : length (Member.members item) ≠ 0%nat)
        by (destruct (Member.members item); [congruence | discriminate]).
      destruct (div_nonempty _ _ Hcount Hrange) as (amount & -> & _). reflexivity.
Qed.

End PerPersonAmounts.

Section PerPersonAmountsWitness.

Import Samples.

(** Claim C7 fails as stated: for a cake of 10 shared by three the
    number handed to [formatCurrency] is the double
    3.3333333333333335, and both components display "$3.33"; neither
    is 10/3. *)
Lemma third_of_ten_shown_rounded :
  map SplitDetail.card_per_person (SplitDetail.itemCards birthday "C")
  = [JS.Finite (7505999378950827 # 2251799813685248)]
  ∧ map Dashboard.row_share (Dashboard.yourItems dashboardOfC birthday)
    = [JS.Finite (7505999378950827 # 2251799813685248)]
  ∧ (∀ exponential,
       SplitDetail.formatCurrency exponential (SplitDetail.splitAmount cake)
       = "$3.33"
       ∧ Dashboard.formatCurrency exponential (Dashboard.itemShare cake)
         = "$3.33")
  ∧ ¬ (7505999378950827 # 2251799813685248 == 10 / 3)%Q
  ∧ ¬ (333 # 100 == 10 / 3)%Q.
Proof.
  split; [vm_compute; reflexivity|].
  split; [vm_compute; reflexivity|].
  split; [intros exponential; split; vm_compute; reflexivity|].
  split; intros Heq; vm_compute in Heq; discriminate.
Qed.

Lemma displayed_share_is_price_over_members_witness :
  Member.items birthday !! 0%nat = Some cake
  ∧ Member.members cake ≠ []
  ∧ (Qabs (Member.price cake) <= JS.MAX_VALUE)%Q
  ∧ ∃ amount,
      (Qabs (amount - 10 / 3) <= Qabs (10 / 3) * Binary.pow2 (-53)
                                  + Binary.pow2 (-1075))%Q
      ∧ (∃ card,
           SplitDetail.itemCards birthday "C" !! 0%nat = Some card
           ∧ SplitDetail.card_per_person card = JS.Finite amount
           ∧ SplitDetail.card_you_owe card = Some (JS.Finite amount))
      ∧ (∃ row,
           row ∈ Dashboard.yourItems dashboardOfC birthday
           ∧ Dashboard.row_share row = JS.Finite amount)
      ∧ (∃ cents,
           Dashboard.formatCurrency (fun _ => "") (JS.Finite amount)
           = "$" ++ JS.fixedText cents 2
           ∧ (Qabs (inject_Z cents / 100 - Qabs amount) <= 1 # 200)%Q).
Proof.
  assert (Hitem : Member.items birthday !! 0%nat = Some cake) by reflexivity.
  assert (Hmembers : Member.members cake ≠ []) by discriminate.
  assert (Hrange : (Qabs (Member.price cake) <= JS.MAX_VALUE)%Q)
    by (vm_compute; discriminate).
  split; [exact Hitem|]. split; [exact Hmembers|]. split; [exact Hrange|].
  destruct (displayed_share_is_price_over_members
              (fun _ => "") birthday 0 cake Hitem Hmembers Hrange)
    as (amount & Hamount & _ & Hnear & Hcard & Hrow & Htext).
  exists amount. split; [exact Hnear|].
  assert (Hvalue : amount = (7505999378950827 # 2251799813685248)%Q)
    by (vm_compute in Hamount; injection Hamount as <-; reflexivity).
  split; [|split].
  - destruct (Hcard "C") as (card & Hlookup & _ & Hshare & Howe).
    exists card. split; [exact Hlookup|]. split; [exact Hshare|].
    exact Howe.
  - destruct (Hrow dashboardOfC eq_refl) as (row & Hin & _ & Hshare).
    exists row. split; assumption.
  - destruct Htext as (cents & _ & Htext & Hcents & _).
    { rewrite Hvalue. vm_compute. reflexivity. }
    exists cents. split; [|exact Hcents].
    rewrite Htext, Hvalue. reflexivity.
Defined.

(** Claim C9 fails as stated for Dashboard: the dinner has an item
    without members, for which Dashboard divides nothing and displays
    nothing; the only row of member C is that of the pizza, with a
    finite amount. *)
Lemma dashboard_omits_item_without_members :
  leftover ∈ Member.items dinner
  ∧ Member.members leftover = []
  ∧ Dashboard.yourItems dashboardOfC dinner = [Dashboard.itemRow pizza]
  ∧ map Dashboard.row_share (Dashboard.yourItems dashboardOfC dinner)
    = [JS.Finite 10]
  ∧ (∀ exponential,
       map (Dashboard.formatCurrency exponential)
           (map Dashboard.row_share (Dashboard.yourItems dashboardOfC dinner))
       = ["$10.00"]).
Proof.
  split; [apply list_elem_of_In; simpl; auto|].
  split; [reflexivity|].
  split; [vm_compute; reflexivity|].
  split; [vm_compute; reflexivity|].
  intros exponential. vm_compute. reflexivity.
Qed.

Lemma share_of_empty_item_not_finite_witness :
  Member.members leftover = []
  ∧ (Qabs (Member.price leftover) <= JS.MAX_VALUE)%Q
  ∧ SplitDetail.splitAmount leftover = JS.PosInfinity
  ∧ SplitDetail.formatCurrency (fun _ => "") (SplitDetail.splitAmount leftover)
    = "$Infinity"
  ∧ (∃ card,
       SplitDetail.itemCards dinner "C" !! 2%nat = Some card
       ∧ SplitDetail.card_per_person card = JS.PosInfinity)
  ∧ JS.isFinite (SplitDetail.splitAmount pizza) = true
  ∧ (∀ row, row ∈ Dashboard.yourItems dashboardOfC dinner →
            row ≠ Dashboard.itemRow leftover
            ∧ JS.isFinite (Dashboard.row_share row) = true).
Proof.
  assert (Hrange : ∀ item, item ∈ Member.items dinner →
                           (Qabs (Member.price item) <= JS.MAX_VALUE)%Q).
  { intros item Hitem. apply list_elem_of_In in Hitem. simpl in Hitem.
    destruct Hitem as [<-|[<-|[<-|[]]]]; vm_compute; discriminate. }
  split; [reflexivity|].
  split; [vm_compute; discriminate|].
  destruct (share_of_empty_item_not_finite (fun _ => "") leftover)
    as (Hempty & _ & Hrows).
  destruct (Hempty eq_refl) as (Hvalue & _ & Htext & Hcard & Hnorow).
  split; [exact Hvalue|]. split; [exact Htext|].
  split.
  - destruct (Hcard dinner "C" 2%nat eq_refl) as (card & Hlookup & Hshare).
    exists card. split; [exact Hlookup|]. rewrite Hshare. exact Hvalue.
  - split.
    + destruct (share_of_empty_item_not_finite (fun _ => "") pizza)
        as (_ & Hfinite & _).
      apply Hfinite; [vm_compute; discriminate | discriminate].
    + intros row Hrow. split; [exact (Hnorow _ _ _ Hrow)|].
      destruct (Hrows _ _ _ Hrow) as (shared & Hshared & _ & _ & _ & Hfinite).
      apply Hfinite, Hrange. exact Hshared.
Defined.

End PerPersonAmountsWitness.

(** ** The reconciliation invariant *)

Section ReconciliationFacts.

Import Reconciliation ReconciliationError.

Lemma count_positive (n : nat) : n ≠ 0%nat → (0 < count n)%Q.
Proof.
  intros Hn. unfold count. change 0%Q with (inject_Z 0).
  rewrite <- Zlt_Qlt. lia.
Qed.

Lemma unit_roundoff_pos : (0 < unit_roundoff)%Q.
Proof. apply pow2_pos. Qed.

(** Every operation of the engine is exact up to one unit roundoff. *)
Lemma fl_error (q : Q) : (Qabs (fl q - q) <= unit_roundoff * Qabs q)%Q.
Proof.
  rewrite Qmult_comm. apply round53_error.
Qed.

Lemma growth_ge_1 (n : nat) : (1 <= growth n)%Q.
Proof.
  pose proof unit_roundoff_pos as Hu.
  induction n as [|n IH]; simpl; [lra|].
  generalize dependent (growth n); intros g; intros.
  generalize dependent unit_roundoff; intros u; intros. nra.
Qed.

Lemma growth_mono (n m : nat) : (n <= m)%nat → (growth n <= growth m)%Q.
Proof.
  pose proof unit_roundoff_pos as Hu.
  induction 1 as [|m _ IH]; [lra|]. simpl.
  pose proof (growth_ge_1 m) as Hone.
  generalize dependent (growth m); intros g; intros.
  generalize dependent (growth n); intros h; intros.
  generalize dependent unit_roundoff; intros u; intros. nra.
Qed.

(** One more rounded addition of an item. *)
Lemma accumulate_step (u g t A P E D : Q) :
  (0 < u)%Q → (0 <= A)%Q → (0 <= P)%Q →
  (t == (1 + u) * (1 + u))%Q → (t <= g)%Q →
  (E <= (g - 1) * A)%Q → (D <= (t - 1) * P)%Q →
  (u * (E + A + D + P) + E + D <= ((1 + u) * g - 1) * (A + P))%Q.
Proof.
  intros Hu HA HP Ht Hg HE HD.
  assert (H1 : ((1 + u) * E <= (1 + u) * ((g - 1) * A))%Q)
    by (apply Qmult_le_l; lra).
  assert (H2 : ((1 + u) * D <= (1 + u) * ((t - 1) * P))%Q)
    by (apply Qmult_le_l; lra).
  assert (H3 : ((1 + u) * (t * P) <= (1 + u) * (g * P))%Q).
  { apply Qmult_le_l; [lra|]. apply Qmult_le_compat_r; lra. }
  nra.
Qed.

(** What the Split Calculator charges the new members of an item adds
    up to the price of the item, up to two roundings. *)
Lemma item_total_near (p : Q) (n : nat) :
  n ≠ 0%nat →
  (Qabs (fl (fl (p / count n) * count n) - p) <= (growth 2 - 1) * Qabs p)%Q.
Proof.
  intros Hn. pose proof (count_positive n Hn) as Hc.
  pose proof unit_roundoff_pos as Hu.
  pose proof (fl_error (p / count n)) as Ha.
  pose proof (fl_error (fl (p / count n) * count n)) as Hb.
  set (q := (p / count n)%Q) in *.
  set (a := fl q) in *. set (y := (a * count n)%Q) in *.
  set (b := fl y) in *.
  assert (Hp : (p == q * count n)%Q) by (unfold q; field; lra).
  assert (Hmag : (Qabs p == Qabs q * count n)%Q)
    by (rewrite Hp, Qabs_Qmult, (Qabs_pos (count n)) by lra; reflexivity).
  assert (Hyp : (Qabs (y - p) == Qabs (a - q) * count n)%Q).
  { assert (Heq : (y - p == (a - q) * count n)%Q) by (unfold y; rewrite Hp; ring).
    rewrite Heq, Qabs_Qmult, (Qabs_pos (count n)) by lra. reflexivity. }
  assert (Hyp' : (Qabs (y - p) <= unit_roundoff * Qabs p)%Q).
  { rewrite Hyp, Hmag.
    assert (Hstep : (Qabs (a - q) * count n <= unit_roundoff * Qabs q * count n)%Q)
      by (apply Qmult_le_compat_r; lra).
    lra. }
  assert (Hy : (Qabs y <= Qabs p + unit_roundoff * Qabs p)%Q).
  { assert (Heq : (y == (y - p) + p)%Q) by ring.
    rewrite Heq at 1. eapply Qle_trans; [apply Qabs_triangle|]. lra. }
  assert (Hbp : (Qabs (b - p) <= Qabs (b - y) + Qabs (y - p))%Q).
  { assert (Heq : (b - p == (b - y) + (y - p))%Q) by ring.
    rewrite Heq. apply Qabs_triangle. }
  assert (Hby : (unit_roundoff * Qabs y
                 <= unit_roundoff * (Qabs p + unit_roundoff * Qabs p))%Q)
    by (apply Qmult_le_l; lra).
  simpl growth.
  pose proof (Qabs_nonneg p) as Hpos.
  generalize dependent (Qabs (b - p)); intros bp; intros.
  generalize dependent (Qabs (b - y)); intros by'; intros.
  generalize dependent (Qabs (y - p)); intros yp; intros.
  generalize dependent (Qabs y); intros my; intros.
  generalize dependent (Qabs p); intros mp; intros.
  generalize dependent unit_roundoff; intros u; intros.
  nra.
Qed.

Lemma calculate_item_total (it : Item) (reqs : list ChangeRequest) (c : ItemChange) :
  calculate it reqs = inr c →
  (Qabs (item_total c - price it) <= (growth 2 - 1) * Qabs (price it))%Q
  ∧ item_name c = name it.
Proof.
  unfold calculate.
  destruct (size (new_member_set it reqs) =? 0)%nat eqn:Hsize; [discriminate|].
  intros [= <-]. split; [|reflexivity].
  apply Nat.eqb_neq in Hsize. unfold item_total. simpl.
  change (length (elements (new_member_set it reqs)))
    with (size (new_member_set it reqs)).
  apply item_total_near. exact Hsize.
Qed.

(** The aggregate accumulated over the items stays near the sum of
    their prices. *)
Lemma accumulate_near (reqs : list ChangeRequest) (its : list Item) :
  ∀ (cs : list ItemChange) (acc S A : Q) (j : nat),
    calculate_all its reqs = inr cs →
    (0 <= A)%Q → (Qabs S <= A)%Q →
    (Qabs (acc - S) <= (growth (j + 2) - 1) * A)%Q →
    (Qabs (fold_left (fun acc c => fl (acc + item_total c)) cs acc
           - (S + sum_of_prices its))
     <= (growth (j + length its + 2) - 1) * (A + sum_of_magnitudes its))%Q
    ∧ map item_name cs = map name its.
Proof.
  pose proof unit_roundoff_pos as Hu.
  induction its as [|it rest IH];
    cbn [calculate_all sum_of_prices sum_of_magnitudes length];
    intros cs acc S A j Hcs HA HS Hacc.
  - injection Hcs as <-. cbn [fold_left map]. split; [|reflexivity].
    replace (j + 0 + 2)%nat with (j + 2)%nat by lia.
    assert (Hl : (acc - (S + 0) == acc - S)%Q) by ring.
    assert (Hr : ((growth (j + 2) - 1) * (A + 0) == (growth (j + 2) - 1) * A)%Q)
      by ring.
    rewrite Hl, Hr. exact Hacc.
  - destruct (calculate it reqs) as [err|c] eqn:Hc; [discriminate|].
    destruct (calculate_all rest reqs) as [err|cs'] eqn:Hrest; [discriminate|].
    injection Hcs as <-. cbn [fold_left map].
    destruct (calculate_item_total _ _ _ Hc) as [Hitem Hname].
    set (p := price it) in *. set (b := item_total c) in *.
    set (x := (acc + b)%Q).
    pose proof (fl_error x) as Hround.
    pose proof (Qabs_nonneg p) as HP.
    assert (Hx : (Qabs x <= Qabs (acc - S) + A + Qabs (b - p) + Qabs p)%Q).
    { assert (Heq : (x == (acc - S) + (S + ((b - p) + p)))%Q) by (unfold x; ring).
      rewrite Heq.
      eapply Qle_trans; [apply Qabs_triangle|].
      pose proof (Qabs_triangle S ((b - p) + p)) as H1.
      pose proof (Qabs_triangle (b - p) p) as H2.
      lra. }
    assert (Hnew : (Qabs (fl x - (S + p))
                    <= Qabs (fl x - x) + Qabs (acc - S) + Qabs (b - p))%Q).
    { assert (Heq : (fl x - (S + p) == (fl x - x) + ((acc - S) + (b - p)))%Q)
        by (unfold x; ring).
      rewrite Heq.
      eapply Qle_trans; [apply Qabs_triangle|].
      pose proof (Qabs_triangle (acc - S) (b - p)) as H1. lra. }
    assert (Hsum : (Qabs (S + p) <= A + Qabs p)%Q)
      by (eapply Qle_trans; [apply Qabs_triangle | lra]).
    assert (Hgrow : (growth 2 <= growth (j + 2))%Q) by (apply growth_mono; lia).
    assert (Hmul : (unit_roundoff * Qabs x
                    <= unit_roundoff
                       * (Qabs (acc - S) + A + Qabs (b - p) + Qabs p))%Q)
      by (apply Qmult_le_l; lra).
    pose proof (accumulate_step unit_roundoff (growth (j + 2)) (growth 2)
                  A (Qabs p) (Qabs (acc - S)) (Qabs (b - p))
                  Hu HA HP) as Hstep.
    assert (Hnext : (Qabs (fl x - (S + p))
                     <= (growth (j + 1 + 2) - 1) * (A + Qabs p))%Q).
    { replace (j + 1 + 2)%nat with (Datatypes.S (j + 2)) by lia.
      simpl growth in *.
      assert (Ht : ((1 + unit_roundoff) * ((1 + unit_roundoff) * 1)
                    == (1 + unit_roundoff) * (1 + unit_roundoff))%Q) by ring.
      specialize (Hstep Ht Hgrow Hacc Hitem). lra. }
    assert (HA' : (0 <= A + Qabs p)%Q) by lra.
    destruct (IH cs' (fl x) (S + p)%Q (A + Qabs p)%Q (j + 1)%nat
                eq_refl HA' Hsum Hnext) as [Hbound Hnames].
    split; [|rewrite Hname, Hnames; reflexivity].
    replace (j + Datatypes.S (length rest) + 2)%nat
      with (j + 1 + length rest + 2)%nat by lia.
    assert (Hl : (S + (p + sum_of_prices rest) == S + p + sum_of_prices rest)%Q)
      by ring.
    assert (Hr : (A + (Qabs p + sum_of_magnitudes rest)
                  == A + Qabs p + sum_of_magnitudes rest)%Q) by ring.
    rewrite Hl, Hr. exact Hbound.
Qed.

Lemma sum_of_magnitudes_nonneg (its : list Item) : (0 <= sum_of_magnitudes its)%Q.
Proof.
  induction its as [|it rest IH]; simpl; [lra|].
  pose proof (Qabs_nonneg (price it)). lra.
Qed.

(** The aggregate of a computed split is within the rounding slack of
    the sum of the item prices. *)
Lemma calculate_all_reconciles (reqs : list ChangeRequest) (its : list Item)
    (cs : list ItemChange) :
  calculate_all its reqs = inr cs →
  (Qabs (new_total_expense cs - sum_of_prices its) <= rounding_slack its)%Q
  ∧ map item_name cs = map name its.
Proof.
  intros Hcs.
  destruct (accumulate_near reqs its cs 0 0 0 0 Hcs) as [Hbound Hnames].
  - lra.
  - change (Qabs 0) with 0%Q. lra.
  - change (Qabs (0 - 0)) with 0%Q. lra.
  - split; [|exact Hnames]. unfold new_total_expense, rounding_slack.
    assert (Hl : (0 + sum_of_prices its == sum_of_prices its)%Q) by ring.
    assert (Hr : (0 + sum_of_magnitudes its == sum_of_magnitudes its)%Q) by ring.
    rewrite Hl, Hr in Hbound. exact Hbound.
Qed.

(** The calculator fails exactly on an item that would be left with
    no members. *)
Lemma calculate_all_fails (reqs : list ChangeRequest) (its : list Item) :
  ∀ err, calculate_all its reqs = inl err →
         ∃ it, it ∈ its
               ∧ err = ItemLeftWithNoMembers (name it)
               ∧ new_member_set it reqs = ∅.
Proof.
  induction its as [|it rest IH]; simpl; intros err; [discriminate|].
  destruct (calculate it reqs) as [err'|c] eqn:Hc.
  - intros [= <-]. exists it. split; [left|].
    unfold calculate in Hc.
    destruct (size (new_member_set it reqs) =? 0)%nat eqn:Hsize; [|discriminate].
    injection Hc as <-. split; [reflexivity|].
    apply Nat.eqb_eq, size_empty_iff in Hsize. apply leibniz_equiv. exact Hsize.
  - destruct (calculate_all rest reqs) as [err'|cs] eqn:Hcs; [|discriminate].
    intros [= <-]. destruct (IH _ eq_refl) as (it' & Hin & Herr & Hempty).
    exists it'. split; [right; exact Hin | split; assumption].
Qed.

(** The size of the discrepancy the validator reports: the rounded
    difference of the two totals is within one unit roundoff of their
    distance, which is within the rounding slack of the gap between
    the total on the ledger and the sum of the item prices. *)
Lemma discrepancy_near (its : list Item) (original aggregate : Q) :
  (Qabs (aggregate - sum_of_prices its) <= rounding_slack its)%Q →
  ((Qabs (original - sum_of_prices its) - rounding_slack its) * (1 - unit_roundoff)
   <= Qabs (fl (aggregate - original)))%Q
  ∧ (Qabs (fl (aggregate - original))
     <= (Qabs (original - sum_of_prices its) + rounding_slack its)
        * (1 + unit_roundoff))%Q.
Proof.
  intros Hnear. pose proof unit_roundoff_pos as Hu.
  assert (Hsmall : (unit_roundoff < 1)%Q) by reflexivity.
  set (d := (aggregate - original)%Q).
  pose proof (fl_error d) as Hround.
  set (sum := sum_of_prices its) in *. set (slack := rounding_slack its) in *.
  assert (Hupper : (Qabs d <= Qabs (original - sum) + slack)%Q).
  { assert (Heq : (d == (aggregate - sum) + - (original - sum))%Q)
      by (unfold d; ring).
    rewrite Heq. eapply Qle_trans; [apply Qabs_triangle|].
    rewrite Qabs_opp. lra. }
  assert (Hlower : (Qabs (original - sum) - slack <= Qabs d)%Q).
  { assert (Heq : (original - sum == (aggregate - sum) + - d)%Q)
      by (unfold d; ring).
    rewrite Heq at 1.
    pose proof (Qabs_triangle (aggregate - sum) (- d)) as Htri.
    rewrite Qabs_opp in Htri. lra. }
  assert (Hfl_upper : (Qabs (fl d) <= Qabs d + unit_roundoff * Qabs d)%Q).
  { assert (Heq : (fl d == (fl d - d) + d)%Q) by ring.
    rewrite Heq at 1. eapply Qle_trans; [apply Qabs_triangle|]. lra. }
  assert (Hfl_lower : (Qabs d - unit_roundoff * Qabs d <= Qabs (fl d))%Q).
  { assert (Heq : (d == fl d + - (fl d - d))%Q) by ring.
    pose proof (Qabs_triangle (fl d) (- (fl d - d))) as Htri.
    rewrite <- Heq, Qabs_opp in Htri. lra. }
  pose proof (Qabs_nonneg d) as Hd.
  generalize dependent (Qabs (fl d)); intros f; intros.
  generalize dependent (Qabs (original - sum)); intros gap; intros.
  generalize dependent (Qabs d); intros m; intros.
  generalize dependent unit_roundoff; intros u; intros.
  split; nra.
Qed.

(** Claim C2, as the engine described by the specification has it.
    Whenever the preview is computed, the aggregate (the sum over the
    items of [new_split_per_person] times the number of new members)
    is the sum of the item prices up to the rounding of the
    floating-point operations, at most [rounding_slack]; the
    validation result reports the comparison of that aggregate with
    the total on the ledger: the total, the aggregate, the magnitude
    of their rounded difference, and whether it is within the
    tolerance.  So [total_matches] holds when the total on the ledger
    is the sum of the item prices up to what the tolerance leaves
    after the rounding slack, and fails when the two differ by more
    than the tolerance and the slack.  The preview is withheld only
    when no request is approved or when an item would be left with no
    members. *)
Theorem recomputed_split_reconciles (e : Expense) (reqs : list ChangeRequest) :
  match preview e reqs with
  | inr p =>
      let aggregate := new_total_expense (changes p) in
      let report := validation_result p in
      let gap := Qabs (total e - sum_of_prices (items e)) in
      map item_name (changes p) = map name (items e)
      ∧ (Qabs (aggregate - sum_of_prices (items e)) <= rounding_slack (items e))%Q
      ∧ original_total report = total e
      ∧ new_total report = aggregate
      ∧ difference report = Qabs (fl (aggregate - total e))
      ∧ (total_matches report = true ↔ (difference report <= tolerance)%Q)
      ∧ (((gap + rounding_slack (items e)) * (1 + unit_roundoff) <= tolerance)%Q →
         total_matches report = true)
      ∧ ((tolerance < (gap - rounding_slack (items e)) * (1 - unit_roundoff))%Q →
         total_matches report = false)
  | inl NoApprovedChanges =>
      ∀ r, r ∈ reqs → is_approved r = false
  | inl (Invalid (ItemLeftWithNoMembers item)) =>
      ∃ it, it ∈ items e ∧ name it = item ∧ new_member_set it reqs = ∅
  end.
Proof.
  unfold preview.
  destruct (existsb is_approved reqs) eqn:Happroved; cbn [negb].
  - destruct (calculate_all (items e) reqs) as [err|cs] eqn:Hcs.
    + destruct (calculate_all_fails _ _ _ Hcs) as (it & Hin & -> & Hempty).
      exists it. split; [exact Hin | split; [reflexivity | exact Hempty]].
    + cbn [changes validation_result validate original_total new_total
             difference total_matches].
      destruct (calculate_all_reconciles _ _ _ Hcs) as [Hnear Hnames].
      destruct (discrepancy_near (items e) (total e) (new_total_expense cs) Hnear)
        as [Hlower Hupper].
      split; [exact Hnames|]. split; [exact Hnear|].
      do 3 (split; [reflexivity|]).
      split; [apply Qle_bool_iff|]. split.
      * intros Hwithin. apply Qle_bool_iff.
        eapply Qle_trans; [exact Hupper | exact Hwithin].
      * intros Hbeyond.
        destruct (Qle_bool (Qabs (fl (new_total_expense cs - total e))) tolerance)
          eqn:Htest; [|reflexivity].
        apply Qle_bool_iff in Htest. exfalso.
        apply (Qlt_irrefl tolerance).
        eapply Qlt_le_trans; [exact Hbeyond|].
        eapply Qle_trans; [exact Hlower | exact Htest].
  - intros r Hr.
    destruct (is_approved r) eqn:Hyes; [|reflexivity].
    assert (Hsome : existsb is_approved reqs = true)
      by (apply existsb_exists; exists r; split;
          [apply list_elem_of_In; exact Hr | exact Hyes]).
    congruence.
Qed.

End ReconciliationFacts.

Section ReconciliationWitness.

Import Reconciliation ReconciliationError Samples.

(** Claim C2 fails as stated.  With a total of 66 on the ledger for
    items that add up to 60, the aggregate of the recomputed split is
    60, six away from the original total, and the validation reports a
    mismatch.  And for a price of the order of [10^18] the rounding
    alone takes the aggregate 128 away from a total that is the sum of
    the item prices. *)
Lemma aggregate_differs_from_total :
  (∃ p,
     preview taxedDinner approvedRequests = inr p
     ∧ total taxedDinner = 66%Q
     ∧ new_total_expense (changes p) = 60%Q
     ∧ ¬ (Qabs (new_total_expense (changes p) - total taxedDinner) <= 1 # 100)%Q
     ∧ total_matches (validation_result p) = false)
  ∧ (∃ p,
       preview banquet approvedRequests = inr p
       ∧ (total banquet == sum_of_prices (items banquet))%Q
       ∧ new_total_expense (changes p) = 1000000000000000256%Q
       ∧ ¬ (Qabs (new_total_expense (changes p) - total banquet) <= 1 # 100)%Q
       ∧ total_matches (validation_result p) = false).
Proof.
  split.
  - destruct (preview taxedDinner approvedRequests) as [reason|p] eqn:Hp;
      [vm_compute in Hp; discriminate|].
    exists p. split; [reflexivity|].
    vm_compute in Hp. injection Hp as <-.
    split; [reflexivity|]. split; [vm_compute; reflexivity|].
    split; [|vm_compute; reflexivity].
    intros Hle. vm_compute in Hle. apply Hle. reflexivity.
  - destruct (preview banquet approvedRequests) as [reason|p] eqn:Hp;
      [vm_compute in Hp; discriminate|].
    exists p. split; [reflexivity|].
    vm_compute in Hp. injection Hp as <-.
    split; [vm_compute; reflexivity|]. split; [vm_compute; reflexivity|].
    split; [|vm_compute; reflexivity].
    intros Hle. vm_compute in Hle. apply Hle. reflexivity.
Qed.

Lemma recomputed_split_reconciles_witness :
  ((Qabs (total ledgerDinner - sum_of_prices (items ledgerDinner))
    + rounding_slack (items ledgerDinner)) * (1 + unit_roundoff)
   <= tolerance)%Q
  ∧ (∃ p,
       preview ledgerDinner approvedRequests = inr p
       ∧ (Qabs (new_total_expense (changes p) - 60) <= 1 # 100)%Q
       ∧ total_matches (validation_result p) = true)
  ∧ (tolerance
     < (Qabs (total taxedDinner - sum_of_prices (items taxedDinner))
        - rounding_slack (items taxedDinner)) * (1 - unit_roundoff))%Q
  ∧ ∃ p,
      preview taxedDinner approvedRequests = inr p
      ∧ total_matches (validation_result p) = false.
Proof.
  assert (Hwithin :
    ((Qabs (total ledgerDinner - sum_of_prices (items ledgerDinner))
      + rounding_slack (items ledgerDinner)) * (1 + unit_roundoff)
     <= tolerance)%Q) by (vm_compute; discriminate).
  assert (Hbeyond :
    (tolerance
     < (Qabs (total taxedDinner - sum_of_prices (items taxedDinner))
        - rounding_slack (items taxedDinner)) * (1 - unit_roundoff))%Q)
    by (vm_compute; reflexivity).
  split; [exact Hwithin|]. split; [|split; [exact Hbeyond|]].
  - pose proof (recomputed_split_reconciles ledgerDinner approvedRequests)
      as Hpreview.
    destruct (preview ledgerDinner approvedRequests) as [reason|p] eqn:Hp.
    + vm_compute in Hp. discriminate.
    + exists p.
      destruct Hpreview as (_ & Hnear & _ & _ & _ & _ & Hmatches & _).
      split; [reflexivity|]. split; [|exact (Hmatches Hwithin)].
      eapply Qle_trans; [exact Hnear|]. vm_compute. discriminate.
  - pose proof (recomputed_split_reconciles taxedDinner approvedRequests)
      as Hpreview.
    destruct (preview taxedDinner approvedRequests) as [reason|p] eqn:Hp.
    + vm_compute in Hp. discriminate.
    + exists p.
      destruct Hpreview as (_ & _ & _ & _ & _ & _ & _ & Hfails).
      split; [reflexivity | exact (Hfails Hbeyond)].
Defined.

End ReconciliationWitness.

Section Scenario.

Import Reconciliation Samples.

(** The scenario of section 8: after both approvals Pizza is shared by
    B, C and D at 10 each, A falls from 25 to 15, B stays at 25 and D
    rises from 0 to 10. *)
Example section8_totals :
  ∃ p,
    preview ledgerDinner approvedRequests = inr p
    ∧ (list_to_set <$> (new_members <$> changes p) !! 0%nat)
      = Some ({[ "B"; "C"; "D" ]} : gset string)
    ∧ (Qred <$> original_totals p !! "A", Qred <$> new_totals p !! "A")
      = (Some 25%Q, Some 15%Q)
    ∧ (Qred <$> original_totals p !! "B", Qred <$> new_totals p !! "B")
      = (Some 25%Q, Some 25%Q)
    ∧ (Qred <$> original_totals p !! "D", Qred <$> new_totals p !! "D")
      = (Some 0%Q, Some 10%Q).
Proof.
  destruct (preview ledgerDinner approvedRequests) as [reason|p] eqn:Hp;
    [vm_compute in Hp; discriminate|].
  exists p. split; [reflexivity|].
  vm_compute in Hp. injection Hp as <-.
  repeat split; vm_compute; reflexivity.
Qed.

End Scenario.

(** ** The handlers on small inputs *)

Section Examples.

Import BatchReview Samples.

(** Approving a request and then rejecting it moves it from one set
    to the other; rejecting it once more clears it. *)
Example toggle_moves_request :
  let s := toggleRequestSelection "r1" Reject
             (toggleRequestSelection "r1" Approve initialState) in
  selectedRequests s = ∅
  ∧ rejectedRequests s = {[ "r1" ]}
  ∧ rejectedRequests (toggleRequestSelection "r1" Reject s) = ∅.
Proof. repeat split; vm_compute; reflexivity. Qed.

(** The steps shown along a whole review. *)
Example review_steps :
  stepsOf <$> run initialWorld reviewTrace
  = Some [StepDecisions; StepDecisions; StepDecisions; StepDecisions;
          StepDecisions; StepDecisions; StepDecisions; StepPreview;
          StepPreview; StepPreview; StepPreview; StepPreview; StepCompleted].
Proof. vm_compute; reflexivity. Qed.

(** The commit request carries the two sets as they are at the click. *)
Example commit_body_sent :
  commitBodies (commitDecisions deciding)
  = [{| body_expense_id := "e1"; approved_request_ids := ["r1"];
        rejected_request_ids := ["r2"]; admin_notes := "" |}].
Proof. vm_compute; reflexivity. Qed.

(** The apply button is missing without a preview, present with a
    matching one, and disabled while the request is processed. *)
Example apply_button :
  applyAvailable (ui committed) = false
  ∧ applyAvailable (ui previewing) = true
  ∧ applyAvailable (ui applying) = false.
Proof. repeat split; vm_compute; reflexivity. Qed.

(** The admin page with Clerk loaded from the start: spinner, then
    the decision of the probe. *)
Example admin_page_loaded :
  AdminPage.render AdminPage.initialState = AdminPage.Spinner
  ∧ AdminPage.render
      (AdminPage.effects [(true, AdminPage.Response 200)] AdminPage.initialState)
    = AdminPage.AdminDashboard
  ∧ AdminPage.render
      (AdminPage.effects [(true, AdminPage.Response 403)] AdminPage.initialState)
    = AdminPage.AccessDenied
  ∧ AdminPage.render
      (AdminPage.effects [(true, AdminPage.Response 500)] AdminPage.initialState)
    = AdminPage.AccessDenied
  ∧ AdminPage.render
      (AdminPage.effects [(true, AdminPage.Rejected)] AdminPage.initialState)
    = AdminPage.AccessDenied.
Proof. repeat split. Qed.

(** Doubles and their two-decimal renderings: 0.1 and a third are
    not doubles, half of the least positive double is rounded to
    zero, and past [MAX_VALUE] comes infinity; 1.005 is below 1.005
    as a double, 0.125 is a tie and goes up, and the sign is kept
    when the digits are all zero. *)
Example doubles_and_digits :
  JS.toDouble (1 # 10) = JS.Finite (3602879701896397 # 36028797018963968)
  ∧ JS.toDouble (1 # 3) = JS.Finite (6004799503160661 # 18014398509481984)
  ∧ JS.toDouble (Binary.pow2 (-1075)) = JS.Finite 0
  ∧ JS.toDouble JS.MAX_VALUE = JS.Finite (Qred JS.MAX_VALUE)
  ∧ JS.toDouble (JS.MAX_VALUE + Binary.pow2 970) = JS.PosInfinity
  ∧ JS.toFixed (fun _ => "") (JS.toDouble (1005 # 1000)) 2 = "1.00"
  ∧ JS.toFixed (fun _ => "") (JS.toDouble (125 # 1000)) 2 = "0.13"
  ∧ JS.toFixed (fun _ => "") (JS.toDouble (- (1 # 1000))) 2 = "-0.00"
  ∧ JS.toFixed (fun _ => "1e+21") (JS.toDouble (inject_Z (10 ^ 21))) 2 = "1e+21".
Proof. repeat split; vm_compute; reflexivity. Qed.

(** The shares a member sees for the dinner. *)
Example dinner_shares :
  map SplitDetail.card_per_person (SplitDetail.itemCards dinner "C")
  = [JS.Finite 10; JS.Finite 15; JS.PosInfinity]
  ∧ map (SplitDetail.formatCurrency (fun _ => ""))
        (map SplitDetail.card_per_person (SplitDetail.itemCards dinner "C"))
    = ["$10.00"; "$15.00"; "$Infinity"]
  ∧ map Dashboard.row_share (Dashboard.yourItems dashboardOfC dinner)
    = [JS.Finite 10].
Proof. repeat split; vm_compute; reflexivity. Qed.

End Examples.

(** * Further properties of the components *)

(** ** BatchReviewComponent: one handler at a time *)

Section Processing.

Import BatchReview BatchReviewFlow.

Lemma filter_delete_lookup {A : Type} (f : A → bool) (l : list A) (i : nat) (a : A) :
  l !! i = Some a →
  (length (List.filter f (delete i l)) + (if f a then 1 else 0))%nat
  = length (List.filter f l).
Proof.
  revert i; induction l as [|b l IH]; intros [|i]; simpl; try discriminate.
  - intros [= ->]. destruct (f a); simpl; lia.
  - intros Hi. specialize (IH _ Hi). destruct (f b); simpl; lia.
Qed.

Lemma processingRequests_spawn (t : Task) (w : World) :
  processingRequests (spawn t w)
  = (processingRequests w + (if holdsProcessing t then 1 else 0))%nat.
Proof.
  unfold processingRequests, spawn; simpl.
  rewrite List.filter_app, length_app; simpl.
  destruct (holdsProcessing t); reflexivity.
Qed.

Lemma processingRequests_settle (i : nat) (t : Task) (w : World) :
  inflight w !! i = Some t →
  (processingRequests (settle i w) + (if holdsProcessing t then 1 else 0))%nat
  = processingRequests w.
Proof. apply filter_delete_lookup. Qed.

Lemma toggleRequestSelection_processing
    (requestId : string) (action : ToggleAction) (s : State) :
  processing (toggleRequestSelection requestId action s) = processing s.
Proof.
  unfold toggleRequestSelection.
  destruct action; case_bool_decide; reflexivity.
Qed.

Lemma step_balanced (w : World) (ev : Event) (w' : World) :
  balanced w → step w ev = Some w' → balanced w'.
Proof.
  unfold balanced. intros Hbal Hstep.
  destruct ev as [e|requestId action|text| | | | | |i r]; simpl in Hstep.
  - destruct (expenseCardRendered e (ui w)); [|discriminate].
    injection Hstep as <-. unfold clickExpense.
    destruct (_ && _); rewrite ?processingRequests_spawn; simpl;
      unfold processingRequests in *; simpl; rewrite ?Nat.add_0_r; exact Hbal.
  - destruct (toggleRendered requestId (ui w)); [|discriminate].
    injection Hstep as <-. unfold processingRequests in *; simpl.
    rewrite toggleRequestSelection_processing. exact Hbal.
  - destruct (decisionsPanelRendered (ui w)); [|discriminate].
    injection Hstep as <-. exact Hbal.
  - destruct (commitAvailable (ui w)) eqn:Hon; [|discriminate].
    injection Hstep as <-. unfold commitDecisions.
    destruct (selectedExpense (ui w)) as [e|]; [|exact Hbal].
    destruct (JS.truthy (Some e)); [|exact Hbal].
    rewrite processingRequests_spawn; simpl.
    unfold commitAvailable in Hon.
    destruct (processing (ui w));
      [rewrite andb_false_r in Hon; discriminate|].
    unfold processingRequests in *; simpl. rewrite Hbal. reflexivity.
  - destruct (previewAvailable (ui w)) eqn:Hon; [|discriminate].
    injection Hstep as <-. unfold previewSplitwiseChanges.
    destruct (selectedExpense (ui w)) as [e|]; [|exact Hbal].
    destruct (JS.truthy (Some e)); [|exact Hbal].
    rewrite processingRequests_spawn; simpl.
    unfold previewAvailable in Hon.
    destruct (processing (ui w));
      [rewrite andb_false_r in Hon; discriminate|].
    unfold processingRequests in *; simpl. rewrite Hbal. reflexivity.
  - destruct (goBackAvailable (ui w)); [|discriminate].
    injection Hstep as <-. exact Hbal.
  - destruct (applyAvailable (ui w)) eqn:Hon; [|discriminate].
    injection Hstep as <-. unfold applyToSplitwiseAndMongoDB.
    destruct (selectedExpense (ui w)) as [e|]; [|exact Hbal].
    destruct (JS.truthy (Some e)); [|exact Hbal].
    rewrite processingRequests_spawn; simpl.
    apply applyAvailable_spec in Hon as (_ & Hidle & _).
    rewrite Hidle in Hbal.
    unfold processingRequests in *; simpl. rewrite Hbal. reflexivity.
  - destruct (processAnotherAvailable (ui w)); [|discriminate].
    injection Hstep as <-. unfold clickProcessAnother.
    rewrite processingRequests_spawn; simpl.
    unfold processingRequests in *; simpl. rewrite Nat.add_0_r. exact Hbal.
  - destruct (inflight w !! i) as [t|] eqn:Hflight; [|discriminate].
    pose proof (processingRequests_settle _ _ _ Hflight) as Hsettle.
    assert (Hui : processing (ui (settle i w)) = processing (ui w)) by reflexivity.
    revert Hstep Hsettle Hui. generalize (settle i w) as v. intros v Hstep Hsettle Hui.
    destruct (processing (ui w)) eqn:Hbusy;
      destruct t as [fin|e k|body|e|e], r as [r|r|r|r|r]; simpl in Hstep;
      try discriminate; injection Hstep as <-; simpl in Hsettle.
    all: try (unfold resumeFetchGroupedRequests; destruct r, fin; simpl in *;
              unfold processingRequests in *; simpl; rewrite ?Hui; lia).
    all: try (unfold resumeCheckExpenseStatus, stepOfStatus;
              destruct r as [status| |], k;
              rewrite ?processingRequests_spawn; simpl in *;
              repeat (match goal with
                      | |- context [if String.eqb ?a ?b then _ else _] =>
                          destruct (String.eqb a b)
                      end);
              unfold processingRequests in *; simpl; rewrite ?Hui; lia).
    all: try (unfold resumeCommitDecisions; destruct r;
              rewrite ?processingRequests_spawn; simpl in *;
              unfold processingRequests in *; simpl; rewrite ?Hui; lia).
    all: try (unfold resumePreviewSplitwiseChanges;
              destruct r as [result| |];
              [destruct (String.eqb (result_status result) "preview_ready")| |];
              simpl in *; unfold processingRequests in *; simpl; lia).
    all: try (unfold resumeApplyToSplitwiseAndMongoDB; destruct r;
              rewrite ?processingRequests_spawn; simpl in *;
              unfold processingRequests in *; simpl; rewrite ?Hui; lia).
Qed.

(** Property X1.  In every reachable state [processing] is set exactly while one
    request of a commit, preview or apply handler is in flight, and
    never more than one: the component never has two such handlers
    running, and in particular never two apply requests. *)
Theorem one_handler_at_a_time (w : World) :
  reachable w →
  processingRequests w = (if processing (ui w) then 1%nat else 0%nat)
  ∧ (applyRequests w ≤ 1)%nat.
Proof.
  intros Hreach.
  assert (Hbal : balanced w).
  { induction Hreach as [|w ev w' _ IH Hstep]; [reflexivity|].
    exact (step_balanced _ _ _ IH Hstep). }
  split; [exact Hbal|].
  assert (Hle : (applyRequests w ≤ processingRequests w)%nat).
  { unfold applyRequests, processingRequests.
    induction (inflight w) as [|t l IH]; simpl; [lia|].
    destruct t as [fin|e k|body|e|e]; simpl;
      try destruct fin; try destruct k; simpl; lia. }
  rewrite Hbal in Hle. destruct (processing (ui w)); lia.
Qed.

End Processing.

Section ProcessingWitness.

Import BatchReview BatchReviewFlow Samples.

Lemma committing_reachable : reachable (commitDecisions toggled).
Proof.
  apply (reachable_step toggled ClickCommit); [|vm_compute; reflexivity].
  exact toggled_reachable.
Defined.

Lemma one_handler_at_a_time_witness :
  reachable (commitDecisions toggled)
  ∧ processing (ui (commitDecisions toggled)) = true
  ∧ processingRequests (commitDecisions toggled) = 1%nat
  ∧ step (commitDecisions toggled) ClickCommit = None.
Proof.
  split; [exact committing_reachable|].
  destruct (one_handler_at_a_time _ committing_reachable) as [Hone _].
  split; [reflexivity|]. split; [rewrite Hone; reflexivity | reflexivity].
Defined.

End ProcessingWitness.

(** ** BatchReviewComponent: what a toggle does *)

Section Toggles.

Import BatchReview.

(** Property X2.  A click on Approve flips the request in the approved set and
    takes it out of the rejected set when it puts it into the approved
    one; a click on Reject does the same with the sets exchanged.  No
    other request is touched. *)
Theorem toggle_flips_one_request
    (requestId other : string) (action : ToggleAction) (s : State) :
  other ≠ requestId →
  (other ∈ selectedRequests (toggleRequestSelection requestId action s)
   ↔ other ∈ selectedRequests s)
  ∧ (other ∈ rejectedRequests (toggleRequestSelection requestId action s)
     ↔ other ∈ rejectedRequests s)
  ∧ match action with
    | Approve =>
        (requestId ∈ selectedRequests (toggleRequestSelection requestId action s)
         ↔ requestId ∉ selectedRequests s)
        ∧ (requestId ∈ rejectedRequests (toggleRequestSelection requestId action s)
           ↔ requestId ∈ rejectedRequests s ∧ requestId ∈ selectedRequests s)
    | Reject =>
        (requestId ∈ rejectedRequests (toggleRequestSelection requestId action s)
         ↔ requestId ∉ rejectedRequests s)
        ∧ (requestId ∈ selectedRequests (toggleRequestSelection requestId action s)
           ↔ requestId ∈ selectedRequests s ∧ requestId ∈ rejectedRequests s)
    end.
Proof.
  intros Hother. unfold toggleRequestSelection.
  destruct action; case_bool_decide as Hin; simpl;
    rewrite ?elem_of_union, ?elem_of_difference, ?elem_of_singleton;
    intuition congruence.
Qed.

(** Property X3.  Two clicks on the same button leave that button's set as it was,
    but the request is gone from the other set: a rejected request on
    which Approve is clicked twice ends up undecided, not rejected. *)
Theorem toggle_twice_forgets_opposite (requestId : string) (s : State) :
  selectedRequests
    (toggleRequestSelection requestId Approve
       (toggleRequestSelection requestId Approve s))
  = selectedRequests s
  ∧ rejectedRequests
      (toggleRequestSelection requestId Approve
         (toggleRequestSelection requestId Approve s))
    = rejectedRequests s ∖ {[requestId]}
  ∧ rejectedRequests
      (toggleRequestSelection requestId Reject
         (toggleRequestSelection requestId Reject s))
    = rejectedRequests s
  ∧ selectedRequests
      (toggleRequestSelection requestId Reject
         (toggleRequestSelection requestId Reject s))
    = selectedRequests s ∖ {[requestId]}.
Proof.
  assert (Hback : ∀ X : gset string, requestId ∉ X → (X ∪ {[requestId]}) ∖ {[requestId]} = X).
  { intros X Hout. apply set_eq. intros x.
    rewrite elem_of_difference, elem_of_union, elem_of_singleton.
    split; [intuition | intros Hx; split; [left; exact Hx | congruence]]. }
  assert (Hforth : ∀ X : gset string, requestId ∈ X → (X ∖ {[requestId]}) ∪ {[requestId]} = X).
  { intros X Hin. apply set_eq. intros x.
    rewrite elem_of_union, elem_of_difference, elem_of_singleton.
    split; [intros [[Hx _]| ->]; assumption|].
    intros Hx. destruct (decide (x = requestId)); [right | left]; intuition. }
  assert (Hgone : ∀ X : gset string, (X ∖ {[requestId]}) ∖ {[requestId]} = X ∖ {[requestId]}).
  { intros X. apply set_eq. intros x.
    rewrite !elem_of_difference. intuition. }
  assert (Hnotin : ∀ X : gset string, requestId ∉ X ∖ {[requestId]}).
  { intros X. rewrite elem_of_difference, elem_of_singleton. intuition. }
  assert (Hin : ∀ X : gset string, requestId ∈ X ∪ {[requestId]}).
  { intros X. rewrite elem_of_union, elem_of_singleton. right. reflexivity. }
  unfold toggleRequestSelection.
  destruct (decide (requestId ∈ selectedRequests s)) as [Hsel|Hsel],
           (decide (requestId ∈ rejectedRequests s)) as [Hrej|Hrej].
  all: repeat split; simpl;
    repeat (first
      [ rewrite (bool_decide_eq_true_2 _ Hsel)
      | rewrite (bool_decide_eq_false_2 _ Hsel)
      | rewrite (bool_decide_eq_true_2 _ Hrej)
      | rewrite (bool_decide_eq_false_2 _ Hrej)
      | rewrite (bool_decide_eq_true_2 _ (Hin _))
      | rewrite (bool_decide_eq_false_2 _ (Hnotin _)) ]; simpl);
    rewrite ?Hgone; auto.
Qed.

End Toggles.

Section TogglesWitness.

Import BatchReview Samples.

Lemma toggle_flips_one_request_witness :
  "r2" ≠ "r1"
  ∧ ("r2" ∈ rejectedRequests (toggleRequestSelection "r1" Approve (ui deciding))
     ↔ "r2" ∈ rejectedRequests (ui deciding)).
Proof.
  assert (Hother : "r2" ≠ "r1") by discriminate.
  split; [exact Hother|].
  exact (proj1 (proj2 (toggle_flips_one_request "r1" "r2" Approve (ui deciding) Hother))).
Defined.

End TogglesWitness.

(** ** BatchReviewComponent: what is sent and what replies change *)

Section Requests.

Import BatchReview BatchReviewFlow.

Lemma decisionsPanelRendered_selected (s : State) :
  decisionsPanelRendered s = true →
  ∃ g, selectedExpense s = Some (expense_id g).
Proof.
  unfold decisionsPanelRendered, selectedExpenseData.
  destruct (loading s); simpl; [discriminate|].
  destruct (find _ (groupedRequests s)) as [g|] eqn:Hfind; [|discriminate].
  intros _. exists g.
  apply find_some in Hfind as [_ Heq].
  apply bool_decide_eq_true in Heq. congruence.
Qed.

Lemma step_wellFormed (w : World) (ev : Event) (w' : World) :
  (∀ body, body ∈ commitBodies w → wellFormed body) →
  step w ev = Some w' →
  ∀ body, body ∈ commitBodies w' → wellFormed body.
Proof.
  intros Hbodies Hstep.
  destruct ev as [e|requestId action|text| | | | | |i r]; simpl in Hstep.
  - destruct (expenseCardRendered e (ui w)); [|discriminate].
    injection Hstep as <-. unfold clickExpense.
    destruct (_ && _); rewrite ?commitBodies_spawn; simpl;
      rewrite ?app_nil_r; exact Hbodies.
  - destruct (toggleRendered requestId (ui w)); [|discriminate].
    injection Hstep as <-. exact Hbodies.
  - destruct (decisionsPanelRendered (ui w)); [|discriminate].
    injection Hstep as <-. exact Hbodies.
  - destruct (commitAvailable (ui w)) eqn:Hon; [|discriminate].
    injection Hstep as <-. unfold commitDecisions.
    destruct (selectedExpense (ui w)) as [e|]; [|exact Hbodies].
    destruct (JS.truthy (Some e)) eqn:Htruthy; [|exact Hbodies].
    intros body. rewrite commitBodies_spawn; simpl.
    intros Hin. apply elem_of_app in Hin as [Hin|Hin]; [exact (Hbodies _ Hin)|].
    apply list_elem_of_singleton in Hin as ->. split; simpl.
    + intros ->. discriminate.
    + unfold commitAvailable in Hon.
      apply andb_true_iff in Hon as [_ Hon].
      apply negb_true_iff, orb_false_iff in Hon as [_ Hon].
      apply andb_false_iff in Hon as [Hsome|Hsome]; apply Nat.eqb_neq in Hsome;
        [left | right]; intros Hnone; apply Hsome;
        unfold size, set_size; simpl; rewrite Hnone; reflexivity.
  - destruct (previewAvailable (ui w)); [|discriminate].
    injection Hstep as <-. unfold previewSplitwiseChanges.
    destruct (selectedExpense (ui w)) as [e|]; [|exact Hbodies].
    destruct (JS.truthy (Some e)); [|exact Hbodies].
    rewrite commitBodies_spawn; simpl; rewrite app_nil_r. exact Hbodies.
  - destruct (goBackAvailable (ui w)); [|discriminate].
    injection Hstep as <-. exact Hbodies.
  - destruct (applyAvailable (ui w)); [|discriminate].
    injection Hstep as <-. unfold applyToSplitwiseAndMongoDB.
    destruct (selectedExpense (ui w)) as [e|]; [|exact Hbodies].
    destruct (JS.truthy (Some e)); [|exact Hbodies].
    rewrite commitBodies_spawn; simpl; rewrite app_nil_r. exact Hbodies.
  - destruct (processAnotherAvailable (ui w)); [|discriminate].
    injection Hstep as <-. unfold clickProcessAnother.
    rewrite commitBodies_spawn; simpl; rewrite app_nil_r. exact Hbodies.
  - destruct (inflight w !! i) as [t|]; [|discriminate].
    apply resume_decisions in Hstep as (_ & _ & Hb).
    rewrite Hb. intros body Hin.
    apply commitBodies_settle in Hin. exact (Hbodies _ Hin).
Qed.

(** Property X4.  Every commit request the component has in flight names a
    non-empty expense identifier and carries at least one approved or
    rejected request: [commitDecisions] never posts an empty
    decision. *)
Theorem commit_requests_decide_something (w : World) (body : CommitBody) :
  reachable w →
  body ∈ commitBodies w →
  body_expense_id body ≠ ""
  ∧ (approved_request_ids body ≠ [] ∨ rejected_request_ids body ≠ []).
Proof.
  intros Hreach. revert body.
  induction Hreach as [|w ev w' _ IH Hstep].
  - intros body Hin. vm_compute in Hin. inversion Hin.
  - exact (step_wellFormed _ _ _ IH Hstep).
Qed.

(** A resumed handler writes none of the cells the admin fills in. *)
Lemma resume_keeps_choices (t : Task) (r : Reply) (w w' : World) :
  resume t r w = Some w' →
  selectedExpense (ui w') = selectedExpense (ui w)
  ∧ selectedRequests (ui w') = selectedRequests (ui w)
  ∧ rejectedRequests (ui w') = rejectedRequests (ui w)
  ∧ adminNotes (ui w') = adminNotes (ui w).
Proof.
  destruct t as [fin|e k|body|e|e], r as [r|r|r|r|r]; simpl; try discriminate;
    intros [= <-].
  - unfold resumeFetchGroupedRequests. destruct r, fin; repeat split.
  - unfold resumeCheckExpenseStatus, stepOfStatus.
    destruct r as [status| |], k; simpl;
      repeat (match goal with
              | |- context [if String.eqb ?a ?b then _ else _] =>
                  destruct (String.eqb a b)
              end);
      repeat split.
  - unfold resumeCommitDecisions. destruct r; repeat split.
  - unfold resumePreviewSplitwiseChanges.
    destruct r as [result| |]; [destruct (String.eqb _ _)| |]; repeat split.
  - unfold resumeApplyToSplitwiseAndMongoDB. destruct r; repeat split.
Qed.

(** Property X5.  No reply of the server changes what the admin has chosen: the
    selected expense, the approved and rejected sets and the notes are
    the same after the arrival of any reply. *)
Theorem replies_keep_choices (w : World) (i : nat) (r : Reply) (w' : World) :
  step w (Deliver i r) = Some w' →
  selectedExpense (ui w') = selectedExpense (ui w)
  ∧ selectedRequests (ui w') = selectedRequests (ui w)
  ∧ rejectedRequests (ui w') = rejectedRequests (ui w)
  ∧ adminNotes (ui w') = adminNotes (ui w).
Proof.
  simpl. intros Hstep.
  destruct (inflight w !! i) as [t|] eqn:Hflight; [|discriminate].
  pose proof (resume_keeps_choices _ _ _ _ Hstep) as Hkept.
  simpl in Hkept. exact Hkept.
Qed.

(** Property X6.  When the commit request fails, by a reply that is not ok or by a
    rejected request, one alert is shown ("Error:" with the server's
    detail, or "Network error occurred"), [processing] is cleared, and
    every other cell is as it was: the step stays, the choices are
    kept, and no status check is made. *)
Theorem commit_failure_keeps_state
    (w : World) (i : nat) (body : CommitBody) (r : FetchResult string)
    (msg : string) :
  inflight w !! i = Some (CommitDecisions body) →
  failureAlert r = Some msg →
  step w (Deliver i (CommitReply r))
  = Some {| ui := setProcessing false (ui w);
            alerts := (alerts w ++ [msg])%list;
            inflight := delete i (inflight w) |}.
Proof.
  intros Hflight Halert. simpl. rewrite Hflight. simpl.
  destruct r as [message|status detail|]; simpl in Halert;
    [discriminate | injection Halert as <- ..]; reflexivity.
Qed.

(** Property X7.  The reply to a preview request installs a preview only when it is
    ok with status "preview_ready"; then [preview] and
    [commentPreview] are what the reply carries and nothing is
    alerted.  Any other reply shows one alert and leaves [preview] and
    [commentPreview] as they were, so that a preview obtained earlier
    stays on screen.  In both cases [processing] is cleared and the
    step is unchanged. *)
Theorem preview_reply_effect
    (w : World) (i : nat) (e : string) (r : FetchResult PreviewResult) :
  inflight w !! i = Some (PreviewSplitwiseChanges e) →
  ∃ w',
    step w (Deliver i (PreviewReply r)) = Some w'
    ∧ inflight w' = delete i (inflight w)
    ∧ processing (ui w') = false
    ∧ workflowStep (ui w') = workflowStep (ui w)
    ∧ if previewReady r
      then alerts w' = alerts w
           ∧ ∃ result, r = HttpOk result
                       ∧ preview (ui w') = result_preview result
                       ∧ commentPreview (ui w') = result_comment_preview result
      else preview (ui w') = preview (ui w)
           ∧ commentPreview (ui w') = commentPreview (ui w)
           ∧ ∃ msg, alerts w' = (alerts w ++ [msg])%list.
Proof.
  intros Hflight. simpl. rewrite Hflight. simpl.
  eexists. split; [reflexivity|].
  unfold resumePreviewSplitwiseChanges, previewReady.
  destruct r as [result|status detail|]; simpl.
  - destruct (String.eqb (result_status result) "preview_ready"); simpl.
    + repeat split. exists result. repeat split.
    + repeat split. eexists; reflexivity.
  - repeat split. eexists; reflexivity.
  - repeat split. eexists; reflexivity.
Qed.

(** Property X8.  The two background requests fail silently.  A refresh of the
    groups or a status check whose reply is not ok, or that throws,
    shows no alert and writes no cell but the ones its [finally] (or
    that of the handler awaiting it) clears: the groups, the selected
    expense, the two sets, the preview and its comment, the step, the
    notes and the recorded status are as they were.  The refresh ends
    [loading] and, when [applyToSplitwiseAndMongoDB] awaited it,
    [processing]; the status check clears [processing] when
    [commitDecisions] awaited it, and is followed by the refresh when
    [applyToSplitwiseAndMongoDB] did. *)
Theorem background_failures_are_silent (w : World) (i : nat) :
  (∀ fin (r : FetchResult (list GroupedRequest)),
      inflight w !! i = Some (FetchGroupedRequests fin) →
      failed r = true →
      ∃ w', step w (Deliver i (GroupedReply r)) = Some w'
            ∧ alerts w' = alerts w
            ∧ inflight w' = delete i (inflight w)
            ∧ groupedRequests (ui w') = groupedRequests (ui w)
            ∧ selectedExpense (ui w') = selectedExpense (ui w)
            ∧ selectedRequests (ui w') = selectedRequests (ui w)
            ∧ rejectedRequests (ui w') = rejectedRequests (ui w)
            ∧ preview (ui w') = preview (ui w)
            ∧ commentPreview (ui w') = commentPreview (ui w)
            ∧ workflowStep (ui w') = workflowStep (ui w)
            ∧ adminNotes (ui w') = adminNotes (ui w)
            ∧ expenseStatus (ui w') = expenseStatus (ui w)
            ∧ loading (ui w') = false
            ∧ processing (ui w') = (if fin then false else processing (ui w)))
  ∧ (∀ e k (r : FetchResult ExpenseStatus),
      inflight w !! i = Some (CheckExpenseStatus e k) →
      failed r = true →
      ∃ w', step w (Deliver i (StatusReply r)) = Some w'
            ∧ alerts w' = alerts w
            ∧ inflight w'
              = (delete i (inflight w)
                 ++ match k with
                    | ThenApplyRefresh => [FetchGroupedRequests true]
                    | _ => []
                    end)%list
            ∧ groupedRequests (ui w') = groupedRequests (ui w)
            ∧ selectedExpense (ui w') = selectedExpense (ui w)
            ∧ selectedRequests (ui w') = selectedRequests (ui w)
            ∧ rejectedRequests (ui w') = rejectedRequests (ui w)
            ∧ preview (ui w') = preview (ui w)
            ∧ commentPreview (ui w') = commentPreview (ui w)
            ∧ workflowStep (ui w') = workflowStep (ui w)
            ∧ adminNotes (ui w') = adminNotes (ui w)
            ∧ expenseStatus (ui w') = expenseStatus (ui w)
            ∧ loading (ui w') = loading (ui w)
            ∧ processing (ui w')
              = match k with
                | ThenCommitFinally => false
                | _ => processing (ui w)
                end).
Proof.
  split.
  - intros fin r Hflight Hfailed. simpl. rewrite Hflight. simpl.
    eexists. split; [reflexivity|].
    unfold resumeFetchGroupedRequests.
    destruct r; [discriminate|..]; destruct fin; repeat split.
  - intros e k r Hflight Hfailed. simpl. rewrite Hflight. simpl.
    eexists. split; [reflexivity|].
    unfold resumeCheckExpenseStatus.
    destruct r; [discriminate|..]; destruct k; simpl;
      rewrite ?app_nil_r; repeat split.
Qed.

(** Property X9.  Until the groups have been fetched nothing can be clicked: while
    [loading] is set the only events are arrivals of replies.  Once
    [loading] is cleared it is never set again. *)
Theorem loading_gates_clicks (w : World) (ev : Event) :
  (loading (ui w) = true → isReply ev = false → step w ev = None)
  ∧ (∀ w', loading (ui w) = false → step w ev = Some w' →
           loading (ui w') = false).
Proof.
  split.
  - intros Hloading Hclick.
    destruct ev; try discriminate; simpl;
      unfold expenseCardRendered, toggleRendered, commitAvailable,
        previewAvailable, goBackAvailable, applyAvailable,
        processAnotherAvailable, decisionsPanelRendered, previewPanelRendered;
      rewrite Hloading; reflexivity.
  - intros w' Hloaded Hstep.
    destruct ev as [e|requestId action|text| | | | | |i r]; simpl in Hstep.
    + destruct (expenseCardRendered e (ui w)); [|discriminate].
      injection Hstep as <-. unfold clickExpense.
      destruct (_ && _); exact Hloaded.
    + destruct (toggleRendered requestId (ui w)); [|discriminate].
      injection Hstep as <-. simpl. unfold toggleRequestSelection.
      destruct action; case_bool_decide; exact Hloaded.
    + destruct (decisionsPanelRendered (ui w)); [|discriminate].
      injection Hstep as <-. exact Hloaded.
    + destruct (commitAvailable (ui w)); [|discriminate].
      injection Hstep as <-. unfold commitDecisions.
      destruct (selectedExpense (ui w)) as [e|]; [|exact Hloaded].
      destruct (JS.truthy (Some e)); exact Hloaded.
    + destruct (previewAvailable (ui w)); [|discriminate].
      injection Hstep as <-. unfold previewSplitwiseChanges.
      destruct (selectedExpense (ui w)) as [e|]; [|exact Hloaded].
      destruct (JS.truthy (Some e)); exact Hloaded.
    + destruct (goBackAvailable (ui w)); [|discriminate].
      injection Hstep as <-. exact Hloaded.
    + destruct (applyAvailable (ui w)); [|discriminate].
      injection Hstep as <-. unfold applyToSplitwiseAndMongoDB.
      destruct (selectedExpense (ui w)) as [e|]; [|exact Hloaded].
      destruct (JS.truthy (Some e)); exact Hloaded.
    + destruct (processAnotherAvailable (ui w)); [|discriminate].
      injection Hstep as <-. exact Hloaded.
    + destruct (inflight w !! i) as [t|]; [|discriminate].
      destruct t as [fin|e k|body|e|e], r as [r|r|r|r|r]; simpl in Hstep;
        try discriminate; injection Hstep as <-.
      * unfold resumeFetchGroupedRequests. destruct r, fin; reflexivity.
      * unfold resumeCheckExpenseStatus, stepOfStatus.
        destruct r as [status| |], k; simpl;
          repeat (match goal with
                  | |- context [if String.eqb ?a ?b then _ else _] =>
                      destruct (String.eqb a b)
                  end);
          exact Hloaded.
      * unfold resumeCommitDecisions. destruct r; exact Hloaded.
      * unfold resumePreviewSplitwiseChanges.
        destruct r as [result| |]; [destruct (String.eqb _ _)| |]; exact Hloaded.
      * unfold resumeApplyToSplitwiseAndMongoDB. destruct r; exact Hloaded.
Qed.

End Requests.

Section RequestsWitness.

Import BatchReview BatchReviewFlow Samples.

Lemma commit_requests_decide_something_witness :
  reachable (commitDecisions toggled)
  ∧ ∃ body,
      body ∈ commitBodies (commitDecisions toggled)
      ∧ body_expense_id body = "e1"
      ∧ (approved_request_ids body ≠ [] ∨ rejected_request_ids body ≠ []).
Proof.
  split; [exact committing_reachable|].
  exists {| body_expense_id := "e1"; approved_request_ids := ["r1"];
            rejected_request_ids := ["r2"]; admin_notes := "" |}.
  assert (Hin : {| body_expense_id := "e1"; approved_request_ids := ["r1"];
                   rejected_request_ids := ["r2"]; admin_notes := "" |}
                ∈ commitBodies (commitDecisions toggled)).
  { replace (commitBodies (commitDecisions toggled))
      with [{| body_expense_id := "e1"; approved_request_ids := ["r1"];
               rejected_request_ids := ["r2"]; admin_notes := "" |}]
      by (vm_compute; reflexivity).
    apply list_elem_of_singleton. reflexivity. }
  split; [exact Hin|]. split; [reflexivity|].
  exact (proj2 (commit_requests_decide_something _ _ committing_reachable Hin)).
Defined.

Lemma replies_keep_choices_witness :
  ∃ w',
    step (commitDecisions toggled) (Deliver 1 (CommitReply (HttpOk "saved")))
    = Some w'
    ∧ workflowStep (ui w') = StepPreview
    ∧ selectedRequests (ui w') = selectedRequests (ui (commitDecisions toggled))
    ∧ rejectedRequests (ui w') = rejectedRequests (ui (commitDecisions toggled)).
Proof.
  destruct (step (commitDecisions toggled)
              (Deliver 1 (CommitReply (HttpOk "saved")))) as [w'|] eqn:Hstep;
    [|vm_compute in Hstep; discriminate].
  exists w'. split; [reflexivity|].
  destruct (replies_keep_choices _ _ _ _ Hstep) as (_ & Hsel & Hrej & _).
  split; [|split; assumption].
  vm_compute in Hstep. injection Hstep as <-. reflexivity.
Defined.

Lemma commit_failure_keeps_state_witness :
  inflight (commitDecisions toggled) !! 1%nat
  = Some (CommitDecisions
            {| body_expense_id := "e1"; approved_request_ids := ["r1"];
               rejected_request_ids := ["r2"]; admin_notes := "" |})
  ∧ ∃ w',
      step (commitDecisions toggled)
           (Deliver 1 (CommitReply (HttpError 400 "Request r1 already processed")))
      = Some w'
      ∧ alerts w' = ["❌ Error: Request r1 already processed"]
      ∧ workflowStep (ui w') = StepDecisions
      ∧ processing (ui w') = false.
Proof.
  assert (Hflight :
            inflight (commitDecisions toggled) !! 1%nat
            = Some (CommitDecisions
                      {| body_expense_id := "e1"; approved_request_ids := ["r1"];
                         rejected_request_ids := ["r2"]; admin_notes := "" |}))
    by (vm_compute; reflexivity).
  split; [exact Hflight|].
  eexists. split.
  - exact (commit_failure_keeps_state _ _ _
             (HttpError 400 "Request r1 already processed") _ Hflight eq_refl).
  - repeat split.
Defined.

Lemma preview_reply_effect_witness :
  inflight (previewSplitwiseChanges previewing) !! 0%nat
  = Some (PreviewSplitwiseChanges "e1")
  ∧ ∃ w',
      step (previewSplitwiseChanges previewing)
           (Deliver 0 (PreviewReply
                         (HttpOk {| result_status := "no_changes";
                                    result_preview := None;
                                    result_comment_preview := None;
                                    result_message := "No approved changes" |})))
      = Some w'
      ∧ preview (ui w') = Some preview1.
Proof.
  split; [reflexivity|].
  destruct (preview_reply_effect (previewSplitwiseChanges previewing) 0 "e1"
              (HttpOk {| result_status := "no_changes";
                         result_preview := None;
                         result_comment_preview := None;
                         result_message := "No approved changes" |}) eq_refl)
    as (w' & Hstep & _ & _ & _ & Hkept).
  exists w'. split; [exact Hstep|].
  simpl in Hkept. destruct Hkept as (Hpreview & _). exact Hpreview.
Defined.

Lemma background_failures_are_silent_witness :
  inflight initialWorld !! 0%nat = Some (FetchGroupedRequests false)
  ∧ (∃ w',
       step initialWorld (Deliver 0 (GroupedReply Thrown)) = Some w'
       ∧ alerts w' = []
       ∧ groupedRequests (ui w') = []
       ∧ loading (ui w') = false)
  ∧ ∃ w',
      step (spawn (FetchGroupedRequests false) previewing)
           (Deliver 0 (GroupedReply (HttpError 500 "Internal Server Error")))
      = Some w'
      ∧ alerts w' = []
      ∧ preview (ui w') = Some preview1
      ∧ commentPreview (ui w') = commentPreview (ui previewing)
      ∧ expenseStatus (ui w') = expenseStatus (ui previewing).
Proof.
  split; [reflexivity|]. split.
  - destruct (proj1 (background_failures_are_silent initialWorld 0)
                false Thrown eq_refl eq_refl)
      as (w' & Hstep & Halerts & _ & Hgroups & _ & _ & _ & _ & _ & _ & _ & _
          & Hloaded & _).
    exists w'. repeat split; assumption.
  - destruct (proj1 (background_failures_are_silent
                       (spawn (FetchGroupedRequests false) previewing) 0)
                false (HttpError 500 "Internal Server Error") eq_refl eq_refl)
      as (w' & Hstep & Halerts & _ & _ & _ & _ & _ & Hpreview & Hcomment & _ & _
          & Hstatus & _).
    exists w'. repeat split; assumption.
Defined.

Lemma loading_gates_clicks_witness :
  loading (ui initialWorld) = true
  ∧ step initialWorld (ClickExpense "e1") = None
  ∧ loading (ui loaded) = false
  ∧ loading (ui selected) = false.
Proof.
  split; [reflexivity|].
  split.
  - exact (proj1 (loading_gates_clicks initialWorld (ClickExpense "e1"))
             eq_refl eq_refl).
  - split; [reflexivity|].
    apply (proj2 (loading_gates_clicks loaded (ClickExpense "e1")) selected);
      [reflexivity | vm_compute; reflexivity].
Defined.

End RequestsWitness.

(** ** The admin probes *)

Section AdminProbes.

Import AdminPage AdminPageRuns.

Lemma effects_app (runs more : list (bool * Probe)) (s : State) :
  effects (runs ++ more) s = effects more (effects runs s).
Proof. unfold effects. apply fold_left_app. Qed.

(** Property X11.  After any run of the effect the spinner is gone, and as soon as
    one run has made its probe the view is decided by the most recent
    probe alone: AdminDashboard when it was ok, Access Denied when it
    was not, whatever earlier probes said and whatever runs without
    probe came in between. *)
Theorem last_probe_decides (runs : list (bool * Probe)) (probe : Probe) :
  lastProbe runs = Some probe →
  loading (effects runs initialState) = false
  ∧ isAdmin (effects runs initialState) = Some (granted probe)
  ∧ render (effects runs initialState)
    = if granted probe then AdminDashboard else AccessDenied.
Proof.
  revert probe. induction runs as [|[isLoaded p] runs IH] using rev_ind;
    intros probe; [discriminate|].
  unfold lastProbe. rewrite List.filter_app, map_app. simpl.
  rewrite effects_app. simpl.
  destruct isLoaded; simpl.
  - rewrite last_snoc. intros [= <-].
    pose proof (probe_decides p (effects runs initialState)) as Hview.
    unfold render in *. unfold checkAdminStatus in *. simpl in *.
    destruct p as [status|]; simpl in *.
    + destruct (status =? 403)%nat eqn:Hforbidden.
      * apply Nat.eqb_eq in Hforbidden as ->. repeat split.
      * destruct (ok status); repeat split.
    + repeat split.
  - rewrite app_nil_r. intros Hlast.
    destruct (IH _ Hlast) as (_ & Hadmin & _).
    unfold checkAdminStatus, render; simpl. rewrite Hadmin.
    destruct (granted probe); repeat split.
Qed.

(** Property X12.  The admin link of the navigation bar is rendered exactly when
    some probe was answered with an ok response: no response that is
    not ok and no rejected request shows it, and once shown it is not
    hidden again. *)
Theorem admin_link_needs_ok_probe (probes : list Probe) :
  AdminNavLink.render (AdminNavLink.effects probes AdminNavLink.initialState)
  = if existsb granted probes then Some "/admin" else None.
Proof.
  assert (Hfold : ∀ b, AdminNavLink.effects probes b = b || existsb granted probes).
  { induction probes as [|p probes IH]; intros b; simpl.
    - rewrite orb_false_r. reflexivity.
    - unfold AdminNavLink.effects in *. simpl. rewrite IH.
      unfold AdminNavLink.checkAdminStatus.
      destruct p as [status|]; simpl; [destruct (ok status)|];
        destruct b; reflexivity. }
  rewrite Hfold. unfold AdminNavLink.initialState, AdminNavLink.render. simpl.
  destruct (existsb granted probes); reflexivity.
Qed.

End AdminProbes.

Section AdminProbesWitness.

Import AdminPage AdminPageRuns.

Lemma last_probe_decides_witness :
  lastProbe [(false, Rejected); (true, Response 200); (true, Response 403)]
  = Some (Response 403)
  ∧ render (effects [(false, Rejected); (true, Response 200); (true, Response 403)]
                    initialState)
    = AccessDenied.
Proof.
  split; [reflexivity|].
  exact (proj2 (proj2 (last_probe_decides
                         [(false, Rejected); (true, Response 200); (true, Response 403)]
                         (Response 403) eq_refl))).
Defined.

End AdminProbesWitness.

(** ** Dashboard: the error view and the rows *)

Section DashboardFacts.

Import DashboardPage.



(** Property X14.  "Your Items" lists exactly the items of the split whose member
    list includes the member, each once per occurrence and in the
    order of the split: no item of the member is left out and no
    other item is shown. *)
Theorem your_items_are_the_members_items
    (d : Dashboard.DashboardData) (split : Member.Split) :
  (∀ row : Dashboard.ItemRow,
      row ∈ Dashboard.yourItems d split
      ↔ ∃ item, item ∈ Member.items split
                ∧ Dashboard.member_name d ∈ Member.members item
                ∧ row = Dashboard.itemRow item)
  ∧ sublist (map Dashboard.row_name (Dashboard.yourItems d split))
            (map Member.name (Member.items split)).
Proof.
  split.
  - intros row. split; [apply yourItems_source|].
    intros (item & Hitem & Hmember & ->).
    unfold Dashboard.yourItems.
    apply list_elem_of_In, in_map, filter_In.
    split; [apply list_elem_of_In; exact Hitem|].
    unfold JS.includes. apply existsb_exists.
    exists (Dashboard.member_name d).
    split; [apply list_elem_of_In; exact Hmember | apply String.eqb_refl].
  - unfold Dashboard.yourItems.
    induction (Member.items split) as [|item items IH]; simpl; [constructor|].
    destruct (JS.includes (Member.members item) (Dashboard.member_name d)); simpl.
    + apply sublist_skip. exact IH.
    + apply sublist_cons. exact IH.
Qed.

End DashboardFacts.

Section DashboardWitness.

Import DashboardPage.


End DashboardWitness.

(** ** SplitDetail: join and leave requests *)

Section SplitDetailFacts.

Import SplitDetailPage.

Lemma includes_elem_of (l : list string) (x : string) :
  JS.includes l x = true ↔ x ∈ l.
Proof.
  unfold JS.includes. rewrite existsb_exists. split.
  - intros (y & Hy & Heq). apply String.eqb_eq in Heq as ->.
    apply list_elem_of_In. exact Hy.
  - intros Hx. exists x. split; [apply list_elem_of_In; exact Hx|].
    apply String.eqb_refl.
Qed.

(** Property X15.  The buttons of the items exist only in the detail view: not
    under the spinner, and not under the error box, also when a split
    is loaded.  A click on the button of an item posts one request,
    for the split of the page and the name of that item, and its
    action follows the member list displayed: "leave" when the member
    is in it and "join" when not.  A member is never made to join an
    item they already share, nor to leave one they do not. *)
Theorem update_request_follows_membership (w : World) (index : nat) (w' : World) :
  step w (ClickItemButton index) = Some w' →
  ∃ shown item,
    render (ui w) = Detail shown
    ∧ loading (ui w) = false
    ∧ JS.truthy (error (ui w)) = false
    ∧ split (ui w) = Some shown
    ∧ Member.items shown !! index = Some item
    ∧ updating (ui w) ≠ Some (Member.name item)
    ∧ inflight w'
      = (inflight w
         ++ [RequestUpdate
               {| split_id := splitId w;
                  body_item_name := Member.name item;
                  body_action :=
                    if bool_decide (memberName (ui w) ∈ Member.members item)
                    then Leave else Join |}])%list
    ∧ updating (ui w') = Some (Member.name item).
Proof.
  simpl. unfold itemButton, render.
  destruct (loading (ui w)); [discriminate|].
  destruct (JS.truthy (error (ui w))); [discriminate|].
  destruct (split (ui w)) as [shown|] eqn:Hshown; [|discriminate].
  destruct (Member.items shown !! index) as [item|] eqn:Hitem; [|discriminate].
  case_bool_decide as Hbusy; [discriminate|].
  intros [= <-]. exists shown, item.
  do 4 (split; [reflexivity|]). split; [exact Hitem|]. split; [exact Hbusy|].
  split; [|reflexivity]. simpl. do 4 f_equal.
  unfold SplitDetail.isParticipating.
  destruct (JS.includes (Member.members item) (memberName (ui w))) eqn:Hin.
  - apply includes_elem_of in Hin. rewrite bool_decide_eq_true_2; auto.
  - rewrite bool_decide_eq_false_2; [reflexivity|].
    intros Hx. apply includes_elem_of in Hx. congruence.
Qed.

(** Property X16.  Asking to join or leave never changes what is displayed.  Only the
    reply to [fetchSplitDetail] writes [split], [memberName], [error]
    and [loading]; a click leaves them alone, and so does the reply to
    an update request, which shows one alert (the status the server
    gave, or "Error:" with the reason) and clears [updating]. *)
Theorem update_requests_keep_split (w : World) (ev : Event) (w' : World) :
  step w ev = Some w' →
  (∀ i r, ev ≠ Deliver i (SplitReply r)) →
  split (ui w') = split (ui w)
  ∧ memberName (ui w') = memberName (ui w)
  ∧ error (ui w') = error (ui w)
  ∧ loading (ui w') = loading (ui w)
  ∧ ∀ i r, ev = Deliver i (UpdateReply r) →
           updating (ui w') = None
           ∧ alerts w' = (alerts w ++ [updateAlert r])%list
           ∧ inflight w' = delete i (inflight w).
Proof.
  intros Hstep Hnofetch.
  destruct ev as [index|id|i r]; simpl in Hstep.
  - destruct (itemButton index (ui w)) as [[itemName action]|]; [|discriminate].
    injection Hstep as <-.
    do 4 (split; [reflexivity|]). intros i r Hev. discriminate.
  - case_bool_decide; injection Hstep as <-;
      do 4 (split; [reflexivity|]); intros i r Hev; discriminate.
  - destruct (inflight w !! i) as [[id|body]|]; [| |discriminate];
      destruct r as [r|r]; try discriminate.
    + contradiction (Hnofetch i r). reflexivity.
    + injection Hstep as <-.
      do 4 (split; [reflexivity|]). intros j r' [= <- <-].
      repeat split.
Qed.

Lemma updateRequests_delete_fetch (l : list Task) (i : nat) (id : string) :
  l !! i = Some (FetchSplitDetail id) →
  flat_map (fun t => match t with
                     | RequestUpdate body => [body]
                     | FetchSplitDetail _ => []
                     end) (delete i l)
  = flat_map (fun t => match t with
                       | RequestUpdate body => [body]
                       | FetchSplitDetail _ => []
                       end) l.
Proof.
  revert i; induction l as [|t l IH]; intros [|i]; simpl; try discriminate.
  - intros [= ->]. reflexivity.
  - intros Hi. rewrite (IH _ Hi). reflexivity.
Qed.

(** Property X17.  The "Requesting..." state cannot get stuck: in every reachable
    state in which [updating] names an item, an update request is
    still in flight, whose reply will clear it. *)
Theorem updating_means_request_in_flight (w : World) :
  reachable w →
  updating (ui w) ≠ None →
  updateRequests w ≠ [].
Proof.
  induction 1 as [id|w ev w' _ IH Hstep]; [intros Hbusy; contradiction|].
  destruct ev as [index|id|i r]; simpl in Hstep.
  - destruct (itemButton index (ui w)) as [[itemName action]|]; [|discriminate].
    injection Hstep as <-. intros _. unfold updateRequests, requestUpdate; simpl.
    rewrite flat_map_app; simpl. intros Hnil.
    apply app_eq_nil in Hnil as [_ Hnil]. discriminate.
  - case_bool_decide; injection Hstep as <-; [exact IH|].
    intros Hbusy. unfold updateRequests; simpl.
    rewrite flat_map_app; simpl. rewrite app_nil_r. exact (IH Hbusy).
  - destruct (inflight w !! i) as [[id|body]|] eqn:Hflight; [| |discriminate];
      destruct r as [r|r]; try discriminate; injection Hstep as <-.
    + intros Hbusy. unfold updateRequests; simpl.
      rewrite (updateRequests_delete_fetch _ _ _ Hflight).
      apply IH. destruct r as [result| |[message|]]; exact Hbusy.
    + intros Hbusy. contradiction Hbusy. reflexivity.
Qed.

End SplitDetailFacts.

Section SplitDetailWitness.

Import SplitDetailPage MoreSamples.

Lemma viewing_reachable : reachable viewing.
Proof.
  apply (reachable_step (mount "s1")
           (Deliver 0 (SplitReply
                         (Fetched {| result_split := Some Samples.dinner;
                                     result_member_name := "C" |}))));
    [apply reachable_mount | reflexivity].
Defined.

Lemma update_request_follows_membership_witness :
  step viewing (ClickItemButton 0) = Some (requestUpdate "Pizza" Leave viewing)
  ∧ step viewing (ClickItemButton 1) = Some (requestUpdate "Soda" Join viewing)
  ∧ ∃ shown item,
      render (ui viewing) = Detail shown
      ∧ Member.items shown !! 1%nat = Some item
      ∧ inflight (requestUpdate "Soda" Join viewing)
        = [RequestUpdate
             {| split_id := "s1"; body_item_name := Member.name item;
                body_action := if bool_decide ("C" ∈ Member.members item)
                               then Leave else Join |}].
Proof.
  assert (Hleave : step viewing (ClickItemButton 0)
                   = Some (requestUpdate "Pizza" Leave viewing))
    by (vm_compute; reflexivity).
  assert (Hjoin : step viewing (ClickItemButton 1)
                  = Some (requestUpdate "Soda" Join viewing))
    by (vm_compute; reflexivity).
  split; [exact Hleave|]. split; [exact Hjoin|].
  destruct (update_request_follows_membership _ _ _ Hjoin)
    as (shown & item & Hshown & _ & _ & _ & Hitem & _ & Hsent & _).
  exists shown, item. split; [exact Hshown|]. split; [exact Hitem|]. exact Hsent.
Defined.

Lemma update_requests_keep_split_witness :
  ∃ w',
    step (requestUpdate "Pizza" Leave viewing) (Deliver 0 (UpdateReply NotOk))
    = Some w'
    ∧ split (ui w') = Some Samples.dinner
    ∧ alerts w' = ["Error: Failed to submit update request"].
Proof.
  destruct (step (requestUpdate "Pizza" Leave viewing)
              (Deliver 0 (UpdateReply NotOk))) as [w'|] eqn:Hstep;
    [|vm_compute in Hstep; discriminate].
  exists w'. split; [reflexivity|].
  assert (Hnofetch : ∀ i r, Deliver 0 (UpdateReply NotOk) ≠ Deliver i (SplitReply r))
    by (intros i r; discriminate).
  destruct (update_requests_keep_split _ _ _ Hstep Hnofetch)
    as (Hsplit & _ & _ & _ & Hreply).
  destruct (Hreply 0%nat NotOk eq_refl) as (_ & Halerts & _).
  split; [rewrite Hsplit; reflexivity | rewrite Halerts; reflexivity].
Defined.

Lemma updating_means_request_in_flight_witness :
  reachable (requestUpdate "Pizza" Leave viewing)
  ∧ updating (ui (requestUpdate "Pizza" Leave viewing)) = Some "Pizza"
  ∧ updateRequests (requestUpdate "Pizza" Leave viewing) ≠ [].
Proof.
  assert (Hreach : reachable (requestUpdate "Pizza" Leave viewing)).
  { apply (reachable_step viewing (ClickItemButton 0));
      [exact viewing_reachable | vm_compute; reflexivity]. }
  split; [exact Hreach|]. split; [reflexivity|].
  apply (updating_means_request_in_flight _ Hreach). discriminate.
Defined.

End SplitDetailWitness.

(** ** ExpenseMigration *)

Section ExpenseMigrationFacts.

Import ExpenseMigration.

Lemma handleMigration_tidy (w : World) :
  isLoading (ui w) = false → tidy w → tidy (handleMigration w).
Proof.
  intros Hidle (Hrecent & Hflight & Hids). unfold handleMigration.
  rewrite Hidle in Hflight.
  destruct (isBlank (expenseId (ui w))) eqn:Hblank.
  - split; [|split]; simpl; [exact Hrecent | rewrite Hidle; exact Hflight | exact Hids].
  - split; [|split]; simpl; [exact Hrecent | rewrite length_app, Hflight; reflexivity|].
    intros id Hin. apply elem_of_app in Hin as [Hin|Hin]; [exact (Hids _ Hin)|].
    apply list_elem_of_singleton in Hin as ->. exact Hblank.
Qed.

Lemma step_tidy (w : World) (ev : Event) (w' : World) :
  tidy w → step w ev = Some w' → tidy w'.
Proof.
  intros Htidy Hstep. pose proof Htidy as (Hrecent & Hflight & Hids).
  destruct ev as [text| | | | |i r]; simpl in Hstep.
  - destruct (isLoading (ui w)) eqn:Hidle; [discriminate|].
    injection Hstep as <-. split; [|split]; simpl;
      [exact Hrecent | rewrite Hidle; exact Hflight | exact Hids].
  - destruct (isLoading (ui w)) eqn:Hidle; [discriminate|].
    injection Hstep as <-. exact (handleMigration_tidy _ Hidle Htidy).
  - destruct (isLoading (ui w)) eqn:Hidle; [discriminate|].
    destruct (isBlank (expenseId (ui w))); [discriminate|].
    injection Hstep as <-. exact (handleMigration_tidy _ Hidle Htidy).
  - injection Hstep as <-. split; [|split]; simpl; assumption.
  - injection Hstep as <-. split; [|split]; simpl; assumption.
  - destruct (inflight w !! i) as [submitted|] eqn:Hi; [|discriminate].
    injection Hstep as <-.
    assert (Hbusy : isLoading (ui w) = true).
    { destruct (isLoading (ui w)); [reflexivity|].
      apply lookup_lt_Some in Hi. lia. }
    rewrite Hbusy in Hflight.
    assert (Hone : delete i (inflight w) = []).
    { destruct (inflight w) as [|a [|b l]]; simpl in *; try discriminate.
      destruct i; [reflexivity | discriminate]. }
    rewrite Hone. split; [|split]; simpl.
    + unfold resumeMigration.
      destruct r as [status message expense_data|detail|thrown]; simpl;
        [|exact Hrecent..].
      destruct (String.eqb status "success"); simpl; [|exact Hrecent].
      rewrite length_take. lia.
    + unfold resumeMigration.
      destruct r as [status message expense_data|detail|thrown]; simpl;
        [destruct (String.eqb status "success")| |]; reflexivity.
    + intros id Hin. inversion Hin.
Qed.

(** Property X18.  In every reachable state the list of recent imports has at most
    five entries, at most one import request is in flight (one exactly
    while [isLoading]), and no request was sent for an identifier that
    is blank after trimming. *)
Theorem imports_stay_tidy (w : World) :
  reachable w →
  (length (recentMigrations (ui w)) ≤ 5)%nat
  ∧ length (inflight w) = (if isLoading (ui w) then 1%nat else 0%nat)
  ∧ ∀ id, id ∈ inflight w → isBlank id = false.
Proof.
  induction 1 as [|w ev w' _ IH Hstep].
  - split; [|split]; simpl; [lia | reflexivity|].
    intros id Hin. inversion Hin.
  - exact (step_tidy _ _ _ IH Hstep).
Qed.

(** Property X19.  Only an ok reply whose status is "success" records an import: the
    identifier submitted is put in front of the four most recent ones
    and the input is emptied.  Every other reply (already existing,
    refused, failed) leaves the list and the input as they are.  In
    all cases the reply ends [isLoading] and sets a result. *)
Theorem only_success_is_recorded
    (w : World) (i : nat) (submitted : string) (r : MigrationReply) :
  inflight w !! i = Some submitted →
  ∃ w',
    step w (Deliver i r) = Some w'
    ∧ isLoading (ui w') = false
    ∧ result (ui w') ≠ None
    ∧ if isSuccess r
      then recentMigrations (ui w') = submitted :: take 4 (recentMigrations (ui w))
           ∧ expenseId (ui w') = ""
      else recentMigrations (ui w') = recentMigrations (ui w)
           ∧ expenseId (ui w') = expenseId (ui w).
Proof.
  intros Hi. simpl. rewrite Hi. eexists. split; [reflexivity|]. simpl.
  unfold resumeMigration, isSuccess.
  destruct r as [status message expense_data|detail|thrown]; simpl.
  - destruct (String.eqb status "success"); simpl; repeat split; discriminate.
  - repeat split; discriminate.
  - repeat split; discriminate.
Qed.

End ExpenseMigrationFacts.

Section ExpenseMigrationWitness.

Import ExpenseMigration MoreSamples.

Lemma importing_reachable :
  reachable (handleMigration
               {| ui := setExpenseId "3867079269" initialState; inflight := [] |}).
Proof.
  apply (reachable_step
           {| ui := setExpenseId "3867079269" initialState; inflight := [] |}
           ClickImport); [|reflexivity].
  apply (reachable_step initialWorld (ChangeInput "3867079269"));
    [apply reachable_initial | reflexivity].
Defined.

Lemma imports_stay_tidy_witness :
  reachable (handleMigration
               {| ui := setExpenseId "3867079269" initialState; inflight := [] |})
  ∧ inflight (handleMigration
                {| ui := setExpenseId "3867079269" initialState; inflight := [] |})
    = ["3867079269"]
  ∧ isBlank "3867079269" = false.
Proof.
  split; [exact importing_reachable|]. split; [reflexivity|].
  apply (proj2 (proj2 (imports_stay_tidy _ importing_reachable))).
  apply list_elem_of_singleton. reflexivity.
Defined.

Lemma only_success_is_recorded_witness :
  inflight (handleMigration typed) !! 0%nat = Some "3867079269"
  ∧ ∃ w',
      step (handleMigration typed) (Deliver 0 (Imported "success" "Imported" None))
      = Some w'
      ∧ recentMigrations (ui w') = ["3867079269"; "5"; "4"; "3"; "2"]
      ∧ expenseId (ui w') = "".
Proof.
  split; [reflexivity|].
  destruct (only_success_is_recorded (handleMigration typed) 0 "3867079269"
              (Imported "success" "Imported" None) eq_refl)
    as (w' & Hstep & _ & _ & Hrecorded).
  exists w'. split; [exact Hstep|]. exact Hrecorded.
Defined.

End ExpenseMigrationWitness.

(** ** AdminDashboard *)

Section AdminDashboardFacts.

Import AdminDashboard.


(** Property X21.  Every request of the list is shown in exactly one of the two
    sections of the requests tab, pending or processed; the badge
    counts the pending ones, and of the processed ones the first five
    at most are shown, in the order of the list. *)
Theorem requests_are_pending_or_processed (s : State) :
  (length (pendingShown s) + length (processed s))%nat = length (pendingUpdates s)
  ∧ (∀ u, u ∈ pendingUpdates s →
          (u ∈ pendingShown s ∧ status u = "pending" ∧ u ∉ processed s)
          ∨ (u ∈ processed s ∧ status u ≠ "pending" ∧ u ∉ pendingShown s))
  ∧ (length (processedShown s) ≤ 5)%nat
  ∧ processedShown s `prefix_of` processed s.
Proof.
  unfold pendingShown, processed, processedShown.
  split; [|split; [|split]].
  - induction (pendingUpdates s) as [|u l IH]; simpl; [reflexivity|].
    destruct (String.eqb (status u) "pending"); simpl; lia.
  - intros u Hu. apply list_elem_of_In in Hu.
    destruct (String.eqb (status u) "pending") eqn:Hstatus.
    + left. split; [apply list_elem_of_In, filter_In; split; assumption|].
      split; [apply String.eqb_eq; exact Hstatus|].
      intros Hin. apply list_elem_of_In, filter_In in Hin as [_ Hin].
      rewrite Hstatus in Hin. discriminate.
    + right. split; [apply list_elem_of_In, filter_In; split;
                     [assumption | rewrite Hstatus; reflexivity]|].
      split; [apply String.eqb_neq; exact Hstatus|].
      intros Hin. apply list_elem_of_In, filter_In in Hin as [_ Hin].
      congruence.
  - rewrite length_take. lia.
  - apply prefix_take.
Qed.

Lemma delete_last {A : Type} (l : list A) (x : A) :
  delete (length l) (l ++ [x])%list = l.
Proof. induction l as [|a l IH]; simpl; [reflexivity | rewrite IH; reflexivity]. Qed.

(** Property X23.  When a decision fails, by a response that is not ok or a rejected
    request, one alert is shown and the notes and the list are kept.
    When it succeeds the list is fetched again and, whatever the
    outcome of that fetch, the note of the decided request is then
    deleted, the notes of the other requests are kept, and
    [processingId] is cleared. *)
Theorem decision_clears_its_note_only
    (w : World) (i : nat) (body : ApprovalBody) :
  inflight w !! i = Some (ApproveUpdate body) →
  (∀ r : Attempt unit,
      caughtMessage ("Failed to " ++ decisionName (action body) ++ " update") r ≠ None →
      ∃ w' msg,
        step w (Deliver i (ApprovalReply r)) = Some w'
        ∧ alerts w' = (alerts w ++ [("Error: " ++ msg)%string])%list
        ∧ adminNotes (ui w') = adminNotes (ui w)
        ∧ pendingUpdates (ui w') = pendingUpdates (ui w)
        ∧ processingId (ui w') = None)
  ∧ ∃ w1,
      step w (Deliver i (ApprovalReply (Fetched tt))) = Some w1
      ∧ adminNotes (ui w1) = adminNotes (ui w)
      ∧ ∀ r2, ∃ w2,
          step w1 (Deliver (length (inflight w1) - 1) (UpdatesReply r2)) = Some w2
          ∧ adminNotes (ui w2) = delete (update_id body) (adminNotes (ui w))
          ∧ adminNotes (ui w2) !! update_id body = None
          ∧ (∀ other, other ≠ update_id body →
                      adminNotes (ui w2) !! other = adminNotes (ui w) !! other)
          ∧ processingId (ui w2) = None.
Proof.
  intros Hi. split.
  - intros r Hfailed. simpl. rewrite Hi. simpl.
    unfold resumeApproval.
    destruct r as [[]| |thrown]; [contradiction Hfailed; reflexivity|..];
      eexists _, _; repeat split.
  - simpl. rewrite Hi. simpl. eexists. split; [reflexivity|].
    split; [reflexivity|]. intros r2. simpl.
    rewrite length_app. simpl.
    replace (length (delete i (inflight w)) + 1 - 1)%nat
      with (length (delete i (inflight w))) by lia.
    rewrite list_lookup_middle by reflexivity.
    eexists. split; [reflexivity|]. simpl.
    unfold resumeFetchPendingUpdates.
    destruct r2 as [found| |[thrown|]]; simpl;
      (split; [reflexivity|]; split; [apply lookup_delete_eq|];
       split; [intros other Hother; apply lookup_delete_ne; congruence | reflexivity]).
Qed.

(** Property X22.  A click on Approve or Reject posts the decision with the note
    typed for that request, or the empty string when the map of notes
    has no entry for it, and marks the request as being processed. *)
Theorem decision_sends_typed_note
    (w : World) (updateId : string) (d : Decision) (w' : World) :
  step w (ClickDecision updateId d) = Some w' →
  (∃ u, u ∈ pendingUpdates (ui w) ∧ _id u = updateId ∧ status u = "pending")
  ∧ processingId (ui w) ≠ Some updateId
  ∧ inflight w'
    = (inflight w
       ++ [ApproveUpdate
             {| update_id := updateId; action := d;
                body_admin_notes :=
                  match adminNotes (ui w) !! updateId with
                  | Some note => note
                  | None => ""
                  end |}])%list
  ∧ processingId (ui w') = Some updateId
  ∧ adminNotes (ui w') = adminNotes (ui w).
Proof.
  simpl. destruct (cardShown updateId (ui w)) eqn:Hshown; [|discriminate].
  simpl. case_bool_decide as Hbusy; [discriminate|]. simpl.
  intros [= <-]. split; [|repeat split; exact Hbusy].
  unfold cardShown in Hshown.
  destruct (render (ui w)) as [| |[]]; try discriminate.
  apply existsb_exists in Hshown as (u & Hu & Hid).
  unfold pendingShown in Hu. apply filter_In in Hu as [Hu Hpending].
  exists u. split; [apply list_elem_of_In; exact Hu|].
  split; apply String.eqb_eq; assumption.
Qed.

End AdminDashboardFacts.

Section AdminDashboardWitness.

Import AdminDashboard MoreSamples.


Lemma requests_are_pending_or_processed_witness :
  pendingOne ∈ pendingUpdates (ui reviewingRequests)
  ∧ pendingOne ∈ pendingShown (ui reviewingRequests)
  ∧ pendingOne ∉ processed (ui reviewingRequests).
Proof.
  assert (Hin : pendingOne ∈ pendingUpdates (ui reviewingRequests))
    by (apply list_elem_of_singleton; reflexivity).
  split; [exact Hin|].
  destruct (proj1 (proj2 (requests_are_pending_or_processed (ui reviewingRequests)))
              pendingOne Hin)
    as [(Hshown & _ & Hnot) | (_ & Hstatus & _)].
  - split; assumption.
  - contradiction Hstatus. reflexivity.
Defined.

Lemma decision_sends_typed_note_witness :
  step reviewingRequests (ClickDecision "u1" Approve)
  = Some (handleApproval "u1" Approve reviewingRequests)
  ∧ inflight (handleApproval "u1" Approve reviewingRequests)
    = [ApproveUpdate {| update_id := "u1"; action := Approve;
                        body_admin_notes := "fine" |}].
Proof.
  assert (Hstep : step reviewingRequests (ClickDecision "u1" Approve)
                  = Some (handleApproval "u1" Approve reviewingRequests))
    by (vm_compute; reflexivity).
  split; [exact Hstep|].
  destruct (decision_sends_typed_note _ _ _ _ Hstep) as (_ & _ & Hsent & _).
  rewrite Hsent. vm_compute. reflexivity.
Defined.

Lemma decision_clears_its_note_only_witness :
  inflight (handleApproval "u1" Approve reviewingRequests) !! 0%nat
  = Some (ApproveUpdate {| update_id := "u1"; action := Approve;
                           body_admin_notes := "fine" |})
  ∧ ∃ w1 w2,
      step (handleApproval "u1" Approve reviewingRequests)
           (Deliver 0 (ApprovalReply (Fetched tt))) = Some w1
      ∧ step w1 (Deliver 0 (UpdatesReply NotOk)) = Some w2
      ∧ adminNotes (ui w2) !! "u1" = None
      ∧ adminNotes (ui w2) !! "u2" = Some "later".
Proof.
  assert (Hflight :
            inflight (handleApproval "u1" Approve reviewingRequests) !! 0%nat
            = Some (ApproveUpdate {| update_id := "u1"; action := Approve;
                                     body_admin_notes := "fine" |}))
    by (vm_compute; reflexivity).
  split; [exact Hflight|].
  destruct (proj2 (decision_clears_its_note_only _ _ _ Hflight))
    as (w1 & Hstep1 & _ & Hthen).
  destruct (Hthen NotOk) as (w2 & Hstep2 & _ & Hgone & Hkept & _).
  exists w1, w2. split; [exact Hstep1|].
  assert (Hindex : (length (inflight w1) - 1 = 0)%nat)
    by (vm_compute in Hstep1; injection Hstep1 as <-; reflexivity).
  rewrite Hindex in Hstep2. split; [exact Hstep2|].
  split; [exact Hgone|].
  rewrite (Hkept "u2") by discriminate. vm_compute. reflexivity.
Defined.

End AdminDashboardWitness.

Section DashboardRowsWitness.

Import Samples.

Lemma your_items_are_the_members_items_witness :
  pizza ∈ Member.items dinner
  ∧ "C" ∈ Member.members pizza
  ∧ Dashboard.itemRow pizza ∈ Dashboard.yourItems dashboardOfC dinner.
Proof.
  assert (Hitem : pizza ∈ Member.items dinner) by (left).
  assert (Hmember : "C" ∈ Member.members pizza) by (do 2 right; left).
  split; [exact Hitem|]. split; [exact Hmember|].
  apply (proj1 (your_items_are_the_members_items dashboardOfC dinner)).
  exists pizza. split; [exact Hitem|]. split; [exact Hmember | reflexivity].
Defined.

End DashboardRowsWitness.

(** ** BulkExpenseMigration *)

Section BulkFacts.

Import BulkExpenseMigration.

Variable timeOf : string → option Z.

Lemma step_orderly (w : World) (ev : Event) (w' : World) :
  orderly timeOf w → step timeOf w ev = Some w' → orderly timeOf w'.
Proof.
  intros [Hflight Hparams] Hstep.
  destruct ev as [start finish|text|text|group| |i r]; simpl in Hstep.
  - destruct (isLoading (ui w)) eqn:Hidle; [discriminate|].
    injection Hstep as <-. split; simpl; [rewrite Hidle; exact Hflight | exact Hparams].
  - destruct (isLoading (ui w)) eqn:Hidle; [discriminate|].
    injection Hstep as <-. split; simpl; [rewrite Hidle; exact Hflight | exact Hparams].
  - destruct (isLoading (ui w)) eqn:Hidle; [discriminate|].
    injection Hstep as <-. split; simpl; [rewrite Hidle; exact Hflight | exact Hparams].
  - destruct (isLoading (ui w)) eqn:Hidle; [discriminate|].
    injection Hstep as <-. split; simpl; [rewrite Hidle; exact Hflight | exact Hparams].
  - destruct (isLoading (ui w)) eqn:Hidle; [discriminate|]. simpl in Hstep.
    destruct (String.eqb (startDate (ui w)) "") eqn:Hstart; [discriminate|].
    destruct (String.eqb (endDate (ui w)) "") eqn:Hend; [discriminate|].
    injection Hstep as <-. unfold handleBulkImport. rewrite Hstart, Hend. simpl.
    destruct (after timeOf (startDate (ui w)) (endDate (ui w))) eqn:Hafter.
    + split; simpl; [rewrite Hidle; exact Hflight | exact Hparams].
    + split; simpl; [rewrite length_app, Hflight; reflexivity|].
      intros p Hin. apply elem_of_app in Hin as [Hin|Hin]; [exact (Hparams _ Hin)|].
      apply list_elem_of_singleton in Hin as ->.
      split; [|split]; simpl;
        [apply String.eqb_neq; exact Hstart | apply String.eqb_neq; exact Hend
        | exact Hafter].
  - destruct (inflight w !! i) as [p|] eqn:Hi; [|discriminate].
    injection Hstep as <-.
    assert (Hbusy : isLoading (ui w) = true).
    { destruct (isLoading (ui w)); [reflexivity|].
      apply lookup_lt_Some in Hi. lia. }
    rewrite Hbusy in Hflight.
    assert (Hone : delete i (inflight w) = []).
    { destruct (inflight w) as [|a [|b l]]; simpl in *; try discriminate.
      destruct i; [reflexivity | discriminate]. }
    split; simpl; rewrite Hone.
    + destruct r; reflexivity.
    + intros q Hin. inversion Hin.
Qed.

(** Property X24.  In every reachable state at most one bulk import is in flight (one
    exactly while [isLoading]), and every request sent has both dates
    filled in and a start date that is not after the end date.  A
    click on the start button with an inverted range is answered by
    the alert "Start date must be before end date" and nothing else:
    no request is sent and no cell is written; with any other range
    it shows no alert, sets [isLoading], clears [result] and sends the
    request for the dates and the group of the form. *)
Theorem bulk_requests_are_ordered (w : World) (p : Params) (w' : World) :
  reachable timeOf w →
  length (inflight w) = (if isLoading (ui w) then 1%nat else 0%nat)
  ∧ (p ∈ inflight w →
     start_date p ≠ "" ∧ end_date p ≠ ""
     ∧ after timeOf (start_date p) (end_date p) = false)
  ∧ (step timeOf w ClickStart = Some w' →
     if after timeOf (startDate (ui w)) (endDate (ui w))
     then alerts w' = (alerts w ++ ["Start date must be before end date"])%list
          ∧ inflight w' = inflight w
          ∧ ui w' = ui w
     else alerts w' = alerts w
          ∧ inflight w'
            = [{| start_date := startDate (ui w); end_date := endDate (ui w);
                  group_id := selectedGroup (ui w) |}]
          ∧ ui w' = setResult None (setIsLoading true (ui w))).
Proof.
  intros Hreach.
  assert (Horderly : orderly timeOf w).
  { induction Hreach as [|w0 ev w1 _ IH Hstep].
    - split; [reflexivity|]. intros q Hin. inversion Hin.
    - exact (step_orderly _ _ _ IH Hstep). }
  destruct Horderly as [Hflight Hparams].
  split; [exact Hflight|]. split; [exact (Hparams p)|].
  simpl. destruct (isLoading (ui w)) eqn:Hidle; [discriminate|]. simpl.
  destruct (String.eqb (startDate (ui w)) "") eqn:Hstart; [discriminate|].
  destruct (String.eqb (endDate (ui w)) "") eqn:Hend; [discriminate|].
  simpl. intros [= <-]. unfold handleBulkImport. rewrite Hstart, Hend. simpl.
  destruct (after timeOf (startDate (ui w)) (endDate (ui w))); simpl.
  - repeat split.
  - split; [reflexivity|]. split; [|reflexivity].
    destruct (inflight w); [reflexivity | discriminate].
Qed.

End BulkFacts.

Section BulkWitness.

Import BulkExpenseMigration MoreSamples.

Lemma bulk_requests_are_ordered_witness :
  reachable januaryTimes (handleBulkImport januaryTimes january)
  ∧ inflight (handleBulkImport januaryTimes january)
    = [{| start_date := "2025-01-01"; end_date := "2025-01-31"; group_id := "all" |}]
  ∧ after januaryTimes "2025-01-01" "2025-01-31" = false
  ∧ reachable januaryTimes inverted
  ∧ step januaryTimes inverted ClickStart
    = Some (handleBulkImport januaryTimes inverted)
  ∧ alerts (handleBulkImport januaryTimes inverted)
    = ["Start date must be before end date"]
  ∧ inflight (handleBulkImport januaryTimes inverted) = [].
Proof.
  assert (Hreach : reachable januaryTimes (handleBulkImport januaryTimes january)).
  { apply (reachable_step januaryTimes january ClickStart); [|reflexivity].
    apply (reachable_step januaryTimes
             {| ui := initialState; alerts := []; inflight := [] |}
             (SetDates "2025-01-01" "2025-01-31")); [|reflexivity].
    apply reachable_initial. }
  assert (Hinverted : reachable januaryTimes inverted).
  { apply (reachable_step januaryTimes
             {| ui := initialState; alerts := []; inflight := [] |}
             (SetDates "2025-01-31" "2025-01-01")); [|reflexivity].
    apply reachable_initial. }
  assert (Hclick : step januaryTimes inverted ClickStart
                   = Some (handleBulkImport januaryTimes inverted))
    by reflexivity.
  split; [exact Hreach|]. split; [reflexivity|].
  split.
  { apply (bulk_requests_are_ordered januaryTimes _
             {| start_date := "2025-01-01"; end_date := "2025-01-31";
                group_id := "all" |} january Hreach).
    apply list_elem_of_singleton. reflexivity. }
  split; [exact Hinverted|]. split; [exact Hclick|].
  destruct (bulk_requests_are_ordered januaryTimes inverted
              {| start_date := ""; end_date := ""; group_id := "" |}
              (handleBulkImport januaryTimes inverted) Hinverted)
    as (_ & _ & Hanswer).
  specialize (Hanswer Hclick). simpl in Hanswer.
  destruct Hanswer as (Halerts & Hflight & _).
  split; [exact Halerts | exact Hflight].
Defined.

End BulkWitness.

(** ** BatchReviewComponent: the notes *)

Section Notes.

Import BatchReview.

(** Property X10.  The admin notes are written by the notes field and by nothing
    else: selecting another expense, going back, starting another
    group and every reply leave them as they are, so notes typed for
    one expense are still there, and are sent, when the decisions of
    the next one are committed. *)
Theorem notes_outlive_the_expense (w : World) (ev : Event) (w' : World) :
  step w ev = Some w' →
  (∀ text, ev ≠ ChangeNotes text) →
  adminNotes (ui w') = adminNotes (ui w)
  ∧ (ev = ClickCommit →
     ∀ body, body ∈ commitBodies w' → body ∉ commitBodies w →
             admin_notes body = adminNotes (ui w)).
Proof.
  intros Hstep Hother.
  destruct ev as [e|requestId action|text| | | | | |i r].
  - simpl in Hstep. destruct (expenseCardRendered e (ui w)); [|discriminate].
    injection Hstep as <-. split; [|discriminate].
    unfold clickExpense. destruct (_ && _); reflexivity.
  - simpl in Hstep. destruct (toggleRendered requestId (ui w)); [|discriminate].
    injection Hstep as <-. split; [|discriminate].
    simpl. unfold toggleRequestSelection.
    destruct action; case_bool_decide; reflexivity.
  - contradiction (Hother text). reflexivity.
  - simpl in Hstep. destruct (commitAvailable (ui w)); [|discriminate].
    injection Hstep as <-. unfold commitDecisions.
    destruct (selectedExpense (ui w)) as [e|];
      [|split; [reflexivity | intros _ body Hin Hout; contradiction]].
    destruct (JS.truthy (Some e));
      [|split; [reflexivity | intros _ body Hin Hout; contradiction]].
    split; [reflexivity|]. intros _ body Hin Hout.
    rewrite commitBodies_spawn in Hin. simpl in Hin.
    apply elem_of_app in Hin as [Hin|Hin]; [contradiction|].
    apply list_elem_of_singleton in Hin as ->. reflexivity.
  - simpl in Hstep. destruct (previewAvailable (ui w)); [|discriminate].
    injection Hstep as <-. split; [|discriminate].
    unfold previewSplitwiseChanges.
    destruct (selectedExpense (ui w)) as [e|]; [|reflexivity].
    destruct (JS.truthy (Some e)); reflexivity.
  - simpl in Hstep. destruct (goBackAvailable (ui w)); [|discriminate].
    injection Hstep as <-. split; [reflexivity | discriminate].
  - simpl in Hstep. destruct (applyAvailable (ui w)); [|discriminate].
    injection Hstep as <-. split; [|discriminate].
    unfold applyToSplitwiseAndMongoDB.
    destruct (selectedExpense (ui w)) as [e|]; [|reflexivity].
    destruct (JS.truthy (Some e)); reflexivity.
  - simpl in Hstep. destruct (processAnotherAvailable (ui w)); [|discriminate].
    injection Hstep as <-. split; [reflexivity | discriminate].
  - split; [|discriminate]. simpl in Hstep.
    destruct (inflight w !! i) as [t|]; [|discriminate].
    exact (proj2 (proj2 (proj2 (resume_keeps_choices _ _ _ _ Hstep)))).
Qed.

End Notes.

Section NotesWitness.

Import BatchReview Samples.

Lemma notes_outlive_the_expense_witness :
  step (update (setAdminNotes "checked with D") deciding) (ClickExpense "e1")
  = Some (clickExpense "e1" (update (setAdminNotes "checked with D") deciding))
  ∧ adminNotes
      (ui (clickExpense "e1" (update (setAdminNotes "checked with D") deciding)))
    = "checked with D"
  ∧ selectedRequests
      (ui (clickExpense "e1" (update (setAdminNotes "checked with D") deciding)))
    = ∅.
Proof.
  assert (Hstep :
            step (update (setAdminNotes "checked with D") deciding) (ClickExpense "e1")
            = Some (clickExpense "e1"
                      (update (setAdminNotes "checked with D") deciding)))
    by (vm_compute; reflexivity).
  split; [exact Hstep|].
  assert (Hother : ∀ text, ClickExpense "e1" ≠ ChangeNotes text)
    by (intros text; discriminate).
  split; [|reflexivity].
  rewrite (proj1 (notes_outlive_the_expense _ _ _ Hstep Hother)). reflexivity.
Defined.

End NotesWitness.
